(** * Pico-Development-Kit: display and touch drivers

    A shallow embedding of the hardware-facing layer of the kit:

    - [gt911.c]        the GT911 capacitive-touch driver (I2C),
    - [st7796.c]       the ST7796 LCD driver (SPI plus three control lines),
    - [lv_port_disp.c] the LVGL flush callback built on the LCD driver.

    The C code keeps its state in file-scope [static] variables and talks to
    the outside world through Pico SDK calls.  Both are made explicit here:
    the statics are the fields of [machine], every SDK call appends one
    [event] to [trace], and the value an SDK call returns is taken from a
    response table [bus : nat -> response], indexed by the number of
    value-returning SDK calls made so far ([calls]).  Since the drivers are
    deterministic, quantifying over every [bus] covers every behaviour of the
    attached devices, transport failures included. *)

From Stdlib Require Import ZArith Lia Bool List.
From stdpp Require Import base list.
Import ListNotations.
Local Open Scope Z_scope.

(** ** Fixed-width integers *)

Definition u8 (z : Z) : Z := z mod 256.
Definition u16 (z : Z) : Z := z mod 65536.
Definition u32 (z : Z) : Z := z mod 4294967296.
(** Conversion to [int16_t] (two's complement). *)
Definition s16 (z : Z) : Z := (z + 32768) mod 65536 - 32768.

Definition is_u8 (z : Z) : Prop := 0 <= z < 256.
Definition is_u16 (z : Z) : Prop := 0 <= z < 65536.

(** ** Board constants ([gt911.h], [st7796.h]) *)

Definition GT911_I2C_ADDR : Z := 0x5D.
Definition GT911_PRODUCT_ID_LEN : Z := 4.
Definition GT911_PIN_SDA : Z := 8.
Definition GT911_PIN_SCL : Z := 9.
Definition GT911_I2C_BAUDRATE : Z := 100000.

Definition GT911_REG_PRODUCT_ID1 : Z := 0x8140.
Definition GT911_REG_X_RES_L : Z := 0x8146.
Definition GT911_REG_X_RES_H : Z := 0x8147.
Definition GT911_REG_Y_RES_L : Z := 0x8148.
Definition GT911_REG_Y_RES_H : Z := 0x8149.
Definition GT911_REG_VENDOR_ID : Z := 0x814A.
Definition GT911_REG_STATUS : Z := 0x814E.
Definition GT911_REG_PT1_X_L : Z := 0x8150.
Definition GT911_REG_PT1_X_H : Z := 0x8151.
Definition GT911_REG_PT1_Y_L : Z := 0x8152.
Definition GT911_REG_PT1_Y_H : Z := 0x8153.

Definition GT911_STATUS_BUF_READY : Z := 0x80.
Definition GT911_STATUS_PT_MASK : Z := 0x0F.

Definition ST7796_PIN_CS : Z := 5.
Definition ST7796_PIN_DC : Z := 6.
Definition ST7796_PIN_RST : Z := 7.

Definition ST7796_CMD_CASET : Z := 0x2A.
Definition ST7796_CMD_RASET : Z := 0x2B.
Definition ST7796_CMD_RAMWR : Z := 0x2C.
Definition ST7796_CMD_MADCTL : Z := 0x36.

(** ** Data model *)

Inductive gpio_function := GPIO_FUNC_SPI | GPIO_FUNC_I2C.

(** One SDK (or LVGL) call as seen from outside the driver.  [I2cWrite] and
    [SpiWrite] carry the bytes put on the wire. *)
Inductive event :=
| I2cInit (baudrate : Z)
| I2cWrite (addr : Z) (src : list Z) (nostop : bool)
| I2cRead (addr : Z) (len : Z) (nostop : bool)
| GpioSetFunction (pin : Z) (fn : gpio_function)
| GpioPullUp (pin : Z)
| GpioPut (pin : Z) (value : bool)
| SleepMs (ms : Z)
| SleepUs (us : Z)
| SpiWrite (src : list Z)
| LvDispFlushReady.

(** What a value-returning SDK call answers: its [int] return value and, for
    a read, the bytes the peripheral delivered into the destination buffer
    (a negative [ret] is a transport failure). *)
Record response := Response { ret : Z; rx : list Z }.

(** [gt911_dev_t]. *)
Record gt911_dev_t := Gt911Dev {
  initialized : bool;
  product_id : list Z;      (* char product_id[GT911_PRODUCT_ID_LEN + 1] *)
  max_x : Z;
  max_y : Z;
  i2c_addr : Z
}.

(** [st7796_orientation_t]. *)
Inductive st7796_orientation_t :=
| ST7796_PORTRAIT
| ST7796_LANDSCAPE
| ST7796_PORTRAIT_INV
| ST7796_LANDSCAPE_INV.

(** The file-scope statics of the three translation units, the trace of SDK
    calls and the number of responses consumed from the bus. *)
Record machine := Machine {
  gt911_dev : gt911_dev_t;                      (* gt911.c *)
  last_x : Z;                                   (* gt911_read_touch, static *)
  last_y : Z;                                   (* gt911_read_touch, static *)
  current_orientation : st7796_orientation_t;   (* st7796.c *)
  disp_flush_enabled : bool;                    (* lv_port_disp.c *)
  trace : list event;
  calls : nat
}.

(** The initial values of the statics. *)
Definition gt911_dev_init : gt911_dev_t :=
  Gt911Dev false [0; 0; 0; 0; 0] 0 0 GT911_I2C_ADDR.

Definition boot : machine :=
  Machine gt911_dev_init 0 0 ST7796_PORTRAIT true [] 0.

(** [lv_area_t]: inclusive corners, [lv_coord_t] coordinates. *)
Record lv_area_t := LvArea { x1 : Z; y1 : Z; x2 : Z; y2 : Z }.

(** ** The driver monad: state passing over [machine] *)

Definition M (A : Type) : Type := machine -> A * machine.

Definition ret_ {A} (a : A) : M A := fun s => (a, s).
Definition bind {A B} (m : M A) (k : A -> M B) : M B :=
  fun s => let (a, s') := m s in k a s'.

Notation "'let*' x ':=' m 'in' k" := (bind m (fun x => k))
  (at level 10, x name, m at level 100, k at level 200, only parsing).
Notation "'let*' ' pat ':=' m 'in' k" :=
  (bind m (fun x => let 'pat := x in k))
  (at level 10, pat pattern, m at level 100, k at level 200, only parsing).

Definition gets {A} (f : machine -> A) : M A := fun s => (f s, s).
Definition modify (f : machine -> machine) : M unit := fun s => (tt, f s).

Definition with_trace (t : list event) (s : machine) : machine :=
  Machine (gt911_dev s) (last_x s) (last_y s) (current_orientation s)
          (disp_flush_enabled s) t (calls s).
Definition with_calls (n : nat) (s : machine) : machine :=
  Machine (gt911_dev s) (last_x s) (last_y s) (current_orientation s)
          (disp_flush_enabled s) (trace s) n.
Definition with_dev (d : gt911_dev_t) (s : machine) : machine :=
  Machine d (last_x s) (last_y s) (current_orientation s)
          (disp_flush_enabled s) (trace s) (calls s).
Definition with_last_x (v : Z) (s : machine) : machine :=
  Machine (gt911_dev s) v (last_y s) (current_orientation s)
          (disp_flush_enabled s) (trace s) (calls s).
Definition with_last_y (v : Z) (s : machine) : machine :=
  Machine (gt911_dev s) (last_x s) v (current_orientation s)
          (disp_flush_enabled s) (trace s) (calls s).
Definition with_orientation (o : st7796_orientation_t) (s : machine) : machine :=
  Machine (gt911_dev s) (last_x s) (last_y s) o
          (disp_flush_enabled s) (trace s) (calls s).
Definition with_flush_enabled (b : bool) (s : machine) : machine :=
  Machine (gt911_dev s) (last_x s) (last_y s) (current_orientation s)
          b (trace s) (calls s).

Definition set_initialized (b : bool) (d : gt911_dev_t) : gt911_dev_t :=
  Gt911Dev b (product_id d) (max_x d) (max_y d) (i2c_addr d).
Definition set_product_id (p : list Z) (d : gt911_dev_t) : gt911_dev_t :=
  Gt911Dev (initialized d) p (max_x d) (max_y d) (i2c_addr d).
Definition set_max_x (v : Z) (d : gt911_dev_t) : gt911_dev_t :=
  Gt911Dev (initialized d) (product_id d) v (max_y d) (i2c_addr d).
Definition set_max_y (v : Z) (d : gt911_dev_t) : gt911_dev_t :=
  Gt911Dev (initialized d) (product_id d) (max_x d) v (i2c_addr d).

(** An SDK call that returns nothing the driver looks at. *)
Definition emit (e : event) : M unit :=
  modify (fun s => with_trace (trace s ++ [e]) s).

(** The events a computation adds to the trace when run from [s]. *)
Definition emitted {A} (m : M A) (s : machine) : list event :=
  drop (length (trace s)) (trace (snd (m s))).

(** A C buffer of [length dst] bytes after [src] has been stored at its
    start. *)
Definition store (dst src : list Z) : list Z :=
  take (length dst) (src ++ drop (length src) dst).

Section Drivers.

(** The devices on the I2C bus: the answer to the [n]-th value-returning
    SDK call. *)
Variable bus : nat -> response.

(** ** Pico SDK calls *)

Definition sdk_call (e : event) : M response :=
  fun s => (bus (calls s),
            with_calls (S (calls s)) (with_trace (trace s ++ [e]) s)).

Definition i2c_init (baudrate : Z) : M Z :=
  let* r := sdk_call (I2cInit baudrate) in ret_ (ret r).

Definition i2c_write_blocking (addr : Z) (src : list Z) (len : Z)
           (nostop : bool) : M Z :=
  let* r := sdk_call (I2cWrite addr (take (Z.to_nat len) src) nostop) in
  ret_ (ret r).

(** Returns the call's result and the destination buffer afterwards. *)
Definition i2c_read_blocking (addr : Z) (dst : list Z) (len : Z)
           (nostop : bool) : M (Z * list Z) :=
  let* r := sdk_call (I2cRead addr len nostop) in
  ret_ (ret r, store dst (take (Z.to_nat len) (rx r))).

Definition gpio_set_function (pin : Z) (fn : gpio_function) : M unit :=
  emit (GpioSetFunction pin fn).
Definition gpio_pull_up (pin : Z) : M unit := emit (GpioPullUp pin).
Definition gpio_put (pin : Z) (value : bool) : M unit :=
  emit (GpioPut pin value).
Definition sleep_ms (ms : Z) : M unit := emit (SleepMs ms).
Definition sleep_us (us : Z) : M unit := emit (SleepUs us).
Definition spi_write_blocking (src : list Z) (len : Z) : M unit :=
  emit (SpiWrite (take (Z.to_nat len) src)).

(** LVGL's [lv_disp_flush_ready]. *)
Definition lv_disp_flush_ready : M unit := emit LvDispFlushReady.

(** ** gt911.c *)

Definition gt911_i2c_init : M bool :=
  let* actual_baudrate := i2c_init GT911_I2C_BAUDRATE in
  if actual_baudrate =? 0 then ret_ false else
  let* _ := gpio_set_function GT911_PIN_SDA GPIO_FUNC_I2C in
  let* _ := gpio_set_function GT911_PIN_SCL GPIO_FUNC_I2C in
  let* _ := gpio_pull_up GT911_PIN_SDA in
  let* _ := gpio_pull_up GT911_PIN_SCL in
  let* _ := sleep_ms 10 in
  ret_ true.

(** [data] is the buffer behind the pointer ([None] for [NULL]); the
    buffer's contents after the call are returned with the result.  [reg]
    stands for a [uint16_t] and [len] for a [uint8_t]: every caller and
    every statement below takes them in that range. *)
Definition gt911_i2c_read_reg (reg : Z) (data : option (list Z)) (len : Z)
  : M (bool * list Z) :=
  match data with
  | None => ret_ (false, [])
  | Some buf =>
    if len =? 0 then ret_ (false, buf) else
    let reg_addr := [Z.land (Z.shiftr reg 8) 0xFF; Z.land reg 0xFF] in
    let* addr := gets (fun s => i2c_addr (gt911_dev s)) in
    let* r := i2c_write_blocking addr reg_addr 2 true in
    if r <? 0 then ret_ (false, buf) else
    let* '(r, buf) := i2c_read_blocking addr buf len false in
    if r <? 0 then ret_ (false, buf) else
    ret_ (true, buf)
  end.

Definition gt911_i2c_write_reg (reg : Z) (data : option (list Z)) (len : Z)
  : M bool :=
  match data with
  | None => ret_ false
  | Some buf =>
    if len =? 0 then ret_ false else
    if len + 2 >? 32 then ret_ false else
    let buffer :=
      [Z.land (Z.shiftr reg 8) 0xFF; Z.land reg 0xFF]
        ++ take (Z.to_nat len) buf in
    let* addr := gets (fun s => i2c_addr (gt911_dev s)) in
    let* r := i2c_write_blocking addr buffer (len + 2) false in
    ret_ (r >? 0)
  end.

Definition gt911_clear_status : M unit :=
  let buffer := [0x81; 0x4E; 0x00] in
  let* addr := gets (fun s => i2c_addr (gt911_dev s)) in
  let* _ := i2c_write_blocking addr buffer 3 false in
  ret_ tt.

(** The call shape [gt911_i2c_read_reg(reg, &data, 1)] on a [uint8_t]
    variable currently holding [data]. *)
Definition read_u8 (reg : Z) (data : Z) : M (bool * Z) :=
  let* '(ok, buf) := gt911_i2c_read_reg reg (Some [data]) 1 in
  ret_ (ok, hd data buf).

Definition modify_dev (f : gt911_dev_t -> gt911_dev_t) : M unit :=
  modify (fun s => with_dev (f (gt911_dev s)) s).

(** The loop [for (i = ...; i < GT911_PRODUCT_ID_LEN; i++)] of
    [gt911_init] with [n] iterations left; each read goes straight into
    [gt911_dev.product_id[i]].  The result is [false] when the loop was
    left by [return false]. *)
Fixpoint read_product_id (n : nat) (i : Z) : M bool :=
  match n with
  | O => ret_ true
  | S n' =>
    let* cur :=
      gets (fun s => nth (Z.to_nat i) (product_id (gt911_dev s)) 0) in
    let* '(ok, b) := read_u8 (GT911_REG_PRODUCT_ID1 + i) cur in
    let* _ := modify_dev (fun d =>
      set_product_id (<[Z.to_nat i := b]> (product_id d)) d) in
    if negb ok then ret_ false else read_product_id n' (i + 1)
  end.

(** [data] is an uninitialised local in C; it is only read after a read
    that reported success stored into it, and starts as 0 here. *)
Definition gt911_init : M bool :=
  let data := 0 in
  let* init := gets (fun s => initialized (gt911_dev s)) in
  if init then ret_ true else
  let* ok := gt911_i2c_init in
  if negb ok then ret_ false else
  let* '(ok, data) := read_u8 GT911_REG_PRODUCT_ID1 data in
  if negb ok then ret_ false else
  let* ok := read_product_id (Z.to_nat GT911_PRODUCT_ID_LEN) 0 in
  if negb ok then ret_ false else
  let* _ := modify_dev (fun d =>
    set_product_id
      (<[Z.to_nat GT911_PRODUCT_ID_LEN := 0]> (product_id d)) d) in
  let* '(ok, data) := read_u8 GT911_REG_VENDOR_ID data in
  if negb ok then ret_ false else
  let* '(ok, data) := read_u8 GT911_REG_X_RES_L data in
  if negb ok then ret_ false else
  let* _ := modify_dev (set_max_x data) in
  let* '(ok, data) := read_u8 GT911_REG_X_RES_H data in
  if negb ok then ret_ false else
  let* _ := modify_dev (fun d =>
    set_max_x (u16 (Z.lor (max_x d) (Z.shiftl data 8))) d) in
  let* '(ok, data) := read_u8 GT911_REG_Y_RES_L data in
  if negb ok then ret_ false else
  let* _ := modify_dev (set_max_y data) in
  let* '(ok, data) := read_u8 GT911_REG_Y_RES_H data in
  if negb ok then ret_ false else
  let* _ := modify_dev (fun d =>
    set_max_y (u16 (Z.lor (max_y d) (Z.shiftl data 8))) d) in
  let* _ := modify_dev (set_initialized true) in
  ret_ true.

(** The three output parameters [*x], [*y], [*pressed]: the values behind
    the pointers go in and come out. *)
Definition touch_out : Type := Z * Z * bool.

Definition gt911_read_touch (out : touch_out) : M (bool * touch_out) :=
  let status_reg := 0 in
  let data := 0 in
  let* init := gets (fun s => initialized (gt911_dev s)) in
  if negb init then ret_ (false, out) else
  let* '(ok, status_reg) := read_u8 GT911_REG_STATUS status_reg in
  if negb ok then ret_ (false, out) else
  let touch_count := Z.land status_reg GT911_STATUS_PT_MASK in
  let* _ :=
    if negb (Z.land status_reg GT911_STATUS_BUF_READY =? 0)
       || (touch_count <? 6)
    then gt911_clear_status else ret_ tt in
  if touch_count =? 1 then
    let* '(ok, data) := read_u8 GT911_REG_PT1_X_L data in
    if negb ok then ret_ (false, out) else
    let* _ := modify (with_last_x data) in
    let* '(ok, data) := read_u8 GT911_REG_PT1_X_H data in
    if negb ok then ret_ (false, out) else
    let* _ := modify (fun s =>
      with_last_x (u16 (Z.lor (last_x s) (Z.shiftl data 8))) s) in
    let* '(ok, data) := read_u8 GT911_REG_PT1_Y_L data in
    if negb ok then ret_ (false, out) else
    let* _ := modify (with_last_y data) in
    let* '(ok, data) := read_u8 GT911_REG_PT1_Y_H data in
    if negb ok then ret_ (false, out) else
    let* _ := modify (fun s =>
      with_last_y (u16 (Z.lor (last_y s) (Z.shiftl data 8))) s) in
    let* lx := gets last_x in
    let* ly := gets last_y in
    ret_ (true, (lx, ly, true))
  else
    let* lx := gets last_x in
    let* ly := gets last_y in
    ret_ (true, (lx, ly, false)).

(** ** st7796.c *)

Definition LCD_CS_LOW : M unit := gpio_put ST7796_PIN_CS false.
Definition LCD_CS_HIGH : M unit := gpio_put ST7796_PIN_CS true.
Definition LCD_DC_CMD : M unit := gpio_put ST7796_PIN_DC false.
Definition LCD_DC_DATA : M unit := gpio_put ST7796_PIN_DC true.

(** [cmd] stands for a [uint8_t], and [len] below for a [uint16_t]: every
    caller and every statement takes them in that range. *)
Definition st7796_write_cmd (cmd : Z) : M unit :=
  let* _ := LCD_CS_LOW in
  let* _ := LCD_DC_CMD in
  let* _ := sleep_us 1 in
  let* _ := spi_write_blocking [cmd] 1 in
  let* _ := sleep_us 1 in
  LCD_CS_HIGH.

Definition st7796_write_data (data : option (list Z)) (len : Z) : M unit :=
  match data with
  | None => ret_ tt
  | Some buf =>
    if len =? 0 then ret_ tt else
    let* _ := LCD_CS_LOW in
    let* _ := LCD_DC_DATA in
    let* _ := sleep_us 1 in
    let* _ := spi_write_blocking buf len in
    let* _ := sleep_us 1 in
    LCD_CS_HIGH
  end.

(** The [default] arm of the C [switch] repeats the portrait value; the
    four constructors leave no other case. *)
Definition st7796_set_orientation (orientation : st7796_orientation_t)
  : M unit :=
  let* _ := modify (with_orientation orientation) in
  let* _ := st7796_write_cmd ST7796_CMD_MADCTL in
  let madctl_value :=
    match orientation with
    | ST7796_PORTRAIT => 0x48
    | ST7796_LANDSCAPE => 0x28
    | ST7796_PORTRAIT_INV => 0x88
    | ST7796_LANDSCAPE_INV => 0xE8
    end in
  let* _ := LCD_CS_LOW in
  let* _ := LCD_DC_DATA in
  let* _ := spi_write_blocking [madctl_value] 1 in
  LCD_CS_HIGH.

Definition st7796_set_window (x1 y1 x2 y2 : Z) : M unit :=
  let* _ := st7796_write_cmd ST7796_CMD_CASET in
  let data := [Z.land (Z.shiftr x1 8) 0xFF; Z.land x1 0xFF;
               Z.land (Z.shiftr x2 8) 0xFF; Z.land x2 0xFF] in
  let* _ := st7796_write_data (Some data) 4 in
  let* _ := st7796_write_cmd ST7796_CMD_RASET in
  let data := [Z.land (Z.shiftr y1 8) 0xFF; Z.land y1 0xFF;
               Z.land (Z.shiftr y2 8) 0xFF; Z.land y2 0xFF] in
  let* _ := st7796_write_data (Some data) 4 in
  st7796_write_cmd ST7796_CMD_RAMWR.

(** The bytes of a [uint16_t] array as [(const uint8_t * )color] sees
    them: the RP2040 is little-endian, so low byte first. *)
Definition u16_bytes (color : list Z) : list Z :=
  flat_map (fun p => [Z.land p 0xFF; Z.land (Z.shiftr p 8) 0xFF]) color.

Definition st7796_write_color (color : option (list Z)) (len : Z) : M unit :=
  match color with
  | None => ret_ tt
  | Some pixels =>
    if len =? 0 then ret_ tt else
    let* _ := LCD_CS_LOW in
    let* _ := LCD_DC_DATA in
    let* _ := spi_write_blocking (u16_bytes pixels) (u32 (len * 2)) in
    LCD_CS_HIGH
  end.

(** ** lv_port_disp.c *)

(** Modelled from the spec: [lv_area_get_width] and [lv_area_get_height]
    belong to LVGL and are not in the repository; the spec's window has
    inclusive bounds, so an area spans [x2 - x1 + 1] columns and
    [y2 - y1 + 1] rows, as an [lv_coord_t] (16 bits, signed). *)
Definition lv_area_get_width (area : lv_area_t) : Z :=
  s16 (x2 area - x1 area + 1).
Definition lv_area_get_height (area : lv_area_t) : Z :=
  s16 (y2 area - y1 area + 1).

Definition disp_enable_update : M unit := modify (with_flush_enabled true).
Definition disp_disable_update : M unit := modify (with_flush_enabled false).

(** [disp_drv] is only handed on to [lv_disp_flush_ready] and is left
    out; the signed corners become [uint16_t] arguments. *)
Definition disp_flush (area : lv_area_t) (color_p : option (list Z))
  : M unit :=
  let* enabled := gets disp_flush_enabled in
  if negb enabled then lv_disp_flush_ready else
  let* _ := st7796_set_window (u16 (x1 area)) (u16 (y1 area))
                              (u16 (x2 area)) (u16 (y2 area)) in
  let size := u32 (lv_area_get_width area * lv_area_get_height area) in
  let* _ := st7796_write_color color_p size in
  lv_disp_flush_ready.

End Drivers.

(** ** Observing the wire *)

(** What the LCD controller sees: every SPI burst is a command or a data
    frame according to the level of the D/C line when it is sent. *)
Inductive frame :=
| Command (bytes : list Z)
| Data (bytes : list Z).

Fixpoint spi_frames (dc : bool) (t : list event) : list frame :=
  match t with
  | [] => []
  | GpioPut pin value :: t' =>
    if pin =? ST7796_PIN_DC then spi_frames value t' else spi_frames dc t'
  | SpiWrite src :: t' =>
    (if dc then Data src else Command src) :: spi_frames dc t'
  | _ :: t' => spi_frames dc t'
  end.

(** Events that move bytes over the I2C or SPI bus. *)
Definition is_bus_transaction (e : event) : bool :=
  match e with
  | I2cInit _ | I2cWrite _ _ _ | I2cRead _ _ _ | SpiWrite _ => true
  | _ => false
  end.

(** The acknowledgment of a touch sample: the single byte 0x00 written to
    the status register 0x814E in one I2C transaction. *)
Definition is_ack (e : event) : bool :=
  match e with
  | I2cWrite _ [0x81; 0x4E; 0x00] false => true
  | _ => false
  end.

(** The address phase of a read of register [reg]. *)
Definition is_read_of (reg : Z) (e : event) : bool :=
  match e with
  | I2cWrite _ [hi; lo] true => (hi =? reg / 256) && (lo =? reg mod 256)
  | _ => false
  end.

Definition is_coordinate_read (e : event) : bool :=
  is_read_of GT911_REG_PT1_X_L e || is_read_of GT911_REG_PT1_X_H e
  || is_read_of GT911_REG_PT1_Y_L e || is_read_of GT911_REG_PT1_Y_H e.

Fixpoint count_events (p : event -> bool) (t : list event) : nat :=
  match t with
  | [] => O
  | e :: t' => if p e then S (count_events p t') else count_events p t'
  end.

(** ** Scripted buses *)

(** A bus that answers from a list, and fails every call after it. *)
Definition nack : response := Response (-1) [].
Definition acked (n : Z) : response := Response n [].
Definition byte_read (b : Z) : response := Response 1 [b].
Definition script (l : list response) : nat -> response :=
  fun n => nth n l nack.

(** One successful register read: address phase, then the data byte. *)
Definition reads (bs : list Z) : list response :=
  flat_map (fun b => [acked 2; byte_read b]) bs.

(** A panel that identifies as "911" and reports 320 x 480. *)
Definition good_panel : list response :=
  acked 100000 ::
  reads [0x39; 0x39; 0x31; 0x31; 0x00; 0x00; 0x40; 0x01; 0xE0; 0x01].

Definition ready (mx my lx ly : Z) : machine :=
  Machine (Gt911Dev true [0x39; 0x31; 0x31; 0; 0] mx my GT911_I2C_ADDR)
          lx ly ST7796_PORTRAIT true [] 0.

(** The same panel with the bus failing from the Y-resolution read on. *)
Definition flaky_panel : list response := take 17 good_panel.

(** One poll of the touch controller: the status read, the answer to the
    acknowledgment write, then the coordinate reads. *)
Definition one_finger : list response :=
  reads [0x81] ++ [acked 3] ++ reads [0x64; 0x00; 0xC8; 0x00].
Definition dropped_finger : list response :=
  reads [0x81] ++ [acked 3] ++ reads [0x64].
Definition no_finger : list response := reads [0x00] ++ [acked 3].

(** ** Vocabulary of the statements *)

(** [s] after [n] more value-returning SDK calls that logged [evs]. *)
Definition advance (n : nat) (evs : list event) (s : machine) : machine :=
  with_calls (n + calls s) (with_trace (trace s ++ evs) s).

(** The byte a one-byte buffer holding [old] contains after a read answered
    by [r]. *)
Definition delivered (r : response) (old : Z) : Z :=
  match rx r with
  | [] => old
  | b :: _ => b
  end.

(** The register read whose address phase is call [n] fails: either of its
    two bus calls returns a negative value. *)
Definition read_fails (bus : nat -> response) (n : nat) : bool :=
  (ret (bus n) <? 0) || (ret (bus (S n)) <? 0).

(** The register read whose address phase is call [n] succeeds and delivers
    the byte [b]. *)
Definition answers (bus : nat -> response) (n : nat) (b : Z) : bool :=
  negb (read_fails bus n)
  && match rx (bus (S n)) with
     | x :: _ => (x =? b) && (0 <=? b) && (b <? 256)
     | [] => false
     end.

(** The [k] register reads that start at call [n] all succeed. *)
Fixpoint reads_succeed (bus : nat -> response) (n : nat) (k : nat) : bool :=
  match k with
  | O => true
  | S k' => negb (read_fails bus n) && reads_succeed bus (S (S n)) k'
  end.

(** [i2c_init] at call [n] reports a baud rate, and the ten reads of
    [gt911_init] that follow all succeed. *)
Definition bring_up_ok (bus : nat -> response) (n : nat) : bool :=
  negb (ret (bus n) =? 0) && reads_succeed bus (S n) 10.

(** Little-endian assembly of two bytes. *)
Definition le16 (lo hi : Z) : Z := lo + 256 * hi.

(** The contact-count field and the ready bit of a status byte. *)
Definition contact_count (status : Z) : Z := status mod 16.
Definition buffer_ready (status : Z) : bool := Z.testbit status 7.

(** The bus events of the touch driver, at the address held by [s]. *)
Definition sel (s : machine) (reg : Z) : event :=
  I2cWrite (i2c_addr (gt911_dev s)) [reg / 256; reg mod 256] true.
Definition rd (s : machine) : event :=
  I2cRead (i2c_addr (gt911_dev s)) 1 false.
Definition ack (s : machine) : event :=
  I2cWrite (i2c_addr (gt911_dev s)) [0x81; 0x4E; 0x00] false.

(** The acknowledgment condition on a status byte: ready bit set, or fewer
    than six contacts. *)
Definition must_ack (status : Z) : bool :=
  buffer_ready status || (contact_count status <? 6).

Definition is_flush_ready (e : event) : bool :=
  match e with
  | LvDispFlushReady => true
  | _ => false
  end.

(** No coordinate register is read before the first acknowledgment. *)
Fixpoint ack_precedes_coordinates (t : list event) : bool :=
  match t with
  | [] => false
  | e :: t' =>
    if is_ack e then true
    else if is_coordinate_read e then false
    else ack_precedes_coordinates t'
  end.

(** The events of one command frame, one data frame and one pixel burst of
    the LCD driver. *)
Definition cmd_events (cmd : Z) : list event :=
  [GpioPut ST7796_PIN_CS false; GpioPut ST7796_PIN_DC false; SleepUs 1;
   SpiWrite [cmd]; SleepUs 1; GpioPut ST7796_PIN_CS true].
Definition data_events (bytes : list Z) : list event :=
  [GpioPut ST7796_PIN_CS false; GpioPut ST7796_PIN_DC true; SleepUs 1;
   SpiWrite bytes; SleepUs 1; GpioPut ST7796_PIN_CS true].
Definition burst_events (bytes : list Z) : list event :=
  [GpioPut ST7796_PIN_CS false; GpioPut ST7796_PIN_DC true;
   SpiWrite bytes; GpioPut ST7796_PIN_CS true].

(** A 16-bit value as two bytes, high byte first. *)
Definition be16 (z : Z) : list Z := [z / 256; z mod 256].

Definition window_events (x1 y1 x2 y2 : Z) : list event :=
  cmd_events ST7796_CMD_CASET ++ data_events (be16 x1 ++ be16 x2)
  ++ cmd_events ST7796_CMD_RASET ++ data_events (be16 y1 ++ be16 y2)
  ++ cmd_events ST7796_CMD_RAMWR.

Definition color_events (color : option (list Z)) (len : Z) : list event :=
  match color with
  | None => []
  | Some pixels =>
    if len =? 0 then []
    else burst_events (take (Z.to_nat (u32 (len * 2))) (u16_bytes pixels))
  end.

(** Reading a little-endian byte stream back as 16-bit values. *)
Fixpoint u16_of_bytes (bytes : list Z) : list Z :=
  match bytes with
  | lo :: hi :: rest => le16 lo hi :: u16_of_bytes rest
  | _ => []
  end.

(** An area whose corners are ordered and whose spans fit [lv_coord_t]. *)
Definition area_ok (a : lv_area_t) : bool :=
  (0 <=? x1 a) && (x1 a <=? x2 a) && (x2 a <? 32767)
  && (0 <=? y1 a) && (y1 a <=? y2 a) && (y2 a <? 32767).

(** The SDK calls that return a value the driver may look at, and so take
    a response from the bus. *)
Definition is_bus_call (e : event) : bool :=
  match e with
  | I2cInit _ | I2cWrite _ _ _ | I2cRead _ _ _ => true
  | _ => false
  end.

(** The value-returning calls of a trace, in order: when the trace was
    emitted from a state with [calls s = n], the [k]-th of them is the call
    answered by [bus (k + n)]. *)
Fixpoint bus_calls (t : list event) : list event :=
  match t with
  | [] => []
  | e :: t' => if is_bus_call e then e :: bus_calls t' else bus_calls t'
  end.

(** In the trace [t], emitted from state [s], the [k]-th bus call is the
    address phase of a one-byte read of register [reg], and the next call
    is its data phase. *)
Definition reads_register (s : machine) (t : list event) (k : nat) (reg : Z)
  : Prop :=
  bus_calls t !! k = Some (sel s reg)
  /\ bus_calls t !! S k = Some (rd s).

(** The events of a bring-up in which every call succeeds. *)
Definition bring_up_events (s : machine) : list event :=
  [I2cInit GT911_I2C_BAUDRATE;
   GpioSetFunction GT911_PIN_SDA GPIO_FUNC_I2C;
   GpioSetFunction GT911_PIN_SCL GPIO_FUNC_I2C;
   GpioPullUp GT911_PIN_SDA; GpioPullUp GT911_PIN_SCL; SleepMs 10]
  ++ flat_map (fun reg => [sel s reg; rd s])
       [GT911_REG_PRODUCT_ID1;
        GT911_REG_PRODUCT_ID1; GT911_REG_PRODUCT_ID1 + 1;
        GT911_REG_PRODUCT_ID1 + 2; GT911_REG_PRODUCT_ID1 + 3;
        GT911_REG_VENDOR_ID;
        GT911_REG_X_RES_L; GT911_REG_X_RES_H;
        GT911_REG_Y_RES_L; GT911_REG_Y_RES_H].

(** ** Vocabulary for the rest of the drivers *)

(** The device an I2C transfer is addressed to. *)
Definition i2c_target (e : event) : option Z :=
  match e with
  | I2cWrite addr _ _ | I2cRead addr _ _ => Some addr
  | _ => None
  end.

(** [e] is no I2C transfer, or one addressed to [addr]. *)
Definition talks_to (addr : Z) (e : event) : Prop :=
  match i2c_target e with
  | Some a => a = addr
  | None => True
  end.

(** A write that ends its transaction: data reaches a register.  (A write
    that keeps the bus, [nostop = true], only selects the register of the
    read that follows.) *)
Definition is_register_write (e : event) : bool :=
  match e with
  | I2cWrite _ _ false => true
  | _ => false
  end.

(** The two halves of a one-byte register read. *)
Definition is_register_read (e : event) : bool :=
  match e with
  | I2cWrite _ [_; _] true | I2cRead _ 1 false => true
  | _ => false
  end.

(** The two pins of the touch controller's I2C bus. *)
Definition is_touch_pin (pin : Z) : bool :=
  (pin =? GT911_PIN_SDA) || (pin =? GT911_PIN_SCL).

(** What the touch bring-up may do: start the I2C block at its baud rate,
    route its two pins (and no other) to the I2C function and pull them
    up, wait, and read registers.  Everything else is excluded: driving a
    pin, routing a pin to SPI, an SPI burst, a register write, a signal to
    LVGL. *)
Definition is_bring_up_event (e : event) : bool :=
  match e with
  | I2cInit baudrate => baudrate =? GT911_I2C_BAUDRATE
  | GpioSetFunction pin GPIO_FUNC_I2C => is_touch_pin pin
  | GpioPullUp pin => is_touch_pin pin
  | SleepMs _ => true
  | _ => is_register_read e
  end.

(** Traffic to the LCD: an SPI burst or a level driven on a pin. *)
Definition is_lcd_wire (e : event) : bool :=
  match e with
  | SpiWrite _ | GpioPut _ _ => true
  | _ => false
  end.

(** The pin an event configures or drives, if any. *)
Definition pin_of (e : event) : option Z :=
  match e with
  | GpioSetFunction pin _ | GpioPullUp pin | GpioPut pin _ => Some pin
  | _ => None
  end.

(** What a touch poll may do: read registers and acknowledge. *)
Definition is_poll_event (e : event) : bool :=
  is_register_read e || is_ack e.

(** A two-byte register address read back from the wire. *)
Definition reg_of_bytes (bytes : list Z) : option Z :=
  match bytes with
  | hi :: lo :: _ => Some (256 * hi + lo)
  | _ => None
  end.

(** How many of the [k] bus calls from call [n] on are made when each is
    attempted once and the first one that reports an error is the last. *)
Fixpoint calls_until_error (bus : nat -> response) (n k : nat) : nat :=
  match k with
  | O => O
  | S k' =>
    if ret (bus n) <? 0 then 1%nat
    else S (calls_until_error bus (S n) k')
  end.

(** The bus calls of a bring-up that starts at call [n]: [i2c_init], then
    the twenty calls of the ten register reads, as far as they get. *)
Definition bring_up_calls (bus : nat -> response) (n : nat) : nat :=
  if ret (bus n) =? 0 then 1%nat
  else S (calls_until_error bus (S n) 20).

(** ** st7796.c: bring-up *)

Definition ST7796_PIN_CLK : Z := 2.
Definition ST7796_PIN_MOSI : Z := 3.
Definition ST7796_SPI_BAUDRATE : Z := 62500000.

(** [lcd_init_cmd_t]; [data] is the 16-byte array. *)
Record lcd_init_cmd_t := InitCmd {
  cmd : Z;
  data : list Z;
  databytes : Z
}.

(** A C initialiser for [uint8_t data[16]]: the bytes given, then zeros. *)
Definition bytes16 (l : list Z) : list Z := take 16 (l ++ replicate 16 0).

(** The table [init_cmds] of [st7796_init]. *)
Definition init_cmds : list lcd_init_cmd_t :=
  [ InitCmd 0xCF (bytes16 [0x00; 0x83; 0x30]) 3;
    InitCmd 0xED (bytes16 [0x64; 0x03; 0x12; 0x81]) 4;
    InitCmd 0xE8 (bytes16 [0x85; 0x01; 0x79]) 3;
    InitCmd 0xCB (bytes16 [0x39; 0x2C; 0x00; 0x34; 0x02]) 5;
    InitCmd 0xF7 (bytes16 [0x20]) 1;
    InitCmd 0xEA (bytes16 [0x00; 0x00]) 2;
    InitCmd 0xC0 (bytes16 [0x26]) 1;
    InitCmd 0xC1 (bytes16 [0x11]) 1;
    InitCmd 0xC5 (bytes16 [0x35; 0x3E]) 2;
    InitCmd 0xC7 (bytes16 [0xBE]) 1;
    InitCmd 0x36 (bytes16 [0x28]) 1;
    InitCmd 0x3A (bytes16 [0x05]) 1;
    InitCmd 0xB1 (bytes16 [0x00; 0x1B]) 2;
    InitCmd 0xF2 (bytes16 [0x08]) 1;
    InitCmd 0x26 (bytes16 [0x01]) 1;
    InitCmd 0xE0 (bytes16 [0x1F; 0x1A; 0x18; 0x0A; 0x0F; 0x06; 0x45; 0x87;
                           0x32; 0x0A; 0x07; 0x02; 0x07; 0x05; 0x00]) 15;
    InitCmd 0xE1 (bytes16 [0x00; 0x25; 0x27; 0x05; 0x10; 0x09; 0x3A; 0x78;
                           0x4D; 0x05; 0x18; 0x0D; 0x38; 0x3A; 0x1F]) 15;
    InitCmd 0x2A (bytes16 [0x00; 0x00; 0x00; 0xEF]) 4;
    InitCmd 0x2B (bytes16 [0x00; 0x00; 0x01; 0x3F]) 4;
    InitCmd 0x2C (bytes16 [0]) 0;
    InitCmd 0xB7 (bytes16 [0x07]) 1;
    InitCmd 0xB6 (bytes16 [0x0A; 0x82; 0x27; 0x00]) 4;
    InitCmd 0x11 (bytes16 [0]) 0x80;
    InitCmd 0x29 (bytes16 [0]) 0x80;
    InitCmd 0 (bytes16 [0]) 0xFF ].

(** The loop [while (init_cmds[cmd_idx].databytes != 0xFF)] of
    [st7796_init], on the entries from [cmd_idx] on.  Running off the end
    of the array, which C leaves undefined, ends the loop here.  The index
    is a [uint16_t] and the fields of an entry are bytes: the recursion is
    the loop for tables whose end marker comes before entry 65536 and
    whose fields are in range ([entry_typed] below), as in the table of
    [st7796_init]. *)
Fixpoint send_init_cmds (cmds : list lcd_init_cmd_t) : M unit :=
  match cmds with
  | [] => ret_ tt
  | c :: rest =>
    if databytes c =? 0xFF then ret_ tt else
    let* _ := st7796_write_cmd (cmd c) in
    let data_len := Z.land (databytes c) 0x1F in
    let* _ :=
      if data_len >? 0 then st7796_write_data (Some (data c)) data_len
      else ret_ tt in
    let* _ :=
      if negb (Z.land (databytes c) 0x80 =? 0) then sleep_ms 100
      else ret_ tt in
    send_init_cmds rest
  end.

Definition LCD_RST_LOW : M unit := gpio_put ST7796_PIN_RST false.
Definition LCD_RST_HIGH : M unit := gpio_put ST7796_PIN_RST true.

Definition st7796_hw_reset : M unit :=
  let* _ := LCD_RST_HIGH in
  let* _ := sleep_ms 100 in
  let* _ := LCD_RST_LOW in
  let* _ := sleep_ms 100 in
  let* _ := LCD_RST_HIGH in
  sleep_ms 100.

(** SDK calls that only the bring-up makes. *)
Inductive setup_call :=
| SpiInit (baudrate : Z)
| SpiSetFormat (data_bits cpol cpha : Z) (msb_first : bool)
| GpioInit (pin : Z)
| GpioSetDir (pin : Z) (out : bool).

(** What the bring-up does, in order: set-up calls and the events of the
    driver proper. *)
Inductive boot_event :=
| Setup (c : setup_call)
| Wire (e : event).

Record power_up := PowerUp { lcd : machine; log : list boot_event }.

Definition B (A : Type) : Type := power_up -> A * power_up.

Definition setup (c : setup_call) : B unit :=
  fun b => (tt, PowerUp (lcd b) (log b ++ [Setup c])).

(** A driver computation run during bring-up: its events go to the
    machine's trace and, in order, to the log. *)
Definition wire {A} (m : M A) : B A :=
  fun b => let (a, s') := m (lcd b) in
           (a, PowerUp s' (log b ++ map Wire (emitted m (lcd b)))).

Definition then_ {A} (m : B unit) (k : B A) : B A :=
  fun b => k (snd (m b)).

Definition st7796_gpio_init : B unit :=
  then_ (setup (GpioInit ST7796_PIN_CS))
 (then_ (setup (GpioSetDir ST7796_PIN_CS true))
 (then_ (wire (gpio_put ST7796_PIN_CS true))
 (then_ (setup (GpioInit ST7796_PIN_DC))
 (then_ (setup (GpioSetDir ST7796_PIN_DC true))
 (then_ (wire (gpio_put ST7796_PIN_DC true))
 (then_ (setup (GpioInit ST7796_PIN_RST))
 (then_ (setup (GpioSetDir ST7796_PIN_RST true))
        (wire (gpio_put ST7796_PIN_RST true))))))))).

Definition st7796_spi_init : B unit :=
  then_ (setup (SpiInit ST7796_SPI_BAUDRATE))
 (then_ (setup (SpiSetFormat 8 0 0 true))
 (then_ (wire (gpio_set_function ST7796_PIN_MOSI GPIO_FUNC_SPI))
        (wire (gpio_set_function ST7796_PIN_CLK GPIO_FUNC_SPI)))).

Definition st7796_init : B unit :=
  then_ st7796_spi_init
 (then_ st7796_gpio_init
 (then_ (wire st7796_hw_reset)
 (then_ (wire (send_init_cmds init_cmds))
 (then_ (wire (st7796_set_orientation ST7796_PORTRAIT))
        (wire (st7796_write_cmd 0x21)))))).

(** [disp_init] of lv_port_disp.c. *)
Definition disp_init : B unit := st7796_init.

(** *** Reading the bring-up *)

(** What one script entry puts on the wire: its command frame, its payload
    if it has one, and the 100 ms pause if it asks for one. *)
Definition payload_len (c : lcd_init_cmd_t) : Z := databytes c mod 32.
Definition wants_delay (c : lcd_init_cmd_t) : bool :=
  Z.testbit (databytes c) 7.

Definition entry_frames (c : lcd_init_cmd_t) : list frame :=
  Command [cmd c]
  :: (if 0 <? payload_len c
      then [Data (take (Z.to_nat (payload_len c)) (data c))] else []).

Definition entry_events (c : lcd_init_cmd_t) : list event :=
  cmd_events (cmd c)
  ++ (if 0 <? payload_len c
      then data_events (take (Z.to_nat (payload_len c)) (data c)) else [])
  ++ (if wants_delay c then [SleepMs 100] else []).

(** The fields of an entry are in the range of their C types: [cmd] and
    [databytes] are bytes and [data] is an array of 16 bytes. *)
Definition is_byte (z : Z) : bool := (0 <=? z) && (z <? 256).

Definition entry_typed (c : lcd_init_cmd_t) : bool :=
  is_byte (cmd c) && is_byte (databytes c)
  && (length (data c) =? 16)%nat && forallb is_byte (data c).

(** An entry that is not the end marker and whose payload fits its
    array. *)
Definition entry_ok (c : lcd_init_cmd_t) : bool :=
  negb (databytes c =? 0xFF)
  && (payload_len c <=? Z.of_nat (length (data c))).

(** The wire events of a log. *)
Fixpoint wire_events (l : list boot_event) : list event :=
  match l with
  | [] => []
  | Wire e :: l' => e :: wire_events l'
  | Setup _ :: l' => wire_events l'
  end.

(** The register file of the LCD controller as the frames define it: the
    parameters of command [c] are the data frame that directly follows its
    latest occurrence.  The state is whether [c] is waiting for its
    parameters, and the parameters seen last. *)
Definition reg_step (c : Z) (st : bool * option (list Z)) (f : frame)
  : bool * option (list Z) :=
  match f with
  | Command [c'] => (c' =? c, snd st)
  | Command _ => (false, snd st)
  | Data bytes => (false, if fst st then Some bytes else snd st)
  end.

Definition register_from (c : Z) (st : bool * option (list Z))
           (fs : list frame) : bool * option (list Z) :=
  fold_left (reg_step c) fs st.

Definition register (c : Z) (fs : list frame) : option (list Z) :=
  snd (register_from c (false, None) fs).

(** The level of the D/C line after the events [t]. *)
Definition dc_after (dc : bool) (t : list event) : bool :=
  fold_left (fun dc e =>
               match e with
               | GpioPut pin value =>
                 if pin =? ST7796_PIN_DC then value else dc
               | _ => dc
               end) t dc.

Definition madctl_of (o : st7796_orientation_t) : Z :=
  match o with
  | ST7796_PORTRAIT => 0x48
  | ST7796_LANDSCAPE => 0x28
  | ST7796_PORTRAIT_INV => 0x88
  | ST7796_LANDSCAPE_INV => 0xE8
  end.

(** Chip select is low during every SPI burst and back high at the end;
    [cs] is its level on entry. *)
Fixpoint cs_framed (cs : bool) (t : list event) : bool :=
  match t with
  | [] => cs
  | GpioPut pin value :: t' =>
    if pin =? ST7796_PIN_CS then cs_framed value t' else cs_framed cs t'
  | SpiWrite _ :: t' => negb cs && cs_framed cs t'
  | _ :: t' => cs_framed cs t'
  end.

(** The corners a window declaration decodes to. *)
Definition window_of_frames (fs : list frame) : option (Z * Z * Z * Z) :=
  match fs with
  | [Command [0x2A]; Data [a; b; c; d];
     Command [0x2B]; Data [e; f; g; h]; Command [0x2C]] =>
    Some (256 * a + b, 256 * e + f, 256 * c + d, 256 * g + h)
  | _ => None
  end.

(** The reset pulse of [st7796_hw_reset]. *)
Definition reset_events : list event :=
  [GpioPut ST7796_PIN_RST true; SleepMs 100;
   GpioPut ST7796_PIN_RST false; SleepMs 100;
   GpioPut ST7796_PIN_RST true; SleepMs 100].

(** The entries of the table before the end marker. *)
Definition init_script : list lcd_init_cmd_t := take 24 init_cmds.

(** The set-up calls and pin levels that precede the reset pulse. *)
Definition bring_up_setup : list boot_event :=
  [Setup (SpiInit ST7796_SPI_BAUDRATE); Setup (SpiSetFormat 8 0 0 true);
   Wire (GpioSetFunction ST7796_PIN_MOSI GPIO_FUNC_SPI);
   Wire (GpioSetFunction ST7796_PIN_CLK GPIO_FUNC_SPI);
   Setup (GpioInit ST7796_PIN_CS); Setup (GpioSetDir ST7796_PIN_CS true);
   Wire (GpioPut ST7796_PIN_CS true);
   Setup (GpioInit ST7796_PIN_DC); Setup (GpioSetDir ST7796_PIN_DC true);
   Wire (GpioPut ST7796_PIN_DC true);
   Setup (GpioInit ST7796_PIN_RST); Setup (GpioSetDir ST7796_PIN_RST true);
   Wire (GpioPut ST7796_PIN_RST true)].

(** What the controller is sent once it is out of reset. *)
Definition bring_up_traffic : list event :=
  flat_map entry_events init_script
  ++ cmd_events ST7796_CMD_MADCTL ++ burst_events [0x48]
  ++ cmd_events 0x21.

Definition bring_up_log : list boot_event :=
  bring_up_setup ++ map Wire reset_events ++ map Wire bring_up_traffic.

(** What [st7796_init] adds to the log when run from [b]. *)
Definition logged (b : power_up) : list boot_event :=
  drop (length (log b)) (log (snd (st7796_init b))).

(** A pin is driven only after [gpio_init] and [gpio_set_dir] to output
    were called on it; [inited] and [outputs] are the pins so far. *)
Fixpoint pins_configured (inited outputs : list Z) (l : list boot_event)
  : bool :=
  match l with
  | [] => true
  | Setup (GpioInit pin) :: l' => pins_configured (pin :: inited) outputs l'
  | Setup (GpioSetDir pin out) :: l' =>
    existsb (Z.eqb pin) inited
    && pins_configured inited
         (if out then pin :: outputs
          else filter (fun p => negb (p =? pin)) outputs) l'
  | Wire (GpioPut pin _) :: l' =>
    existsb (Z.eqb pin) outputs && pins_configured inited outputs l'
  | _ :: l' => pins_configured inited outputs l'
  end.

Definition is_spi_write (e : boot_event) : bool :=
  match e with
  | Wire (SpiWrite _) => true
  | _ => false
  end.

Definition touches_reset (e : boot_event) : bool :=
  match e with
  | Wire (GpioPut pin _) => pin =? ST7796_PIN_RST
  | _ => false
  end.

Definition is_setup (e : boot_event) : bool :=
  match e with
  | Setup _ => true
  | Wire _ => false
  end.

(** Every sleep-out or display-on command among the events is followed by
    a pause of at least 100 ms before the next SPI burst; [dc] is the level
    of the D/C line and [due] tells whether such a pause is owed. *)
Fixpoint pauses_kept (dc due : bool) (t : list event) : bool :=
  match t with
  | [] => negb due
  | GpioPut pin value :: t' =>
    pauses_kept (if pin =? ST7796_PIN_DC then value else dc) due t'
  | SpiWrite src :: t' =>
    negb due
    && pauses_kept dc (negb dc && match src with
                                  | [c] => (c =? 0x11) || (c =? 0x29)
                                  | _ => false
                                  end) t'
  | SleepMs ms :: t' => pauses_kept dc (due && (ms <? 100)) t'
  | _ :: t' => pauses_kept dc due t'
  end.

(** Calls into the LCD driver and its LVGL port, as an application makes
    them after the bring-up. *)
Inductive lcd_call :=
| CallSetOrientation (o : st7796_orientation_t)
| CallSetWindow (x1 y1 x2 y2 : Z)
| CallWriteColor (color : option (list Z)) (len : Z)
| CallFlush (area : lv_area_t) (color_p : option (list Z))
| CallEnableUpdate
| CallDisableUpdate.

Definition lcd_call_run (c : lcd_call) : M unit :=
  match c with
  | CallSetOrientation o => st7796_set_orientation o
  | CallSetWindow x1 y1 x2 y2 => st7796_set_window x1 y1 x2 y2
  | CallWriteColor color len => st7796_write_color color len
  | CallFlush area color_p => disp_flush area color_p
  | CallEnableUpdate => disp_enable_update
  | CallDisableUpdate => disp_disable_update
  end.

Fixpoint lcd_calls_run (cs : list lcd_call) : M unit :=
  match cs with
  | [] => ret_ tt
  | c :: cs' => let* _ := lcd_call_run c in lcd_calls_run cs'
  end.

(** The arguments are in the range of their C types. *)
Definition in_u16 (z : Z) : bool := (0 <=? z) && (z <? 65536).

Definition lcd_call_ok (c : lcd_call) : bool :=
  match c with
  | CallSetWindow x1 y1 x2 y2 =>
    in_u16 x1 && in_u16 y1 && in_u16 x2 && in_u16 y2
  | _ => true
  end.

(** What a call adds to the trace, and the statics it leaves, when made in
    state [s]. *)
Definition lcd_call_events (c : lcd_call) (s : machine) : list event :=
  match c with
  | CallSetOrientation o =>
    cmd_events ST7796_CMD_MADCTL ++ burst_events [madctl_of o]
  | CallSetWindow x1 y1 x2 y2 => window_events x1 y1 x2 y2
  | CallWriteColor color len => color_events color len
  | CallFlush area color_p =>
    if disp_flush_enabled s
    then window_events (u16 (x1 area)) (u16 (y1 area))
                       (u16 (x2 area)) (u16 (y2 area))
         ++ color_events color_p
              (u32 (lv_area_get_width area * lv_area_get_height area))
         ++ [LvDispFlushReady]
    else [LvDispFlushReady]
  | CallEnableUpdate | CallDisableUpdate => []
  end.

Definition lcd_call_statics (c : lcd_call) (s : machine) : machine :=
  match c with
  | CallSetOrientation o => with_orientation o s
  | CallEnableUpdate => with_flush_enabled true s
  | CallDisableUpdate => with_flush_enabled false s
  | _ => s
  end.

(** The events of a session of calls started in [s]. *)
Fixpoint lcd_calls_events (cs : list lcd_call) (s : machine) : list event :=
  match cs with
  | [] => []
  | c :: cs' =>
    lcd_call_events c s ++ lcd_calls_events cs' (lcd_call_statics c s)
  end.

Definition lcd_calls_statics (cs : list lcd_call) (s : machine) : machine :=
  fold_left (fun s c => lcd_call_statics c s) cs s.

(** The flag of lv_port_disp.c after a session of calls: the last switch
    wins. *)
Definition update_switch (enabled : bool) (c : lcd_call) : bool :=
  match c with
  | CallEnableUpdate => true
  | CallDisableUpdate => false
  | _ => enabled
  end.

Definition is_flush_call (c : lcd_call) : bool :=
  match c with
  | CallFlush _ _ => true
  | _ => false
  end.

(** ** lv_port_indev.c *)

(** [lv_indev_state_t], [lv_point_t] and [lv_indev_data_t] with the
    members that lv_port_indev.c names: [point], [state] and
    [continue_reading], which [touchpad_read] writes, and [key],
    [enc_diff] and [btn_id], which only the disabled keypad, encoder and
    button callbacks write and [touchpad_read] leaves as they are.  The
    types belong to LVGL and are not in the repository; coordinates are
    [lv_coord_t], 16 bits and signed as in [lv_area_get_width] above. *)
Inductive lv_indev_state_t :=
| LV_INDEV_STATE_REL
| LV_INDEV_STATE_PR.

Record lv_point_t := LvPoint { point_x : Z; point_y : Z }.

Record lv_indev_data_t := LvIndevData {
  point : lv_point_t;
  state : lv_indev_state_t;
  continue_reading : bool;
  key : Z;
  enc_diff : Z;
  btn_id : Z
}.

Definition with_point (pt : lv_point_t) (d : lv_indev_data_t)
  : lv_indev_data_t :=
  LvIndevData pt (state d) (continue_reading d)
              (key d) (enc_diff d) (btn_id d).
Definition with_state (st : lv_indev_state_t) (d : lv_indev_data_t)
  : lv_indev_data_t :=
  LvIndevData (point d) st (continue_reading d)
              (key d) (enc_diff d) (btn_id d).
Definition with_continue_reading (b : bool) (d : lv_indev_data_t)
  : lv_indev_data_t :=
  LvIndevData (point d) (state d) b (key d) (enc_diff d) (btn_id d).

(** The machine together with the statics [last_x] and [last_y] of
    lv_port_indev.c ([int16_t]); the names are prefixed because the touch
    driver's own [last_x] and [last_y] are fields of the machine. *)
Record indev := Indev {
  hw : machine;
  indev_last_x : Z;
  indev_last_y : Z
}.

Definition indev_boot : indev := Indev boot 0 0.

Section Bridge.

Variable bus : nat -> response.

(** The result of [gt911_init] is tested and then ignored. *)
Definition touchpad_init (p : indev) : unit * indev :=
  let (ok, m) := gt911_init bus (hw p) in
  (tt, Indev m (indev_last_x p) (indev_last_y p)).

(** [locals] holds what the uninitialised [x], [y] and [pressed] happen to
    contain; [indev_drv] is not used. *)
Definition touchpad_read (locals : touch_out) (data : lv_indev_data_t)
           (p : indev) : lv_indev_data_t * indev :=
  let data := with_continue_reading false data in
  let '(ok, (x, y, pressed), m) := gt911_read_touch bus locals (hw p) in
  if ok then
    if pressed then
      (with_state LV_INDEV_STATE_PR
         (with_point (LvPoint (s16 x) (s16 y)) data),
       Indev m (s16 x) (s16 y))
    else
      (with_state LV_INDEV_STATE_REL
         (with_point (LvPoint (indev_last_x p) (indev_last_y p)) data),
       Indev m (indev_last_x p) (indev_last_y p))
  else
    (with_state LV_INDEV_STATE_REL
       (with_point (LvPoint (indev_last_x p) (indev_last_y p)) data),
     Indev m (indev_last_x p) (indev_last_y p)).

(** LVGL calling the read callback [n] times in a row, each time on the
    structure the previous call filled in. *)
Fixpoint touchpad_polls (n : nat) (locals : touch_out)
         (data : lv_indev_data_t) (p : indev)
  : list lv_indev_data_t * indev :=
  match n with
  | O => ([], p)
  | S n' =>
    let (d, p') := touchpad_read locals data p in
    let (ds, p'') := touchpad_polls n' locals d p' in
    (d :: ds, p'')
  end.

End Bridge.

(** The point last reported as pressed among the reports, [init] if there
    is none. *)
Definition last_pressed (init : lv_point_t) (reports : list lv_indev_data_t)
  : lv_point_t :=
  fold_left (fun pt d => match state d with
                         | LV_INDEV_STATE_PR => point d
                         | LV_INDEV_STATE_REL => pt
                         end) reports init.

(** The structure [data] after a call that reported the point [pt] with
    state [st]: the three members the callback writes are set, the others
    are as they were. *)
Definition report (pt : lv_point_t) (st : lv_indev_state_t)
           (data : lv_indev_data_t) : lv_indev_data_t :=
  LvIndevData pt st false (key data) (enc_diff data) (btn_id data).

Definition retained (p : indev) : lv_point_t :=
  LvPoint (indev_last_x p) (indev_last_y p).

(** The machine [s] with the statics of the display side and the trace
    replaced. *)
Definition repaint (t : list event) (o : st7796_orientation_t) (f : bool)
           (s : machine) : machine :=
  with_trace t (with_orientation o (with_flush_enabled f s)).

(** * Proofs *)

(** ** Fixed-width arithmetic *)

Lemma land_255 (z : Z) : Z.land z 0xFF = z mod 256.
Proof. exact (Z.land_ones z 8 ltac:(lia)). Qed.

Lemma shiftr_8 (z : Z) : Z.shiftr z 8 = z / 256.
Proof. exact (Z.shiftr_div_pow2 z 8 ltac:(lia)). Qed.

Lemma land_15 (z : Z) : Z.land z 0x0F = z mod 16.
Proof. exact (Z.land_ones z 4 ltac:(lia)). Qed.

Lemma land_128 (z : Z) :
  (Z.land z 0x80 =? 0) = negb (Z.testbit z 7).
Proof.
  assert (H : Z.land z 0x80 = if Z.testbit z 7 then 0x80 else 0).
  { apply Z.bits_inj'. intros n Hn.
    rewrite Z.land_spec.
    change 0x80 with (2 ^ 7).
    rewrite Z.pow2_bits_eqb by lia.
    destruct (Z.eqb_spec 7 n) as [<- | Hne].
    - rewrite andb_true_r. destruct (Z.testbit z 7).
      + now rewrite Z.pow2_bits_eqb, Z.eqb_refl by lia.
      + now rewrite Z.bits_0.
    - rewrite andb_false_r.
      destruct (Z.testbit z 7); [|now rewrite Z.bits_0].
      rewrite Z.pow2_bits_eqb by lia.
      symmetry. now apply Z.eqb_neq. }
  rewrite H. now destruct (Z.testbit z 7).
Qed.

Lemma lor_le16 (lo hi : Z) :
  is_u8 lo -> is_u8 hi -> u16 (Z.lor lo (Z.shiftl hi 8)) = le16 lo hi.
Proof.
  unfold is_u8, u16, le16. intros Hlo Hhi.
  rewrite Z.shiftl_mul_pow2 by lia.
  change (2 ^ 8) with 256.
  rewrite <- Z.add_nocarry_lor.
  - rewrite Z.mod_small; lia.
  - apply Z.bits_inj'. intros n Hn.
    rewrite Z.land_spec, Z.bits_0.
    destruct (Z.ltb_spec n 8).
    + replace (hi * 256) with (hi * 2 ^ 8) by lia.
      rewrite (Z.mul_pow2_bits_low hi 8 n) by lia.
      apply andb_false_r.
    + rewrite (Z.bits_above_log2 lo n); [reflexivity | lia |].
      destruct (Z.eq_dec lo 0) as [-> | Hne]; [simpl; lia |].
      apply Z.log2_lt_pow2; [lia |].
      apply Z.lt_le_trans with (2 ^ 8); [simpl; lia |].
      apply Z.pow_le_mono_r; lia.
Qed.

(** ** One SDK call at a time *)

Ltac norm :=
  cbn [fst snd advance with_calls with_trace with_dev with_last_x with_last_y
       with_orientation with_flush_enabled
       gt911_dev last_x last_y current_orientation disp_flush_enabled trace
       calls initialized product_id max_x max_y i2c_addr
       set_initialized set_product_id set_max_x set_max_y
       Nat.add negb andb orb].

Ltac norm_in H :=
  cbn [fst snd advance with_calls with_trace with_dev with_last_x with_last_y
       with_orientation with_flush_enabled
       gt911_dev last_x last_y current_orientation disp_flush_enabled trace
       calls initialized product_id max_x max_y i2c_addr
       set_initialized set_product_id set_max_x set_max_y
       Nat.add negb andb orb] in H.

Ltac unfold_monad :=
  cbv [bind gets ret_ modify modify_dev emit sdk_call]; cbn beta iota.

Ltac unfold_monad_in H :=
  cbv [bind gets ret_ modify modify_dev emit sdk_call] in H;
  cbn beta iota in H.

Lemma machine_ext (a b : machine) :
  gt911_dev a = gt911_dev b -> last_x a = last_x b -> last_y a = last_y b ->
  current_orientation a = current_orientation b ->
  disp_flush_enabled a = disp_flush_enabled b ->
  trace a = trace b -> calls a = calls b -> a = b.
Proof. destruct a, b; cbn; intros; subst; reflexivity. Qed.

Ltac same_machine :=
  apply machine_ext; norm; rewrite <- ?app_assoc; reflexivity.

Section Runs.

Variable bus : nat -> response.

Lemma gt911_i2c_init_run (s : machine) :
  gt911_i2c_init bus s =
  if ret (bus (calls s)) =? 0
  then (false, advance 1 [I2cInit GT911_I2C_BAUDRATE] s)
  else (true, advance 1 [I2cInit GT911_I2C_BAUDRATE;
                         GpioSetFunction GT911_PIN_SDA GPIO_FUNC_I2C;
                         GpioSetFunction GT911_PIN_SCL GPIO_FUNC_I2C;
                         GpioPullUp GT911_PIN_SDA;
                         GpioPullUp GT911_PIN_SCL;
                         SleepMs 10] s).
Proof.
  unfold gt911_i2c_init, i2c_init, gpio_set_function, gpio_pull_up, sleep_ms.
  unfold_monad.
  destruct (ret (bus (calls s)) =? 0); [reflexivity |].
  f_equal. same_machine.
Qed.

(** A one-byte register read: the address phase always goes out; the data
    phase follows unless the address phase failed. *)
Lemma read_u8_run (reg data : Z) (s : machine) :
  read_u8 bus reg data s =
  let addr := i2c_addr (gt911_dev s) in
  let sel := I2cWrite addr [Z.land (Z.shiftr reg 8) 0xFF; Z.land reg 0xFF]
                      true in
  if ret (bus (calls s)) <? 0
  then ((false, data), advance 1 [sel] s)
  else ((negb (ret (bus (S (calls s))) <? 0),
         delivered (bus (S (calls s))) data),
        advance 2 [sel; I2cRead addr 1 false] s).
Proof.
  unfold read_u8, gt911_i2c_read_reg, i2c_write_blocking, i2c_read_blocking.
  unfold_monad. change (1 =? 0) with false. cbn beta iota. norm.
  change (take (Z.to_nat 2) ?l) with l.
  destruct (ret (bus (calls s)) <? 0); [reflexivity |].
  norm.
  assert (Hd : hd data (store [data]
                 (take (Z.to_nat 1) (rx (bus (S (calls s))))))
               = delivered (bus (S (calls s))) data).
  { unfold delivered. destruct (rx (bus (S (calls s)))) as [|b [|c l]];
      reflexivity. }
  destruct (ret (bus (S (calls s))) <? 0); norm; rewrite Hd;
    f_equal; same_machine.
Qed.

Lemma gt911_clear_status_run (s : machine) :
  gt911_clear_status bus s =
  (tt, advance 1 [I2cWrite (i2c_addr (gt911_dev s)) [0x81; 0x4E; 0x00]
                           false] s).
Proof. reflexivity. Qed.

End Runs.

(** ** Path analysis *)

(** The hypothesis [E : f bus s = (r, s')] is executed one SDK call at a
    time; [branch_in] splits on the result of the call just made. *)
Ltac run_in E :=
  first [ rewrite read_u8_run in E
        | rewrite gt911_i2c_init_run in E
        | rewrite gt911_clear_status_run in E ];
  cbn zeta in E; norm_in E.

Ltac branch_in E :=
  match type of E with
  | context [if ?c then _ else _] =>
    let Ec := fresh "Ec" in
    lazymatch c with
    | context [ret ?r <? 0] => destruct (ret r <? 0) eqn:Ec
    | _ => destruct c eqn:Ec
    end;
    cbn beta iota in E; norm_in E
  end.

Ltac finish_in E := injection E as <- <-; norm.

Ltac decide_bring_up :=
  unfold bring_up_ok; cbn [reads_succeed]; unfold read_fails;
  repeat match goal with H : _ = _ |- _ => rewrite H end; reflexivity.

Ltac decide_reads :=
  cbn [reads_succeed Nat.add]; unfold read_fails;
  repeat match goal with H : (_ <? _) = _ |- _ => rewrite H end; reflexivity.

Ltac close_read_in E :=
  finish_in E;
  split; [decide_reads |];
  split; [intros ?; first [reflexivity | discriminate] |];
  rewrite <- ?app_assoc; eexists; split; reflexivity.

Section Touch.

Variable bus : nat -> response.

Lemma answers_spec (n : nat) (b : Z) :
  answers bus n b = true ->
  (ret (bus n) <? 0) = false /\ (ret (bus (S n)) <? 0) = false
  /\ (forall d, delivered (bus (S n)) d = b) /\ is_u8 b.
Proof.
  unfold answers, read_fails, delivered, is_u8. intros H.
  apply andb_prop in H as [Hf Hb].
  apply negb_true_iff, orb_false_elim in Hf as [-> ->].
  destruct (rx (bus (S n))) as [|x l]; [discriminate |].
  apply andb_prop in Hb as [Hb Hhi]. apply andb_prop in Hb as [Hx Hlo].
  apply Z.eqb_eq in Hx as ->.
  repeat split; lia.
Qed.

(** Every way through [gt911_init] on a device not yet initialised. *)
Lemma gt911_init_cases (s : machine) (r : bool) (s' : machine) :
  initialized (gt911_dev s) = false ->
  gt911_init bus s = (r, s') ->
  (r = false /\ initialized (gt911_dev s') = false
   /\ bring_up_ok bus (calls s) = false)
  \/ (r = true /\ initialized (gt911_dev s') = true
      /\ bring_up_ok bus (calls s) = true
      /\ exists dxl dxh dyl dyh,
          max_x (gt911_dev s')
          = u16 (Z.lor (delivered (bus (14 + calls s)) dxl)
                       (Z.shiftl (delivered (bus (16 + calls s)) dxh) 8))
          /\ max_y (gt911_dev s')
             = u16 (Z.lor (delivered (bus (18 + calls s)) dyl)
                          (Z.shiftl (delivered (bus (20 + calls s)) dyh) 8))).
Proof.
  intros Hi E.
  unfold gt911_init in E.
  change (Z.to_nat GT911_PRODUCT_ID_LEN) with 4%nat in E.
  cbn [read_product_id] in E.
  unfold_monad_in E. rewrite Hi in E. cbn iota in E.
  run_in E. branch_in E.
  { left. finish_in E. repeat split; auto. decide_bring_up. }
  do 10 (run_in E;
         branch_in E;
         [left; finish_in E; repeat split; auto; decide_bring_up |];
         branch_in E;
         [left; finish_in E; repeat split; auto; decide_bring_up |]).
  right. finish_in E. repeat split; [decide_bring_up |].
  do 4 eexists. split; reflexivity.
Qed.

(** A call that reports success leaves the device initialised. *)
Lemma gt911_init_true_initialized (s : machine) :
  fst (gt911_init bus s) = true ->
  initialized (gt911_dev (snd (gt911_init bus s))) = true.
Proof.
  destruct (initialized (gt911_dev s)) eqn:Hi.
  - intros _. unfold gt911_init. unfold_monad. now rewrite Hi.
  - destruct (gt911_init bus s) as [r s'] eqn:E. cbn [fst snd].
    destruct (gt911_init_cases s r s' Hi E) as [(-> & _) | (_ & H & _)];
      [discriminate | auto].
Qed.

(** An initialised device makes [gt911_init] return at once. *)
Lemma gt911_init_initialized (s : machine) :
  initialized (gt911_dev s) = true -> gt911_init bus s = (true, s).
Proof.
  intros Hi. unfold gt911_init. unfold_monad. now rewrite Hi.
Qed.

(** *** [gt911_read_touch] *)

Lemma status_tests (st : Z) :
  negb (Z.land st GT911_STATUS_BUF_READY =? 0)
  || (Z.land st GT911_STATUS_PT_MASK <? 6) = must_ack st
  /\ (Z.land st GT911_STATUS_PT_MASK =? 1) = (contact_count st =? 1).
Proof.
  unfold must_ack, buffer_ready, contact_count.
  unfold GT911_STATUS_BUF_READY, GT911_STATUS_PT_MASK.
  rewrite land_128, land_15, negb_involutive. auto.
Qed.

Lemma must_ack_single (st : Z) : contact_count st = 1 -> must_ack st = true.
Proof. unfold must_ack. intros ->. apply orb_true_r. Qed.

(** Before the status byte is in: nothing but the attempt is recorded. *)
Lemma read_touch_status_fails (s : machine) (out : touch_out) :
  initialized (gt911_dev s) = false \/ read_fails bus (calls s) = true ->
  exists k evs,
    gt911_read_touch bus out s = ((false, out), advance k evs s).
Proof.
  intros H. unfold gt911_read_touch. unfold_monad.
  destruct (initialized (gt911_dev s)) eqn:Hi; cbn [negb].
  - destruct H as [H | H]; [discriminate |].
    rewrite read_u8_run. cbn zeta.
    unfold read_fails in H.
    destruct (ret (bus (calls s)) <? 0); [eauto |].
    cbn [orb] in H. rewrite H. cbn [negb]. eauto.
  - exists 0%nat, []. f_equal. apply machine_ext; norm; auto.
    now rewrite app_nil_r.
Qed.

(** No contact, or more than one. *)
Lemma read_touch_released (s : machine) (out : touch_out) (st : Z) :
  initialized (gt911_dev s) = true ->
  answers bus (calls s) st = true ->
  contact_count st <> 1 ->
  gt911_read_touch bus out s =
  ((true, (last_x s, last_y s, false)),
   if must_ack st
   then advance 3 [sel s GT911_REG_STATUS; rd s; ack s] s
   else advance 2 [sel s GT911_REG_STATUS; rd s] s).
Proof.
  intros Hi Ha Hc.
  destruct (answers_spec _ _ Ha) as (E1 & E2 & Hd & Hb).
  destruct (status_tests st) as [T1 T2].
  unfold gt911_read_touch. unfold_monad. rewrite Hi. cbn [negb].
  rewrite read_u8_run. cbn zeta. rewrite E1, E2, Hd. cbn [negb].
  rewrite T1, T2.
  apply Z.eqb_neq in Hc. rewrite Hc.
  destruct (must_ack st).
  - rewrite gt911_clear_status_run. norm. f_equal. same_machine.
  - norm. reflexivity.
Qed.

(** Exactly one contact: every way through the coordinate reads. *)
Lemma read_touch_single_cases
      (s : machine) (out : touch_out) (st : Z)
      (r : bool * touch_out) (s' : machine) :
  initialized (gt911_dev s) = true ->
  answers bus (calls s) st = true ->
  contact_count st = 1 ->
  gt911_read_touch bus out s = (r, s') ->
  fst r = reads_succeed bus (3 + calls s) 4
  /\ (fst r = false -> snd r = out)
  /\ exists rest,
      trace s' = trace s ++ [sel s GT911_REG_STATUS; rd s; ack s;
                             sel s GT911_REG_PT1_X_L] ++ rest
      /\ count_events is_ack rest = 0%nat.
Proof.
  intros Hi Ha Hc E.
  destruct (answers_spec _ _ Ha) as (E1 & E2 & Hd & Hb).
  destruct (status_tests st) as [T1 T2].
  unfold gt911_read_touch in E. unfold_monad_in E. rewrite Hi in E.
  cbn [negb] in E.
  run_in E. rewrite E1, E2, Hd in E. cbn beta iota in E. norm_in E.
  rewrite T1, T2, (must_ack_single st Hc), (proj2 (Z.eqb_eq _ _) Hc) in E.
  cbn beta iota in E.
  run_in E.
  do 4 (run_in E;
        branch_in E; [close_read_in E |];
        branch_in E; [close_read_in E |]).
  close_read_in E.
Qed.

(** Exactly one contact and four good coordinate reads. *)
Lemma read_touch_pressed
      (s : machine) (out : touch_out) (st xl xh yl yh : Z) :
  initialized (gt911_dev s) = true ->
  answers bus (calls s) st = true ->
  contact_count st = 1 ->
  answers bus (3 + calls s) xl = true ->
  answers bus (5 + calls s) xh = true ->
  answers bus (7 + calls s) yl = true ->
  answers bus (9 + calls s) yh = true ->
  gt911_read_touch bus out s =
  ((true, (le16 xl xh, le16 yl yh, true)),
   with_last_y (le16 yl yh)
     (with_last_x (le16 xl xh)
        (advance 11 [sel s GT911_REG_STATUS; rd s; ack s;
                     sel s GT911_REG_PT1_X_L; rd s;
                     sel s GT911_REG_PT1_X_H; rd s;
                     sel s GT911_REG_PT1_Y_L; rd s;
                     sel s GT911_REG_PT1_Y_H; rd s] s))).
Proof.
  intros Hi Ha Hc Hxl Hxh Hyl Hyh.
  destruct (answers_spec _ _ Ha) as (E1 & E2 & Hd & Hb).
  destruct (answers_spec _ _ Hxl) as (X1 & X2 & Xd & Xb).
  destruct (answers_spec _ _ Hxh) as (X3 & X4 & Xhd & Xhb).
  destruct (answers_spec _ _ Hyl) as (Y1 & Y2 & Yd & Yb).
  destruct (answers_spec _ _ Hyh) as (Y3 & Y4 & Yhd & Yhb).
  cbn [Nat.add] in *.
  destruct (status_tests st) as [T1 T2].
  unfold gt911_read_touch. unfold_monad. rewrite Hi. cbn [negb].
  rewrite read_u8_run. cbn zeta. norm.
  rewrite E1, E2, Hd. cbn beta iota. norm.
  rewrite T1, T2, (must_ack_single st Hc), (proj2 (Z.eqb_eq _ _) Hc).
  cbn beta iota.
  rewrite gt911_clear_status_run. norm.
  rewrite read_u8_run. cbn zeta. norm.
  rewrite X1, X2, Xd. cbn beta iota. norm.
  rewrite read_u8_run. cbn zeta. norm.
  rewrite X3, X4, Xhd. cbn beta iota. norm.
  rewrite read_u8_run. cbn zeta. norm.
  rewrite Y1, Y2, Yd. cbn beta iota. norm.
  rewrite read_u8_run. cbn zeta. norm.
  rewrite Y3, Y4, Yhd. cbn beta iota. norm.
  rewrite !lor_le16 by assumption.
  f_equal. same_machine.
Qed.

End Touch.

Section BringUpTrace.

Variable bus : nat -> response.

(** The events of a bring-up that reports success. *)
Lemma gt911_init_success_trace (s : machine) (r : bool) (s' : machine) :
  initialized (gt911_dev s) = false ->
  gt911_init bus s = (r, s') ->
  r = true ->
  trace s' = trace s ++ bring_up_events s
  /\ calls s' = (21 + calls s)%nat.
Proof.
  intros Hi E.
  unfold gt911_init in E.
  change (Z.to_nat GT911_PRODUCT_ID_LEN) with 4%nat in E.
  cbn [read_product_id] in E.
  unfold_monad_in E. rewrite Hi in E. cbn iota in E.
  run_in E. branch_in E.
  { finish_in E. discriminate. }
  do 10 (run_in E;
         branch_in E; [finish_in E; discriminate |];
         branch_in E; [finish_in E; discriminate |]).
  finish_in E. intros _. split; [| reflexivity].
  rewrite <- !app_assoc. reflexivity.
Qed.

Lemma gt911_init_success_emitted (s : machine) :
  initialized (gt911_dev s) = false ->
  bring_up_ok bus (calls s) = true ->
  emitted (gt911_init bus) s = bring_up_events s
  /\ calls (snd (gt911_init bus s)) = (21 + calls s)%nat.
Proof.
  intros Hi Hok. unfold emitted.
  destruct (gt911_init bus s) as [r s'] eqn:E. cbn [snd].
  destruct (gt911_init_cases bus s r s' Hi E)
    as [(_ & _ & Hno) | (Hr & _)]; [congruence |].
  destruct (gt911_init_success_trace s r s' Hi E Hr) as [-> ->].
  split; [apply drop_app_length | reflexivity].
Qed.

End BringUpTrace.

(** ** Touch initialisation

    On a device not yet initialised, [gt911_init] started at call [n] makes
    [i2c_init] call [n]; its ten register reads (the probe, the four
    product-id bytes, the vendor id, X low, X high, Y low, Y high) follow,
    the [k]-th of them (from 0) using call [n + 1 + 2 k] for its address
    phase and call [n + 2 + 2 k] for its data phase. *)

(** C1 (as amended): on a device not yet initialised, [gt911_init] returns
    failure and leaves the initialized flag false whenever [i2c_init] or any
    of the ten identification/resolution reads fails; when all of them
    succeed it returns success with the flag set and max_x and max_y the
    little-endian assembly of the bytes of the four resolution registers:
    the 21 bus calls of the successful bring-up are those of
    [bring_up_events], in which calls 13, 15, 17 and 19 select registers
    0x8146 (X low), 0x8147 (X high), 0x8148 (Y low) and 0x8149 (Y high) and
    the calls after them read the byte.
    Nothing is said about product_id, max_x and max_y after a failure. *)
Theorem gt911_init_flag_all_or_nothing
        (bus : nat -> response) (s : machine) :
  initialized (gt911_dev s) = false ->
  let r := gt911_init bus s in
  let t := emitted (gt911_init bus) s in
  (bring_up_ok bus (calls s) = false ->
   fst r = false /\ initialized (gt911_dev (snd r)) = false)
  /\ (bring_up_ok bus (calls s) = true ->
      fst r = true /\ initialized (gt911_dev (snd r)) = true
      /\ t = bring_up_events s
      /\ calls (snd r) = (length (bus_calls t) + calls s)%nat
      /\ reads_register s t 13 0x8146
      /\ reads_register s t 15 0x8147
      /\ reads_register s t 17 0x8148
      /\ reads_register s t 19 0x8149
      /\ forall xl xh yl yh,
          answers bus (13 + calls s) xl = true ->
          answers bus (15 + calls s) xh = true ->
          answers bus (17 + calls s) yl = true ->
          answers bus (19 + calls s) yh = true ->
          max_x (gt911_dev (snd r)) = le16 xl xh
          /\ max_y (gt911_dev (snd r)) = le16 yl yh).
Proof.
  intros Hi r t. subst r t.
  pose proof (gt911_init_success_emitted bus s Hi) as Hem.
  destruct (gt911_init bus s) as [r s'] eqn:E. cbn [fst snd] in *.
  destruct (gt911_init_cases bus s r s' Hi E)
    as [(-> & Hf & Hok) | (-> & Ht & Hok & dxl & dxh & dyl & dyh & Hx & Hy)];
    rewrite Hok; split; try discriminate; intros _; [now split |].
  destruct (Hem Hok) as [-> ->].
  split; [reflexivity |]. split; [assumption |].
  split; [reflexivity |]. split; [reflexivity |].
  do 4 (split; [split; reflexivity |]).
  intros xl xh yl yh Axl Axh Ayl Ayh.
  destruct (answers_spec bus _ _ Axl) as (_ & _ & Hxl & Bxl).
  destruct (answers_spec bus _ _ Axh) as (_ & _ & Hxh & Bxh).
  destruct (answers_spec bus _ _ Ayl) as (_ & _ & Hyl & Byl).
  destruct (answers_spec bus _ _ Ayh) as (_ & _ & Hyh & Byh).
  cbn [Nat.add] in Hxl, Hxh, Hyl, Hyh.
  rewrite Hx, Hy. cbn [Nat.add]. rewrite Hxl, Hxh, Hyl, Hyh.
  split; now apply lor_le16.
Qed.

(** C1, as first stated, fails: the Y-resolution read of [flaky_panel]
    fails and [gt911_init] reports failure with the flag still false, but
    the product id and max_x read before the failure are already in the
    device structure. *)
Lemma gt911_init_commits_partial_state :
  let r := gt911_init (script flaky_panel) boot in
  initialized (gt911_dev boot) = false
  /\ bring_up_ok (script flaky_panel) (calls boot) = false
  /\ fst r = false
  /\ initialized (gt911_dev (snd r)) = false
  /\ product_id (gt911_dev boot) = [0; 0; 0; 0; 0]
  /\ product_id (gt911_dev (snd r)) = [0x39; 0x31; 0x31; 0; 0]
  /\ max_x (gt911_dev boot) = 0
  /\ max_x (gt911_dev (snd r)) = 320
  /\ gt911_dev (snd r) <> gt911_dev boot.
Proof. vm_compute. repeat split. discriminate. Qed.

Lemma gt911_init_flag_all_or_nothing_witness :
  let r := gt911_init (script good_panel) boot in
  fst r = true /\ initialized (gt911_dev (snd r)) = true
  /\ max_x (gt911_dev (snd r)) = 0x0140 /\ max_y (gt911_dev (snd r)) = 0x01E0.
Proof.
  destruct (gt911_init_flag_all_or_nothing (script good_panel) boot eq_refl)
    as [_ H].
  destruct (H eq_refl) as (Hr & Hi & _ & _ & _ & _ & _ & _ & Hm).
  destruct (Hm 0x40 0x01 0xE0 0x01 eq_refl eq_refl eq_refl eq_refl) as [Hx Hy].
  repeat split; assumption.
Defined.

(** C9: once [gt911_init] has returned success, the device is initialised,
    and any further call, whatever the bus would answer, returns success
    with the machine unchanged: no SDK call is logged or counted, no field of
    the device structure is written.  The same holds after any number of
    further calls. *)
Theorem gt911_init_idempotent (bus bus' : nat -> response) (s : machine) :
  fst (gt911_init bus s) = true ->
  let s1 := snd (gt911_init bus s) in
  gt911_init bus' s1 = (true, s1)
  /\ emitted (gt911_init bus') s1 = []
  /\ forall n, Nat.iter n (fun s2 => snd (gt911_init bus' s2)) s1 = s1.
Proof.
  intros H s1.
  assert (E : gt911_init bus' s1 = (true, s1)).
  { apply gt911_init_initialized. now apply gt911_init_true_initialized. }
  split; [exact E |]. split.
  - unfold emitted. rewrite E. cbn [snd]. apply drop_all.
  - induction n as [|n IH]; [reflexivity |].
    rewrite Nat.iter_succ, IH, E. reflexivity.
Qed.

Lemma gt911_init_idempotent_witness :
  let s1 := snd (gt911_init (script good_panel) boot) in
  gt911_init (script []) s1 = (true, s1)
  /\ emitted (gt911_init (script [])) s1 = [].
Proof.
  destruct (gt911_init_idempotent (script good_panel) (script []) boot
              eq_refl) as (H1 & H2 & _).
  split; assumption.
Defined.

(** ** Touch polling

    In the statements below the status read of a poll that starts at call
    [n] uses calls [n] and [n + 1]; the acknowledgment write is call
    [n + 2]; the reads of X low, X high, Y low and Y high start at calls
    [n + 3], [n + 5], [n + 7] and [n + 9]. *)

(** C2, as first stated, fails: the status read of [dropped_finger]
    succeeds with 0x81, the read of the high X byte fails, and
    [gt911_read_touch] returns failure. *)
Lemma gt911_read_touch_fails_after_status :
  let s := ready 320 480 0 0 in
  let bus := script dropped_finger in
  initialized (gt911_dev s) = true
  /\ answers bus (calls s) 0x81 = true
  /\ fst (fst (gt911_read_touch bus (0, 0, false) s)) = false.
Proof. vm_compute. repeat split. Qed.

(** C2 (as amended): on an initialised device whose status read succeeded
    with status byte [st], [gt911_read_touch] returns success exactly when
    the contact count is not 1, or it is 1 and the four coordinate reads
    all succeed. *)
Theorem gt911_read_touch_result
        (bus : nat -> response) (s : machine) (out : touch_out) (st : Z) :
  initialized (gt911_dev s) = true ->
  answers bus (calls s) st = true ->
  fst (fst (gt911_read_touch bus out s))
  = negb (contact_count st =? 1) || reads_succeed bus (3 + calls s) 4.
Proof.
  intros Hi Ha.
  destruct (Z.eqb_spec (contact_count st) 1) as [Hc | Hc]; cbn [negb orb].
  - destruct (gt911_read_touch bus out s) as [r s'] eqn:E.
    now destruct (read_touch_single_cases bus s out st r s' Hi Ha Hc E).
  - now rewrite (read_touch_released bus s out st Hi Ha Hc).
Qed.

Lemma gt911_read_touch_result_witness :
  fst (fst (gt911_read_touch (script one_finger) (0, 0, false)
                             (ready 320 480 0 0))) = true.
Proof.
  exact (gt911_read_touch_result (script one_finger) (ready 320 480 0 0)
           (0, 0, false) 0x81 eq_refl eq_refl).
Defined.

(** C3: on an initialised device whose status read succeeded with status
    byte [st], the poll puts the acknowledgment (one I2C write of the three
    bytes 0x81 0x4E 0x00: a single zero byte to register 0x814E) on the bus
    exactly once if bit 7 of [st] is set or its low four bits are below 6,
    and not at all otherwise.  For [st = 0] the acknowledgment is due, the
    poll reports the retained coordinate with pressed = false, and the
    retained coordinate is unchanged. *)
Theorem gt911_read_touch_acknowledges
        (bus : nat -> response) (s : machine) (out : touch_out) (st : Z) :
  initialized (gt911_dev s) = true ->
  answers bus (calls s) st = true ->
  let r := gt911_read_touch bus out s in
  count_events is_ack (emitted (gt911_read_touch bus out) s)
  = (if buffer_ready st || (contact_count st <? 6) then 1%nat else 0%nat)
  /\ (st = 0 ->
      buffer_ready st || (contact_count st <? 6) = true
      /\ fst r = (true, (last_x s, last_y s, false))
      /\ last_x (snd r) = last_x s /\ last_y (snd r) = last_y s).
Proof.
  intros Hi Ha r. subst r. fold (must_ack st). split.
  - destruct (Z.eq_dec (contact_count st) 1) as [Hc | Hc].
    + destruct (gt911_read_touch bus out s) as [r s'] eqn:E.
      destruct (read_touch_single_cases bus s out st r s' Hi Ha Hc E)
        as (_ & _ & rest & Ht & Hn).
      unfold emitted. rewrite E. cbn [snd]. rewrite Ht, drop_app_length.
      rewrite (must_ack_single st Hc).
      cbn. now rewrite Hn.
    + unfold emitted.
      rewrite (read_touch_released bus s out st Hi Ha Hc). cbn [snd].
      destruct (must_ack st); norm; rewrite drop_app_length; reflexivity.
  - intros ->.
    rewrite (read_touch_released bus s out 0 Hi Ha ltac:(discriminate)).
    repeat split.
Qed.

Lemma gt911_read_touch_acknowledges_witness :
  let s := ready 320 480 100 200 in
  let r := gt911_read_touch (script no_finger) (0, 0, true) s in
  count_events is_ack
    (emitted (gt911_read_touch (script no_finger) (0, 0, true)) s) = 1%nat
  /\ fst r = (true, (100, 200, false))
  /\ last_x (snd r) = 100 /\ last_y (snd r) = 200.
Proof.
  destruct (gt911_read_touch_acknowledges (script no_finger)
              (ready 320 480 100 200) (0, 0, true) 0 eq_refl eq_refl)
    as [Hn H0].
  destruct (H0 eq_refl) as (_ & Hr & Hx & Hy).
  repeat split; assumption.
Defined.

(** C4, as first stated, fails: with (320, 480) retained and one contact
    reported (status 0x81), a poll whose read of the high X byte fails
    returns failure with its outputs untouched, so it does not report
    pressed = true, and it leaves 100, the low X byte just read, as the
    retained X coordinate. *)
Lemma gt911_read_touch_failed_read_alters_coordinate :
  let s := ready 320 480 0x140 0x1E0 in
  let bus := script dropped_finger in
  let r := gt911_read_touch bus (0, 0, false) s in
  initialized (gt911_dev s) = true
  /\ answers bus (calls s) 0x81 = true
  /\ contact_count 0x81 = 1
  /\ fst r = (false, (0, 0, false))
  /\ last_x s = 0x140 /\ last_x (snd r) = 0x64.
Proof. vm_compute. repeat split. Qed.

(** C4 (as amended): the retained coordinate is left as it was by a poll on
    an uninitialised device, by a poll whose status read fails, and by a
    poll that sees no contact or more than one (which reports it with
    pressed = false).  With exactly one contact and four successful
    coordinate reads, each a register transaction of its own after the
    acknowledgment, the poll assembles X and Y little-endian, stores them
    as the retained coordinate and reports them with pressed = true.
    Nothing is said about a poll that fails among the coordinate reads. *)
Theorem gt911_read_touch_retained_coordinate
        (bus : nat -> response) (s : machine) (out : touch_out) :
  let r := gt911_read_touch bus out s in
  (initialized (gt911_dev s) = false \/ read_fails bus (calls s) = true ->
   fst r = (false, out)
   /\ last_x (snd r) = last_x s /\ last_y (snd r) = last_y s)
  /\ (forall st,
      initialized (gt911_dev s) = true ->
      answers bus (calls s) st = true ->
      contact_count st <> 1 ->
      fst r = (true, (last_x s, last_y s, false))
      /\ last_x (snd r) = last_x s /\ last_y (snd r) = last_y s)
  /\ (forall st xl xh yl yh,
      initialized (gt911_dev s) = true ->
      answers bus (calls s) st = true ->
      contact_count st = 1 ->
      answers bus (3 + calls s) xl = true ->
      answers bus (5 + calls s) xh = true ->
      answers bus (7 + calls s) yl = true ->
      answers bus (9 + calls s) yh = true ->
      fst r = (true, (le16 xl xh, le16 yl yh, true))
      /\ last_x (snd r) = le16 xl xh /\ last_y (snd r) = le16 yl yh
      /\ emitted (gt911_read_touch bus out) s
         = [sel s GT911_REG_STATUS; rd s; ack s;
            sel s GT911_REG_PT1_X_L; rd s; sel s GT911_REG_PT1_X_H; rd s;
            sel s GT911_REG_PT1_Y_L; rd s; sel s GT911_REG_PT1_Y_H; rd s]).
Proof.
  intros r. subst r. split; [| split].
  - intros H.
    destruct (read_touch_status_fails bus s out H) as (k & evs & ->).
    repeat split.
  - intros st Hi Ha Hc.
    rewrite (read_touch_released bus s out st Hi Ha Hc).
    destruct (must_ack st); repeat split.
  - intros st xl xh yl yh Hi Ha Hc Hxl Hxh Hyl Hyh.
    unfold emitted.
    rewrite (read_touch_pressed bus s out st xl xh yl yh
               Hi Ha Hc Hxl Hxh Hyl Hyh).
    repeat split. norm. apply drop_app_length.
Qed.

Lemma gt911_read_touch_retained_coordinate_witness :
  let s := ready 320 480 0 0 in
  let r := gt911_read_touch (script one_finger) (0, 0, false) s in
  fst r = (true, (100, 200, true))
  /\ last_x (snd r) = 100 /\ last_y (snd r) = 200.
Proof.
  destruct (gt911_read_touch_retained_coordinate (script one_finger)
              (ready 320 480 0 0) (0, 0, false)) as (_ & _ & H).
  destruct (H 0x81 0x64 0x00 0xC8 0x00 eq_refl eq_refl eq_refl
              eq_refl eq_refl eq_refl eq_refl) as (Hr & Hx & Hy & _).
  repeat split; assumption.
Defined.

(** C10: on an initialised device whose status read succeeded with a
    contact count of 1, the events of the poll are the status read, then
    the acknowledgment write, then the address phase of the X-low read and
    whatever follows; no coordinate register is addressed before the
    acknowledgment, and no second acknowledgment follows. *)
Theorem gt911_read_touch_ack_before_coordinates
        (bus : nat -> response) (s : machine) (out : touch_out) (st : Z) :
  initialized (gt911_dev s) = true ->
  answers bus (calls s) st = true ->
  contact_count st = 1 ->
  let t := emitted (gt911_read_touch bus out) s in
  (exists rest,
     t = [sel s GT911_REG_STATUS; rd s; ack s; sel s GT911_REG_PT1_X_L]
           ++ rest
     /\ count_events is_ack rest = 0%nat)
  /\ ack_precedes_coordinates t = true.
Proof.
  intros Hi Ha Hc t. subst t.
  destruct (gt911_read_touch bus out s) as [r s'] eqn:E.
  destruct (read_touch_single_cases bus s out st r s' Hi Ha Hc E)
    as (_ & _ & rest & Ht & Hn).
  unfold emitted. rewrite E. cbn [snd]. rewrite Ht, drop_app_length.
  split; [now exists rest | reflexivity].
Qed.

Lemma gt911_read_touch_ack_before_coordinates_witness :
  ack_precedes_coordinates
    (emitted (gt911_read_touch (script one_finger) (0, 0, false))
             (ready 320 480 0 0)) = true.
Proof.
  exact (proj2 (gt911_read_touch_ack_before_coordinates (script one_finger)
                  (ready 320 480 0 0) (0, 0, false) 0x81
                  eq_refl eq_refl eq_refl)).
Defined.

(** ** The LCD driver *)

Lemma count_events_app (p : event -> bool) (t1 t2 : list event) :
  count_events p (t1 ++ t2) = (count_events p t1 + count_events p t2)%nat.
Proof.
  induction t1 as [|e t IH]; [reflexivity |].
  cbn [app count_events]. destruct (p e); rewrite IH; reflexivity.
Qed.

Lemma u16_is_u16 (z : Z) : is_u16 (u16 z).
Proof. unfold is_u16, u16. apply Z.mod_pos_bound. lia. Qed.

Lemma be16_bytes (z : Z) :
  is_u16 z -> [Z.land (Z.shiftr z 8) 0xFF; Z.land z 0xFF] = be16 z.
Proof.
  unfold is_u16, be16. intros H.
  rewrite !land_255, shiftr_8. f_equal.
  apply Z.mod_small.
  split; [apply Z.div_pos; lia | apply Z.div_lt_upper_bound; lia].
Qed.

Lemma u16_bytes_take (pixels : list Z) (n : nat) :
  take (2 * n) (u16_bytes pixels) = u16_bytes (take n pixels).
Proof.
  revert n. induction pixels as [|p l IH]; intros [|n]; try reflexivity.
  replace (2 * S n)%nat with (S (S (2 * n))) by lia.
  unfold u16_bytes in *. cbn [flat_map app take]. now rewrite IH.
Qed.

Lemma u16_bytes_length (pixels : list Z) :
  length (u16_bytes pixels) = (2 * length pixels)%nat.
Proof.
  unfold u16_bytes.
  induction pixels as [|p l IH]; cbn [flat_map app length];
    [reflexivity | rewrite IH; lia].
Qed.

(** The byte image loses nothing: read back, it is the pixel array. *)
Lemma u16_of_bytes_u16_bytes (pixels : list Z) :
  Forall is_u16 pixels -> u16_of_bytes (u16_bytes pixels) = pixels.
Proof.
  induction 1 as [|p l Hp _ IH]; [reflexivity |].
  unfold u16_bytes in *. cbn [flat_map app u16_of_bytes]. rewrite IH. f_equal.
  unfold le16, is_u16 in *. rewrite !land_255, shiftr_8.
  rewrite (Z.mod_small (p / 256)).
  - pose proof (Z.div_mod p 256). lia.
  - split; [apply Z.div_pos; lia | apply Z.div_lt_upper_bound; lia].
Qed.

Lemma st7796_write_cmd_run (cmd : Z) (s : machine) :
  st7796_write_cmd cmd s = (tt, advance 0 (cmd_events cmd) s).
Proof.
  unfold st7796_write_cmd, LCD_CS_LOW, LCD_CS_HIGH, LCD_DC_CMD, gpio_put,
    sleep_us, spi_write_blocking.
  unfold_monad. f_equal. same_machine.
Qed.

Lemma st7796_write_data_run (bytes : list Z) (len : Z) (s : machine) :
  0 < len ->
  st7796_write_data (Some bytes) len s
  = (tt, advance 0 (data_events (take (Z.to_nat len) bytes)) s).
Proof.
  intros Hl.
  unfold st7796_write_data, LCD_CS_LOW, LCD_CS_HIGH, LCD_DC_DATA, gpio_put,
    sleep_us, spi_write_blocking.
  destruct (Z.eqb_spec len 0) as [-> | _]; [lia |].
  unfold_monad. f_equal. same_machine.
Qed.

Lemma st7796_set_window_run (x1 y1 x2 y2 : Z) (s : machine) :
  is_u16 x1 -> is_u16 y1 -> is_u16 x2 -> is_u16 y2 ->
  st7796_set_window x1 y1 x2 y2 s
  = (tt, advance 0 (window_events x1 y1 x2 y2) s).
Proof.
  intros Hx1 Hy1 Hx2 Hy2.
  unfold st7796_set_window.
  pose proof (be16_bytes x1 Hx1) as B1. pose proof (be16_bytes x2 Hx2) as B2.
  pose proof (be16_bytes y1 Hy1) as B3. pose proof (be16_bytes y2 Hy2) as B4.
  injection B1 as -> ->. injection B2 as -> ->.
  injection B3 as -> ->. injection B4 as -> ->.
  unfold bind.
  repeat (first [rewrite st7796_write_cmd_run
                | rewrite st7796_write_data_run by lia]; cbn beta iota).
  change (take (Z.to_nat 4) [?a; ?b; ?c; ?d]) with [a; b; c; d].
  f_equal. same_machine.
Qed.

Lemma st7796_write_color_run
      (color : option (list Z)) (len : Z) (s : machine) :
  st7796_write_color color len s = (tt, advance 0 (color_events color len) s).
Proof.
  unfold st7796_write_color, color_events, LCD_CS_LOW, LCD_CS_HIGH,
    LCD_DC_DATA, gpio_put, spi_write_blocking.
  destruct color as [pixels |]; [destruct (len =? 0) |];
    unfold_monad; f_equal; apply machine_ext; norm;
    rewrite <- ?app_assoc, ?app_nil_r; reflexivity.
Qed.

Lemma color_events_pixels (pixels : list Z) (len : Z) :
  0 < len -> len <= Z.of_nat (length pixels) ->
  2 * Z.of_nat (length pixels) < 2 ^ 32 ->
  color_events (Some pixels) len
  = burst_events (u16_bytes (take (Z.to_nat len) pixels)).
Proof.
  intros Hl Hn Hfit. unfold color_events.
  destruct (Z.eqb_spec len 0) as [-> | _]; [lia |].
  replace (Z.to_nat (u32 (len * 2))) with (2 * Z.to_nat len)%nat.
  - now rewrite u16_bytes_take.
  - unfold u32. change 4294967296 with (2 ^ 32).
    rewrite Z.mod_small by lia. lia.
Qed.

Lemma color_events_no_signal (color : option (list Z)) (len : Z) :
  count_events is_flush_ready (color_events color len) = 0%nat.
Proof.
  unfold color_events. destruct color; [destruct (len =? 0) |]; reflexivity.
Qed.

Lemma set_orientation_run (o : st7796_orientation_t) (s : machine) :
  exists v,
    st7796_set_orientation o s
    = (tt, advance 0 (cmd_events ST7796_CMD_MADCTL ++ burst_events [v])
                   (with_orientation o s))
    /\ v = match o with
           | ST7796_PORTRAIT => 0x48
           | ST7796_LANDSCAPE => 0x28
           | ST7796_PORTRAIT_INV => 0x88
           | ST7796_LANDSCAPE_INV => 0xE8
           end.
Proof.
  eexists. split; [| reflexivity].
  unfold st7796_set_orientation. unfold bind at 1 2. unfold modify.
  rewrite st7796_write_cmd_run.
  unfold LCD_CS_LOW, LCD_CS_HIGH, LCD_DC_DATA, gpio_put, spi_write_blocking.
  unfold_monad. f_equal. destruct o; same_machine.
Qed.

Lemma set_orientation_frames
      (o : st7796_orientation_t) (s : machine) (dc : bool) :
  exists v,
    spi_frames dc (emitted (st7796_set_orientation o) s)
    = [Command [ST7796_CMD_MADCTL]; Data [v]]
    /\ v = match o with
           | ST7796_PORTRAIT => 0x48
           | ST7796_LANDSCAPE => 0x28
           | ST7796_PORTRAIT_INV => 0x88
           | ST7796_LANDSCAPE_INV => 0xE8
           end.
Proof.
  destruct (set_orientation_run o s) as (v & E & Hv). exists v.
  split; [| exact Hv].
  unfold emitted. rewrite E. norm. now rewrite drop_app_length.
Qed.

(** C7: for each of the four orientations the controller sees the MADCTL
    command followed by one data frame of exactly one byte: 0x48 for
    portrait, 0x28 for landscape, 0x88 for inverted portrait, 0xE8 for
    inverted landscape; and the orientation is then the value of
    [current_orientation]. *)
Theorem st7796_set_orientation_register :
  (forall s dc,
      spi_frames dc (emitted (st7796_set_orientation ST7796_PORTRAIT) s)
      = [Command [ST7796_CMD_MADCTL]; Data [0x48]])
  /\ (forall s dc,
      spi_frames dc (emitted (st7796_set_orientation ST7796_LANDSCAPE) s)
      = [Command [ST7796_CMD_MADCTL]; Data [0x28]])
  /\ (forall s dc,
      spi_frames dc (emitted (st7796_set_orientation ST7796_PORTRAIT_INV) s)
      = [Command [ST7796_CMD_MADCTL]; Data [0x88]])
  /\ (forall s dc,
      spi_frames dc (emitted (st7796_set_orientation ST7796_LANDSCAPE_INV) s)
      = [Command [ST7796_CMD_MADCTL]; Data [0xE8]])
  /\ (forall s o,
      current_orientation (snd (st7796_set_orientation o s)) = o).
Proof.
  split; [| split; [| split; [| split]]].
  - intros s dc.
    now destruct (set_orientation_frames ST7796_PORTRAIT s dc)
      as (v & -> & ->).
  - intros s dc.
    now destruct (set_orientation_frames ST7796_LANDSCAPE s dc)
      as (v & -> & ->).
  - intros s dc.
    now destruct (set_orientation_frames ST7796_PORTRAIT_INV s dc)
      as (v & -> & ->).
  - intros s dc.
    now destruct (set_orientation_frames ST7796_LANDSCAPE_INV s dc)
      as (v & -> & ->).
  - intros s o. destruct (set_orientation_run o s) as (v & E & _).
    now rewrite E.
Qed.

(** C8: for 16-bit corners with x1 <= x2 and y1 <= y2 the controller sees
    exactly five frames: the column-address command with the four data
    bytes x1 high, x1 low, x2 high, x2 low; the row-address command with
    the four data bytes y1 high, y1 low, y2 high, y2 low; and the
    memory-write command with no data frame after it. *)
Theorem st7796_set_window_frames
        (s : machine) (x1 y1 x2 y2 : Z) (dc : bool) :
  is_u16 x1 -> is_u16 y1 -> is_u16 x2 -> is_u16 y2 ->
  x1 <= x2 -> y1 <= y2 ->
  spi_frames dc (emitted (st7796_set_window x1 y1 x2 y2) s)
  = [Command [ST7796_CMD_CASET];
     Data [x1 / 256; x1 mod 256; x2 / 256; x2 mod 256];
     Command [ST7796_CMD_RASET];
     Data [y1 / 256; y1 mod 256; y2 / 256; y2 mod 256];
     Command [ST7796_CMD_RAMWR]].
Proof.
  intros Hx1 Hy1 Hx2 Hy2 _ _.
  unfold emitted. rewrite st7796_set_window_run by assumption.
  norm. now rewrite drop_app_length.
Qed.

Lemma st7796_set_window_frames_witness :
  spi_frames true (emitted (st7796_set_window 0 0 319 479) boot)
  = [Command [0x2A]; Data [0x00; 0x00; 0x01; 0x3F];
     Command [0x2B]; Data [0x00; 0x00; 0x01; 0xDF]; Command [0x2C]].
Proof.
  apply (st7796_set_window_frames boot 0 0 319 479 true);
    unfold is_u16; lia.
Defined.

(** C6: given a buffer that holds at least [count] pixels (and fits a
    32-bit address space), [st7796_write_color] with [count > 0] sends one
    SPI burst, framed by chip select with D/C high, whose bytes are the
    memory image of the first [count] pixels: [2 * count] bytes, a single
    data frame, which reads back as those pixels.  With [count = 0] it
    emits nothing. *)
Theorem st7796_write_color_verbatim
        (s : machine) (pixels : list Z) (count : Z) :
  (0 < count -> count <= Z.of_nat (length pixels) ->
   2 * Z.of_nat (length pixels) < 2 ^ 32 ->
   let sent := u16_bytes (take (Z.to_nat count) pixels) in
   let t := emitted (st7796_write_color (Some pixels) count) s in
   t = [GpioPut ST7796_PIN_CS false; GpioPut ST7796_PIN_DC true;
        SpiWrite sent; GpioPut ST7796_PIN_CS true]
   /\ Z.of_nat (length sent) = 2 * count
   /\ (forall dc, spi_frames dc t = [Data sent])
   /\ (Forall is_u16 pixels ->
       u16_of_bytes sent = take (Z.to_nat count) pixels))
  /\ (forall color, emitted (st7796_write_color color 0) s = []).
Proof.
  split.
  - intros Hc Hn Hfit sent t. subst sent t.
    unfold emitted. rewrite st7796_write_color_run. norm.
    rewrite drop_app_length, color_events_pixels by assumption.
    split; [reflexivity |]. split; [| split].
    + rewrite u16_bytes_length, length_take. lia.
    + intros dc. reflexivity.
    + intros Hp. apply u16_of_bytes_u16_bytes. now apply Forall_take.
  - intros color. unfold emitted. rewrite st7796_write_color_run. norm.
    rewrite drop_app_length. unfold color_events. now destruct color.
Qed.

Lemma st7796_write_color_verbatim_witness :
  emitted (st7796_write_color (Some [0x1234; 0x5678; 0x9ABC]) 2) boot
  = [GpioPut ST7796_PIN_CS false; GpioPut ST7796_PIN_DC true;
     SpiWrite [0x34; 0x12; 0x78; 0x56]; GpioPut ST7796_PIN_CS true].
Proof.
  destruct (st7796_write_color_verbatim boot [0x1234; 0x5678; 0x9ABC] 2)
    as [H _].
  exact (proj1 (H ltac:(lia) ltac:(simpl; lia) ltac:(simpl; lia))).
Defined.

(** ** The flush callback *)

Lemma disp_flush_run
      (area : lv_area_t) (color_p : option (list Z)) (s : machine) :
  disp_flush area color_p s =
  (tt,
   if disp_flush_enabled s
   then advance 0
          (window_events (u16 (x1 area)) (u16 (y1 area))
                         (u16 (x2 area)) (u16 (y2 area))
           ++ color_events color_p
                (u32 (lv_area_get_width area * lv_area_get_height area))
           ++ [LvDispFlushReady]) s
   else advance 0 [LvDispFlushReady] s).
Proof.
  unfold disp_flush, lv_disp_flush_ready. unfold bind at 1. unfold gets.
  destruct (disp_flush_enabled s); cbn [negb]; [| reflexivity].
  unfold bind.
  rewrite st7796_set_window_run by apply u16_is_u16.
  rewrite st7796_write_color_run.
  unfold emit, modify. f_equal. same_machine.
Qed.

Lemma area_ok_bounds (a : lv_area_t) :
  area_ok a = true ->
  0 <= x1 a <= x2 a /\ x2 a < 32767 /\ 0 <= y1 a <= y2 a /\ y2 a < 32767.
Proof.
  unfold area_ok. intros H.
  repeat (apply andb_prop in H as [H ?]).
  repeat match goal with
         | H : (_ <=? _) = true |- _ => apply Z.leb_le in H
         | H : (_ <? _) = true |- _ => apply Z.ltb_lt in H
         end.
  lia.
Qed.

Lemma area_ok_spec (a : lv_area_t) :
  area_ok a = true ->
  u16 (x1 a) = x1 a /\ u16 (y1 a) = y1 a
  /\ u16 (x2 a) = x2 a /\ u16 (y2 a) = y2 a
  /\ u32 (lv_area_get_width a * lv_area_get_height a)
     = (x2 a - x1 a + 1) * (y2 a - y1 a + 1).
Proof.
  intros H. apply area_ok_bounds in H.
  unfold u16, u32, lv_area_get_width, lv_area_get_height, s16.
  rewrite !(Z.mod_small _ 65536) by lia.
  repeat split; try reflexivity.
  replace (x2 a - x1 a + 1 + 32768 - 32768) with (x2 a - x1 a + 1) by lia.
  replace (y2 a - y1 a + 1 + 32768 - 32768) with (y2 a - y1 a + 1) by lia.
  apply Z.mod_small. nia.
Qed.

(** C5: every call of [disp_flush] signals completion to LVGL exactly
    once.  With updates disabled that signal is the only event: no window
    is set, no colour is written, nothing moves on a bus.  With updates
    enabled the events are those of [st7796_set_window] on the corners of
    the area, then those of [st7796_write_color] on the buffer with a pixel
    count of width times height, then the completion signal; for an
    on-screen area width times height is
    [(x2 - x1 + 1) * (y2 - y1 + 1)]. *)
Theorem disp_flush_signals_once
        (s : machine) (area : lv_area_t) (color_p : option (list Z)) :
  let t := emitted (disp_flush area color_p) s in
  count_events is_flush_ready t = 1%nat
  /\ (disp_flush_enabled s = false ->
      t = [LvDispFlushReady] /\ count_events is_bus_transaction t = 0%nat)
  /\ (disp_flush_enabled s = true ->
      t = emitted (st7796_set_window (u16 (x1 area)) (u16 (y1 area))
                                     (u16 (x2 area)) (u16 (y2 area))) s
          ++ emitted (st7796_write_color color_p
                        (u32 (lv_area_get_width area
                              * lv_area_get_height area))) s
          ++ [LvDispFlushReady])
  /\ (disp_flush_enabled s = true -> area_ok area = true ->
      t = emitted (st7796_set_window (x1 area) (y1 area)
                                     (x2 area) (y2 area)) s
          ++ emitted (st7796_write_color color_p
                        ((x2 area - x1 area + 1) * (y2 area - y1 area + 1))) s
          ++ [LvDispFlushReady]).
Proof.
  intros t. subst t.
  assert (G : disp_flush_enabled s = true ->
              emitted (disp_flush area color_p) s
              = emitted (st7796_set_window (u16 (x1 area)) (u16 (y1 area))
                                           (u16 (x2 area)) (u16 (y2 area))) s
                ++ emitted (st7796_write_color color_p
                              (u32 (lv_area_get_width area
                                    * lv_area_get_height area))) s
                ++ [LvDispFlushReady]).
  { intros He. unfold emitted.
    rewrite disp_flush_run, st7796_write_color_run, He.
    rewrite st7796_set_window_run by apply u16_is_u16.
    norm. now rewrite !drop_app_length. }
  split; [| split; [| split]].
  - unfold emitted. rewrite disp_flush_run. cbn [snd].
    destruct (disp_flush_enabled s); norm; rewrite drop_app_length;
      [| reflexivity].
    rewrite !count_events_app, color_events_no_signal. reflexivity.
  - intros He. unfold emitted. rewrite disp_flush_run, He. norm.
    rewrite drop_app_length. now split.
  - exact G.
  - intros He Hok. rewrite (G He).
    now destruct (area_ok_spec area Hok) as (-> & -> & -> & -> & ->).
Qed.

Lemma disp_flush_signals_once_witness :
  let area := LvArea 10 20 11 21 in
  let pixels := Some [0x1234; 0x5678; 0x9ABC; 0xDEF0] in
  emitted (disp_flush area pixels) (with_flush_enabled false boot)
  = [LvDispFlushReady]
  /\ emitted (disp_flush area pixels) boot
     = emitted (st7796_set_window 10 20 11 21) boot
       ++ emitted (st7796_write_color pixels 4) boot ++ [LvDispFlushReady].
Proof.
  split.
  - destruct (disp_flush_signals_once (with_flush_enabled false boot)
                (LvArea 10 20 11 21) (Some [0x1234; 0x5678; 0x9ABC; 0xDEF0]))
      as (_ & H & _).
    exact (proj1 (H eq_refl)).
  - destruct (disp_flush_signals_once boot
                (LvArea 10 20 11 21) (Some [0x1234; 0x5678; 0x9ABC; 0xDEF0]))
      as (_ & _ & _ & H).
    exact (H eq_refl eq_refl).
Defined.

(** * The rest of the drivers *)

(** ** The touch transport *)

Lemma store_prefix (dst src : list Z) :
  (length src <= length dst)%nat ->
  store dst src = src ++ drop (length src) dst.
Proof.
  intros H. unfold store. apply take_ge.
  rewrite length_app, length_drop. lia.
Qed.

Lemma gt911_i2c_read_reg_run
      (bus : nat -> response) (reg : Z) (buf : list Z) (len : Z)
      (s : machine) :
  len <> 0 ->
  gt911_i2c_read_reg bus reg (Some buf) len s =
  let addr := i2c_addr (gt911_dev s) in
  let sel := I2cWrite addr [Z.land (Z.shiftr reg 8) 0xFF; Z.land reg 0xFF]
                      true in
  if ret (bus (calls s)) <? 0
  then ((false, buf), advance 1 [sel] s)
  else ((negb (ret (bus (S (calls s))) <? 0),
         store buf (take (Z.to_nat len) (rx (bus (S (calls s)))))),
        advance 2 [sel; I2cRead addr len false] s).
Proof.
  intros Hlen. apply Z.eqb_neq in Hlen.
  unfold gt911_i2c_read_reg, i2c_write_blocking, i2c_read_blocking.
  rewrite Hlen. unfold_monad. norm.
  change (take (Z.to_nat 2) [?a; ?b]) with [a; b].
  destruct (ret (bus (calls s)) <? 0); [reflexivity |].
  norm.
  destruct (ret (bus (S (calls s))) <? 0); norm; f_equal; same_machine.
Qed.

(** X1: [gt911_i2c_read_reg] on a buffer of at least [len] bytes, for a
    length [1 <= len <= 255] (it is a [uint8_t]) and a 16-bit register,
    first selects the register, address high byte first, keeping the bus.
    If that fails it stops there: no read is issued and the buffer is as it
    was.  Otherwise it reads [len] bytes, releasing the bus, and returns
    success exactly when the read reported no error; the bytes the device
    delivered replace the start of the buffer and the rest is untouched. *)
Theorem gt911_i2c_read_reg_protocol
        (bus : nat -> response) (reg : Z) (buf : list Z) (len : Z)
        (s : machine) :
  is_u16 reg -> 0 < len < 256 -> len <= Z.of_nat (length buf) ->
  let r := gt911_i2c_read_reg bus reg (Some buf) len s in
  let t := emitted (gt911_i2c_read_reg bus reg (Some buf) len) s in
  let addr := i2c_addr (gt911_dev s) in
  let sel := I2cWrite addr [reg / 256; reg mod 256] true in
  let got := take (Z.to_nat len) (rx (bus (S (calls s)))) in
  reg_of_bytes [reg / 256; reg mod 256] = Some reg
  /\ (ret (bus (calls s)) < 0 -> fst r = (false, buf) /\ t = [sel])
  /\ (0 <= ret (bus (calls s)) ->
      t = [sel; I2cRead addr len false]
      /\ fst (fst r) = (0 <=? ret (bus (S (calls s))))
      /\ snd (fst r) = got ++ drop (length got) buf).
Proof.
  intros Hreg Hlen Hbuf r t addr sel got. subst r t addr sel got.
  unfold emitted.
  rewrite (gt911_i2c_read_reg_run bus reg buf len s ltac:(lia)). cbn zeta.
  rewrite (be16_bytes reg Hreg). unfold be16.
  split.
  { unfold reg_of_bytes, is_u16 in *. f_equal.
    pose proof (Z.div_mod reg 256). lia. }
  destruct (Z.ltb_spec (ret (bus (calls s))) 0) as [Hw | Hw]; norm;
    rewrite drop_app_length.
  - split; [now split | intros; lia].
  - split; [intros; lia |]. intros _. split; [reflexivity |].
    split.
    + destruct (Z.ltb_spec (ret (bus (S (calls s)))) 0);
        destruct (Z.leb_spec 0 (ret (bus (S (calls s))))); cbn [negb];
        first [reflexivity | lia].
    + apply store_prefix. rewrite length_take. lia.
Qed.

Lemma gt911_i2c_read_reg_protocol_witness :
  let r := gt911_i2c_read_reg (script (reads [0x39])) 0x8140 (Some [0; 7]) 1
             boot in
  fst r = (true, [0x39; 7])
  /\ emitted (gt911_i2c_read_reg (script (reads [0x39])) 0x8140
                (Some [0; 7]) 1) boot
     = [I2cWrite GT911_I2C_ADDR [0x81; 0x40] true;
        I2cRead GT911_I2C_ADDR 1 false].
Proof.
  destruct (gt911_i2c_read_reg_protocol (script (reads [0x39])) 0x8140
              [0; 7] 1 boot) as (_ & _ & H).
  - unfold is_u16. lia.
  - lia.
  - simpl. lia.
  - destruct (H ltac:(simpl; lia)) as (Ht & Hr & Hb).
    split; [| exact Ht].
    rewrite (surjective_pairing (fst _)), Hr, Hb. reflexivity.
Defined.

(** X2: [gt911_i2c_write_reg] puts nothing on the bus and changes nothing
    when it is given a null buffer, a length of 0 or a length above 30.
    For 1 to 30 bytes it issues exactly one write, releasing the bus, of the
    register address (high byte first) followed by the payload: [len + 2]
    bytes, never more than the 32 of its staging buffer.  It reports success
    only when the SDK reports a positive count: a return of 0 is a
    failure here. *)
Theorem gt911_i2c_write_reg_frame
        (bus : nat -> response) (reg : Z) (data : option (list Z))
        (len : Z) (s : machine) :
  is_u16 reg -> 0 <= len < 256 ->
  let r := gt911_i2c_write_reg bus reg data len s in
  (data = None \/ len = 0 \/ 30 < len -> r = (false, s))
  /\ (forall buf,
      data = Some buf -> 0 < len <= 30 -> len <= Z.of_nat (length buf) ->
      let sent := [reg / 256; reg mod 256] ++ take (Z.to_nat len) buf in
      emitted (gt911_i2c_write_reg bus reg data len) s
      = [I2cWrite (i2c_addr (gt911_dev s)) sent false]
      /\ Z.of_nat (length sent) = len + 2
      /\ Z.of_nat (length sent) <= 32
      /\ fst r = (0 <? ret (bus (calls s)))).
Proof.
  intros Hreg Hlen r. subst r. unfold gt911_i2c_write_reg. split.
  - intros [-> | [-> | Hbig]]; [reflexivity | now destruct data |].
    destruct data as [buf |]; [| reflexivity].
    destruct (Z.eqb_spec len 0); [reflexivity |].
    destruct (Z.gtb_spec (len + 2) 32); [reflexivity | lia].
  - intros buf -> Hr Hbuf.
    set (sent := [reg / 256; reg mod 256] ++ take (Z.to_nat len) buf).
    destruct (Z.eqb_spec len 0); [lia |].
    destruct (Z.gtb_spec (len + 2) 32); [lia |].
    rewrite (be16_bytes reg Hreg). unfold be16.
    assert (Hs : Z.of_nat (length sent) = len + 2).
    { subst sent. rewrite length_app, length_take. cbn [length]. lia. }
    unfold emitted, i2c_write_blocking. unfold_monad. norm.
    rewrite drop_app_length.
    rewrite (take_ge ([reg / 256; reg mod 256] ++ take (Z.to_nat len) buf))
      by (fold sent; lia).
    repeat split; [exact Hs | lia |].
    rewrite Z.gtb_ltb. reflexivity.
Qed.

Lemma gt911_i2c_write_reg_frame_witness :
  emitted (gt911_i2c_write_reg (script [acked 3]) GT911_REG_STATUS
             (Some [0]) 1) boot
  = [I2cWrite GT911_I2C_ADDR [0x81; 0x4E; 0x00] false]
  /\ fst (gt911_i2c_write_reg (script [acked 3]) GT911_REG_STATUS
            (Some [0]) 1 boot) = true
  /\ gt911_i2c_write_reg (script [acked 33]) GT911_REG_STATUS
       (Some (repeat 0 31)) 31 boot = (false, boot).
Proof.
  destruct (gt911_i2c_write_reg_frame (script [acked 3]) GT911_REG_STATUS
              (Some [0]) 1 boot) as [_ H];
    [unfold is_u16, GT911_REG_STATUS; lia | lia |].
  destruct (H [0] eq_refl ltac:(lia) ltac:(simpl; lia)) as (Ht & _ & _ & Hr).
  split; [exact Ht |]. split; [exact Hr |].
  apply (gt911_i2c_write_reg_frame (script [acked 33]) GT911_REG_STATUS
           (Some (repeat 0 31)) 31 boot);
    [unfold is_u16, GT911_REG_STATUS; lia | lia | right; right; lia].
Defined.

(** ** The touch driver *)

Ltac same_bus H :=
  repeat match goal with
         | |- context [?b ?n] =>
           rewrite (H n) by (norm; lia)
         end.

(** X3: the answer to the acknowledgment write is never looked at.  Two
    buses that differ only in what they answer to the third bus call of a
    poll (the acknowledgment, when one is sent) give the same result, the
    same outputs and the same machine: a failed acknowledgment goes
    unnoticed. *)
Theorem gt911_read_touch_ignores_ack_result
        (bus bus' : nat -> response) (out : touch_out) (s : machine) :
  (forall k, k <> (2 + calls s)%nat -> bus' k = bus k) ->
  gt911_read_touch bus' out s = gt911_read_touch bus out s.
Proof.
  intros H.
  unfold gt911_read_touch. unfold_monad.
  destruct (initialized (gt911_dev s)); cbn [negb]; [| reflexivity].
  rewrite !read_u8_run. cbn zeta. same_bus H.
  destruct (ret (bus (calls s)) <? 0); [reflexivity |].
  destruct (ret (bus (S (calls s))) <? 0); cbn [negb]; [reflexivity |].
  cbn beta iota.
  set (st := delivered (bus (S (calls s))) 0).
  destruct (negb (Z.land st GT911_STATUS_BUF_READY =? 0)
            || (Z.land st GT911_STATUS_PT_MASK <? 6)) eqn:Hack.
  - rewrite !gt911_clear_status_run. norm.
    destruct (Z.land st GT911_STATUS_PT_MASK =? 1); [| reflexivity].
    do 3 (rewrite !read_u8_run; cbn zeta; norm; same_bus H;
          match goal with
          | |- context [if ret (bus ?n) <? 0 then _ else _] =>
            destruct (ret (bus n) <? 0); [reflexivity |]
          end;
          match goal with
          | |- context [negb (ret (bus ?n) <? 0)] =>
            destruct (ret (bus n) <? 0); cbn [negb]; [reflexivity |]
          end;
          cbn beta iota; norm).
    rewrite !read_u8_run. cbn zeta. norm. same_bus H. reflexivity.
  - cbn beta iota.
    destruct (Z.land st GT911_STATUS_PT_MASK =? 1) eqn:Hone; [| reflexivity].
    apply Z.eqb_eq in Hone. rewrite Hone in Hack.
    now rewrite orb_true_r in Hack.
Qed.

Lemma gt911_read_touch_ignores_ack_result_witness :
  gt911_read_touch
    (script (reads [0x81] ++ [nack] ++ reads [0x64; 0x00; 0xC8; 0x00]))
    (0, 0, false) (ready 320 480 0 0)
  = gt911_read_touch (script one_finger) (0, 0, false) (ready 320 480 0 0).
Proof.
  apply gt911_read_touch_ignores_ack_result.
  intros k Hk. cbn [calls ready Nat.add] in Hk.
  do 2 (destruct k as [|k]; [reflexivity |]).
  destruct k as [|k]; [lia |].
  do 9 (destruct k as [|k]; [reflexivity |]).
  unfold script. now rewrite !nth_overflow by (simpl; lia).
Defined.

Ltac all_events :=
  repeat first
    [ apply List.Forall_nil
    | apply List.Forall_cons; [first [exact I | reflexivity] |] ].

Ltac close_effect_in E :=
  finish_in E; rewrite <- ?app_assoc; cbn [app];
  eexists; split; [reflexivity |]; split; [lia |];
  split; [reflexivity |]; split; [all_events |];
  repeat split; rewrite ?length_insert; reflexivity.

(** Every way through [gt911_init]: what it logs and what it leaves
    alone. *)
Lemma gt911_init_effect
      (bus : nat -> response) (s : machine) (r : bool) (s' : machine) :
  gt911_init bus s = (r, s') ->
  exists evs,
    trace s' = trace s ++ evs
    /\ (calls s <= calls s' <= 21 + calls s)%nat
    /\ forallb is_bring_up_event evs = true
    /\ Forall (talks_to (i2c_addr (gt911_dev s))) evs
    /\ last_x s' = last_x s /\ last_y s' = last_y s
    /\ current_orientation s' = current_orientation s
    /\ disp_flush_enabled s' = disp_flush_enabled s
    /\ i2c_addr (gt911_dev s') = i2c_addr (gt911_dev s)
    /\ length (product_id (gt911_dev s')) = length (product_id (gt911_dev s)).
Proof.
  intros E.
  destruct (initialized (gt911_dev s)) eqn:Hi.
  { rewrite (gt911_init_initialized bus s Hi) in E. injection E as <- <-.
    exists []. rewrite app_nil_r.
    split; [reflexivity |]. split; [lia |].
    split; [reflexivity |]. split; [constructor |].
    repeat split. }
  unfold gt911_init in E.
  change (Z.to_nat GT911_PRODUCT_ID_LEN) with 4%nat in E.
  cbn [read_product_id] in E.
  unfold_monad_in E. rewrite Hi in E. cbn iota in E.
  run_in E. branch_in E; [close_effect_in E |].
  do 10 (run_in E;
         branch_in E; [close_effect_in E |];
         branch_in E; [close_effect_in E |]).
  close_effect_in E.
Qed.

Lemma bring_up_event_cases (e : event) :
  is_bring_up_event e = true ->
  is_register_write e = false
  /\ is_lcd_wire e = false
  /\ (forall pin, pin_of e = Some pin ->
                  pin = GT911_PIN_SDA \/ pin = GT911_PIN_SCL).
Proof.
  intros He.
  destruct e as [b | a src [] | a l ns | pin [] | pin | pin v | | | |];
    cbn in He; try discriminate He; repeat split; try reflexivity;
    try (intros q Hq; discriminate Hq).
  - now destruct src as [|? [|? [|? ?]]].
  - intros q Hq. injection Hq as <-. unfold is_touch_pin in He.
    apply orb_prop in He as [He | He]; apply Z.eqb_eq in He; auto.
  - intros q Hq. injection Hq as <-. unfold is_touch_pin in He.
    apply orb_prop in He as [He | He]; apply Z.eqb_eq in He; auto.
Qed.

(** X4: the bring-up only reads.  Whatever the bus answers and whatever the
    state, every event of [gt911_init] is one of: starting the I2C block at
    100 kHz, routing pin 8 (SDA) or pin 9 (SCL) to the I2C function,
    pulling one of these two pins up, a pause, or half of a one-byte
    register read from the device at the configured address.  So it never
    completes a write to the controller, configures or drives no pin but
    its own two, sends no SPI burst and drives no LCD line, and it makes at
    most 21 bus calls.  It leaves the retained coordinate, the display
    statics and the bus address as they were, and the product-id array
    keeps its length. *)
Theorem gt911_init_reads_only (bus : nat -> response) (s : machine) :
  let t := emitted (gt911_init bus) s in
  let s' := snd (gt911_init bus s) in
  forallb is_bring_up_event t = true
  /\ count_events is_register_write t = 0%nat
  /\ count_events is_lcd_wire t = 0%nat
  /\ Forall (fun e => forall pin, pin_of e = Some pin ->
                                  pin = GT911_PIN_SDA \/ pin = GT911_PIN_SCL) t
  /\ Forall (talks_to (i2c_addr (gt911_dev s))) t
  /\ (calls s' <= 21 + calls s)%nat
  /\ last_x s' = last_x s /\ last_y s' = last_y s
  /\ current_orientation s' = current_orientation s
  /\ disp_flush_enabled s' = disp_flush_enabled s
  /\ i2c_addr (gt911_dev s') = i2c_addr (gt911_dev s)
  /\ length (product_id (gt911_dev s')) = length (product_id (gt911_dev s)).
Proof.
  intros t s'. subst t s'. unfold emitted.
  destruct (gt911_init bus s) as [r s'] eqn:E. cbn [snd].
  destruct (gt911_init_effect bus s r s' E)
    as (evs & Ht & Hk & Hev & Hto & Hrest).
  rewrite Ht, drop_app_length.
  split; [exact Hev |].
  split; [| split; [| split; [| split; [exact Hto |]]]].
  - clear -Hev. induction evs as [|e l IH]; [reflexivity |].
    cbn [forallb] in Hev. apply andb_prop in Hev as [He Hl].
    cbn [count_events]. rewrite (IH Hl).
    now destruct (bring_up_event_cases e He) as (-> & _).
  - clear -Hev. induction evs as [|e l IH]; [reflexivity |].
    cbn [forallb] in Hev. apply andb_prop in Hev as [He Hl].
    cbn [count_events]. rewrite (IH Hl).
    now destruct (bring_up_event_cases e He) as (_ & -> & _).
  - clear -Hev. induction evs as [|e l IH]; constructor.
    + cbn [forallb] in Hev. apply andb_prop in Hev as [He _].
      now destruct (bring_up_event_cases e He) as (_ & _ & ?).
    + apply IH. cbn [forallb] in Hev. now apply andb_prop in Hev as [_ ?].
  - split; [lia | exact Hrest].
Qed.

Ltac close_poll_in E :=
  finish_in E; rewrite <- ?app_assoc, ?app_nil_r; cbn [app];
  eexists; split; [first [reflexivity | symmetry; apply app_nil_r] |];
  split; [lia |];
  split; [reflexivity |]; split; [all_events |];
  split; [vm_compute; lia |]; repeat split.

(** Every way through [gt911_read_touch]. *)
Lemma gt911_read_touch_effect
      (bus : nat -> response) (out : touch_out) (s : machine)
      (r : bool * touch_out) (s' : machine) :
  gt911_read_touch bus out s = (r, s') ->
  exists evs,
    trace s' = trace s ++ evs
    /\ (calls s <= calls s' <= 11 + calls s)%nat
    /\ forallb is_poll_event evs = true
    /\ Forall (talks_to (i2c_addr (gt911_dev s))) evs
    /\ (count_events is_ack evs <= 1)%nat
    /\ gt911_dev s' = gt911_dev s
    /\ current_orientation s' = current_orientation s
    /\ disp_flush_enabled s' = disp_flush_enabled s.
Proof.
  intros E.
  unfold gt911_read_touch in E. unfold_monad_in E.
  destruct (initialized (gt911_dev s)); cbn [negb] in E;
    [| close_poll_in E].
  run_in E.
  branch_in E; [close_poll_in E |].
  branch_in E; [close_poll_in E |].
  set (st := delivered (bus (S (calls s))) 0) in E.
  destruct (negb (Z.land st GT911_STATUS_BUF_READY =? 0)
            || (Z.land st GT911_STATUS_PT_MASK <? 6));
    cbn beta iota in E; [run_in E |];
    (destruct (Z.land st GT911_STATUS_PT_MASK =? 1);
     cbn beta iota in E; norm_in E; [| close_poll_in E]);
    do 4 (run_in E;
          branch_in E; [close_poll_in E |];
          branch_in E; [close_poll_in E |]);
    close_poll_in E.
Qed.

(** X5: a poll only reads and acknowledges.  Whatever the bus answers and
    whatever the state, every event of [gt911_read_touch] is half of a
    one-byte register read or the acknowledgment, addressed to the
    configured device; the only write it ever completes is the
    acknowledgment, at most once; it makes at most 11 bus calls; and it
    never changes the device structure (flag, product id, resolution, bus
    address) or the display statics. *)
Theorem gt911_read_touch_traffic
        (bus : nat -> response) (out : touch_out) (s : machine) :
  let t := emitted (gt911_read_touch bus out) s in
  let s' := snd (gt911_read_touch bus out s) in
  forallb is_poll_event t = true
  /\ Forall (fun e => is_register_write e = true -> is_ack e = true) t
  /\ (count_events is_ack t <= 1)%nat
  /\ Forall (talks_to (i2c_addr (gt911_dev s))) t
  /\ (calls s' <= 11 + calls s)%nat
  /\ gt911_dev s' = gt911_dev s
  /\ current_orientation s' = current_orientation s
  /\ disp_flush_enabled s' = disp_flush_enabled s.
Proof.
  intros t s'. subst t s'. unfold emitted.
  destruct (gt911_read_touch bus out s) as [r s'] eqn:E. cbn [snd].
  destruct (gt911_read_touch_effect bus out s r s' E)
    as (evs & Ht & Hk & Hev & Hto & Hack & Hrest).
  rewrite Ht, drop_app_length.
  split; [exact Hev |]. split; [| split; [exact Hack |]].
  - clear -Hev. induction evs as [|e l IH]; constructor.
    + cbn [forallb] in Hev. apply andb_prop in Hev as [He _].
      unfold is_poll_event in He.
      destruct e as [| a src [] | | | | | | | |]; try discriminate.
      intros _. apply orb_prop in He as [He | He]; [| exact He].
      now destruct src as [|? [|? [|? ?]]].
    + apply IH. cbn [forallb] in Hev. now apply andb_prop in Hev as [_ ?].
  - split; [exact Hto |]. split; [lia | exact Hrest].
Qed.

Lemma bring_up_ok_calls (bus : nat -> response) (n : nat) :
  bring_up_ok bus n = true ->
  (ret (bus n) =? 0) = false
  /\ forall k, (1 <= k <= 20)%nat -> (ret (bus (k + n)%nat) <? 0) = false.
Proof.
  unfold bring_up_ok. cbn [reads_succeed]. unfold read_fails. intros H.
  repeat match type of H with
         | (_ && _) = true => apply andb_prop in H as [? H]
         end.
  repeat match goal with
         | H : negb _ = true |- _ => apply negb_true_iff in H
         | H : (_ || _) = false |- _ => apply orb_false_elim in H as [? ?]
         end.
  split; [assumption |].
  intros k Hk.
  do 21 (destruct k as [|k]; [first [lia | cbn [Nat.add]; assumption] |]).
  lia.
Qed.

(** X6: after a successful bring-up of a device not yet initialised the
    product id holds the four bytes read from registers 0x8140 to 0x8143,
    in that order, followed by the terminating 0: bus calls 3, 5, 7 and 9
    of the bring-up select these four registers and the calls after them
    read the bytes [b1] to [b4].  The byte of the first probe read of
    0x8140 (calls 1 and 2) is not kept. *)
Theorem gt911_init_product_id
        (bus : nat -> response) (s : machine) (b1 b2 b3 b4 : Z) :
  initialized (gt911_dev s) = false ->
  length (product_id (gt911_dev s)) = 5%nat ->
  bring_up_ok bus (calls s) = true ->
  answers bus (3 + calls s) b1 = true ->
  answers bus (5 + calls s) b2 = true ->
  answers bus (7 + calls s) b3 = true ->
  answers bus (9 + calls s) b4 = true ->
  let t := emitted (gt911_init bus) s in
  product_id (gt911_dev (snd (gt911_init bus s))) = [b1; b2; b3; b4; 0]
  /\ reads_register s t 1 0x8140
  /\ reads_register s t 3 0x8140
  /\ reads_register s t 5 0x8141
  /\ reads_register s t 7 0x8142
  /\ reads_register s t 9 0x8143.
Proof.
  intros Hi Hlen Hok A1 A2 A3 A4 t. subst t.
  split.
  2: { destruct (gt911_init_success_emitted bus s Hi Hok) as [-> _].
       repeat split. }
  destruct (bring_up_ok_calls bus (calls s) Hok) as [H0 Hk].
  destruct (answers_spec bus _ _ A1) as (_ & _ & D1 & _).
  destruct (answers_spec bus _ _ A2) as (_ & _ & D2 & _).
  destruct (answers_spec bus _ _ A3) as (_ & _ & D3 & _).
  destruct (answers_spec bus _ _ A4) as (_ & _ & D4 & _).
  cbn [Nat.add] in D1, D2, D3, D4.
  destruct (gt911_init bus s) as [r s'] eqn:E. cbn [snd].
  unfold gt911_init in E.
  change (Z.to_nat GT911_PRODUCT_ID_LEN) with 4%nat in E.
  cbn [read_product_id] in E.
  unfold_monad_in E. rewrite Hi in E. cbn iota in E.
  run_in E. rewrite H0 in E. norm_in E.
  do 10 (run_in E;
         match type of E with
         | context [ret (bus ?n) <? 0] =>
           let k := fresh "K" in
           pose proof (Hk (n - calls s)%nat ltac:(lia)) as k;
           replace (n - calls s + calls s)%nat with n in k by lia;
           rewrite k in E; clear k
         end;
         match type of E with
         | context [ret (bus ?n) <? 0] =>
           let k := fresh "K" in
           pose proof (Hk (n - calls s)%nat ltac:(lia)) as k;
           replace (n - calls s + calls s)%nat with n in k by lia;
           rewrite k in E; clear k
         end;
         cbn beta iota in E; norm_in E).
  injection E as _ <-. norm.
  rewrite D1, D2, D3, D4.
  destruct (product_id (gt911_dev s)) as [|p0 [|p1 [|p2 [|p3 [|p4 [|]]]]]];
    try discriminate Hlen.
  reflexivity.
Qed.

Lemma gt911_init_product_id_witness :
  product_id (gt911_dev (snd (gt911_init (script good_panel) boot)))
  = [0x39; 0x31; 0x31; 0x00; 0].
Proof.
  exact (proj1 (gt911_init_product_id (script good_panel) boot
                  0x39 0x31 0x31 0x00
                  eq_refl eq_refl eq_refl eq_refl eq_refl eq_refl eq_refl)).
Defined.

Lemma bring_up_ok_facts (bus : nat -> response) (n : nat) :
  bring_up_ok bus n = true ->
  (ret (bus n) =? 0) = false
  /\ forall m, (n < m <= 20 + n)%nat -> (ret (bus m) <? 0) = false.
Proof.
  intros H. destruct (bring_up_ok_calls bus n H) as [H0 Hk].
  split; [exact H0 |]. intros m Hm.
  replace m with ((m - n) + n)%nat by lia. apply Hk. lia.
Qed.

Lemma bring_up_ok_count (bus : nat -> response) (n : nat) :
  bring_up_ok bus n = true -> calls_until_error bus (S n) 20 = 20%nat.
Proof.
  intros H. destruct (bring_up_ok_facts bus n H) as [_ Hk].
  cbn [calls_until_error].
  repeat match goal with
         | |- context [ret (bus ?m) <? 0] => rewrite (Hk m) by lia
         end.
  reflexivity.
Qed.

Ltac decide_calls :=
  unfold bring_up_calls; cbn [calls_until_error];
  repeat match goal with H : _ = _ |- _ => rewrite H end; reflexivity.

(** How far [gt911_init] gets on a device not yet initialised. *)
Lemma gt911_init_calls
      (bus : nat -> response) (s : machine) (r : bool) (s' : machine) :
  initialized (gt911_dev s) = false ->
  gt911_init bus s = (r, s') ->
  calls s' = (bring_up_calls bus (calls s) + calls s)%nat
  /\ (r = false ->
      (calls s' = S (calls s) /\ ret (bus (calls s)) = 0)
      \/ (exists m, calls s' = S m /\ (calls s < m)%nat
                    /\ ret (bus m) < 0)).
Proof.
  intros Hi E.
  unfold gt911_init in E.
  change (Z.to_nat GT911_PRODUCT_ID_LEN) with 4%nat in E.
  cbn [read_product_id] in E.
  unfold_monad_in E. rewrite Hi in E. cbn iota in E.
  run_in E. branch_in E.
  { finish_in E. clear Hi. split; [decide_calls |].
    intros _. left. split; [reflexivity | now apply Z.eqb_eq]. }
  do 10 (run_in E;
         branch_in E;
         [finish_in E; clear Hi; split; [decide_calls |];
          intros _; right; eexists; split; [reflexivity |];
          split; [lia | now apply Z.ltb_lt] |];
         branch_in E;
         [finish_in E; clear Hi; split; [decide_calls |];
          intros _; right; eexists; split; [reflexivity |];
          split; [lia | now apply Z.ltb_lt] |]).
  finish_in E. clear Hi. split; [decide_calls | discriminate].
Qed.

(** X7: the bring-up never retries.  On a device not yet initialised
    [gt911_init] attempts each bus call once, in order, and stops at the
    first that fails: one call if [i2c_init] reports no baud rate,
    otherwise [i2c_init] plus the register-read calls up to and including
    the first that reports an error, 21 in all when none does.  When it
    returns failure, the last call it made is the one that failed. *)
Theorem gt911_init_stops_at_first_error
        (bus : nat -> response) (s : machine) :
  initialized (gt911_dev s) = false ->
  let r := fst (gt911_init bus s) in
  let s' := snd (gt911_init bus s) in
  calls s' = (bring_up_calls bus (calls s) + calls s)%nat
  /\ (bring_up_ok bus (calls s) = true -> calls s' = (21 + calls s)%nat)
  /\ (r = false ->
      (calls s' = S (calls s) /\ ret (bus (calls s)) = 0)
      \/ (exists m, calls s' = S m /\ (calls s < m)%nat
                    /\ ret (bus m) < 0)).
Proof.
  intros Hi r s'. subst r s'.
  destruct (gt911_init bus s) as [r s'] eqn:E. cbn [fst snd].
  destruct (gt911_init_calls bus s r s' Hi E) as [Hc Hlast].
  split; [exact Hc |]. split; [| exact Hlast].
  intros Hok. rewrite Hc. unfold bring_up_calls.
  destruct (bring_up_ok_facts bus (calls s) Hok) as [-> _].
  now rewrite (bring_up_ok_count bus (calls s) Hok).
Qed.

Lemma gt911_init_stops_at_first_error_witness :
  calls (snd (gt911_init (script good_panel) boot)) = 21%nat
  /\ calls (snd (gt911_init (script flaky_panel) boot)) = 18%nat.
Proof.
  split.
  - destruct (gt911_init_stops_at_first_error (script good_panel) boot
                eq_refl) as (_ & H & _).
    exact (H eq_refl).
  - destruct (gt911_init_stops_at_first_error (script flaky_panel) boot
                eq_refl) as (H & _).
    exact H.
Defined.

(** X8: a failed bring-up can be tried again.  After [gt911_init] has
    returned failure on a device not yet initialised, a later call goes
    through the whole bring-up anew, 21 bus calls starting with
    [i2c_init], and succeeds if the bus answers every call of that
    attempt. *)
Theorem gt911_init_retry (bus bus' : nat -> response) (s : machine) :
  initialized (gt911_dev s) = false ->
  fst (gt911_init bus s) = false ->
  let s1 := snd (gt911_init bus s) in
  bring_up_ok bus' (calls s1) = true ->
  fst (gt911_init bus' s1) = true
  /\ initialized (gt911_dev (snd (gt911_init bus' s1))) = true
  /\ calls (snd (gt911_init bus' s1)) = (21 + calls s1)%nat.
Proof.
  intros Hi Hf s1 Hok. subst s1.
  destruct (gt911_init bus s) as [r s1] eqn:E. cbn [fst snd] in *. subst r.
  destruct (gt911_init_cases bus s false s1 Hi E)
    as [(_ & Hi1 & _) | (Hr & _)]; [| discriminate].
  destruct (gt911_init bus' s1) as [r2 s2] eqn:E2. cbn [fst snd].
  destruct (gt911_init_cases bus' s1 r2 s2 Hi1 E2)
    as [(_ & _ & Hno) | (-> & Hi2 & _)]; [congruence |].
  split; [reflexivity |]. split; [exact Hi2 |].
  rewrite (proj1 (gt911_init_calls bus' s1 true s2 Hi1 E2)).
  unfold bring_up_calls.
  destruct (bring_up_ok_facts bus' (calls s1) Hok) as [-> _].
  now rewrite (bring_up_ok_count bus' (calls s1) Hok).
Qed.

Lemma gt911_init_retry_witness :
  let s1 := snd (gt911_init (script flaky_panel) boot) in
  let bus' := fun n => script good_panel (n - 18) in
  fst (gt911_init bus' s1) = true
  /\ initialized (gt911_dev (snd (gt911_init bus' s1))) = true.
Proof.
  destruct (gt911_init_retry (script flaky_panel)
              (fun n => script good_panel (n - 18)) boot
              eq_refl eq_refl eq_refl) as (H1 & H2 & _).
  split; assumption.
Defined.

(** ** The LCD bring-up *)

Lemma advance_0_twice (e1 e2 : list event) (s : machine) :
  advance 0 e2 (advance 0 e1 s) = advance 0 (e1 ++ e2) s.
Proof. same_machine. Qed.

Lemma advance_0_nil (s : machine) : advance 0 [] s = s.
Proof. apply machine_ext; norm; auto. apply app_nil_r. Qed.

Lemma emitted_advance_0 {A} (m : M A) (s : machine) (a : A) evs :
  m s = (a, advance 0 evs s) -> emitted m s = evs.
Proof. unfold emitted. intros ->. norm. apply drop_app_length. Qed.

Lemma spi_frames_cmd (dc : bool) (c : Z) (t : list event) :
  spi_frames dc (cmd_events c ++ t) = Command [c] :: spi_frames false t.
Proof. reflexivity. Qed.

Lemma spi_frames_data (dc : bool) (bytes : list Z) (t : list event) :
  spi_frames dc (data_events bytes ++ t) = Data bytes :: spi_frames true t.
Proof. reflexivity. Qed.

Lemma spi_frames_burst (dc : bool) (bytes : list Z) (t : list event) :
  spi_frames dc (burst_events bytes ++ t) = Data bytes :: spi_frames true t.
Proof. reflexivity. Qed.

Lemma land_31 (z : Z) : Z.land z 0x1F = z mod 32.
Proof. exact (Z.land_ones z 5 ltac:(lia)). Qed.

Lemma send_init_cmds_run
      (pre : list lcd_init_cmd_t) (stop : lcd_init_cmd_t)
      (post : list lcd_init_cmd_t) (s : machine) :
  forallb entry_ok pre = true ->
  databytes stop = 0xFF ->
  send_init_cmds (pre ++ stop :: post) s
  = (tt, advance 0 (flat_map entry_events pre) s).
Proof.
  intros Hpre Hstop. revert s.
  induction pre as [|c pre IH]; intros s.
  - cbn [app send_init_cmds flat_map]. rewrite Hstop. cbn.
    now rewrite advance_0_nil.
  - cbn [forallb] in Hpre. apply andb_prop in Hpre as [Hc Hpre].
    unfold entry_ok in Hc. apply andb_prop in Hc as [Hne Hfit].
    apply negb_true_iff in Hne.
    cbn [app send_init_cmds flat_map]. rewrite Hne.
    unfold bind. rewrite st7796_write_cmd_run.
    rewrite land_31, land_128, negb_involutive.
    fold (payload_len c). fold (wants_delay c).
    rewrite Z.gtb_ltb. unfold entry_events.
    destruct (Z.ltb_spec 0 (payload_len c)) as [Hp | Hp].
    + rewrite st7796_write_data_run by exact Hp.
      destruct (wants_delay c); unfold sleep_ms, emit, modify, ret_;
        rewrite (IH Hpre); f_equal; same_machine.
    + destruct (wants_delay c); unfold sleep_ms, emit, modify, ret_;
        rewrite (IH Hpre); f_equal; same_machine.
Qed.

Lemma spi_frames_entries (dc : bool) (pre : list lcd_init_cmd_t)
      (t : list event) :
  exists dc',
    spi_frames dc (flat_map entry_events pre ++ t)
    = flat_map entry_frames pre ++ spi_frames dc' t.
Proof.
  revert dc. induction pre as [|c pre IH]; intros dc.
  - exists dc. reflexivity.
  - cbn [flat_map]. unfold entry_events at 1, entry_frames at 1.
    rewrite <- !app_assoc, spi_frames_cmd.
    destruct (0 <? payload_len c).
    + rewrite spi_frames_data.
      destruct (wants_delay c); cbn [app spi_frames];
        destruct (IH true) as [dc' ->]; now exists dc'.
    + destruct (wants_delay c); cbn [app spi_frames];
        destruct (IH false) as [dc' ->]; now exists dc'.
Qed.

(** X9: the script replay stops at the end marker.  For any table of
    entries with fields in the range of their C types, whose end marker
    (the first entry with length byte 0xFF) comes before entry 65536, so
    that the 16-bit index reaches it, and whose entries before the marker
    each fit their payload array, the loop sends, entry by entry and in
    order, the command byte as a command frame, then the first (length
    byte mod 32) payload bytes as one data frame if that count is
    positive, then pauses 100 ms if bit 7 of the length byte is set.
    Nothing after the marker is sent, and the marker's own command byte is
    not sent either. *)
Theorem send_init_cmds_replays
        (pre : list lcd_init_cmd_t) (stop : lcd_init_cmd_t)
        (post : list lcd_init_cmd_t) (s : machine) :
  Z.of_nat (length pre) < 65536 ->
  forallb entry_typed (pre ++ [stop]) = true ->
  forallb entry_ok pre = true ->
  databytes stop = 0xFF ->
  let t := emitted (send_init_cmds (pre ++ stop :: post)) s in
  t = flat_map entry_events pre
  /\ (forall dc, spi_frames dc t = flat_map entry_frames pre)
  /\ count_events (fun e => match e with SleepMs _ => true | _ => false end) t
     = length (filter (fun c => wants_delay c = true) pre)
  /\ snd (send_init_cmds (pre ++ stop :: post) s)
     = advance 0 (flat_map entry_events pre) s.
Proof.
  intros _ _ Hpre Hstop t. subst t.
  pose proof (send_init_cmds_run pre stop post s Hpre Hstop) as R.
  rewrite (emitted_advance_0 _ _ _ _ R), R.
  split; [reflexivity |]. split; [| split; [| reflexivity]].
  - intros dc.
    destruct (spi_frames_entries dc pre []) as [dc' H].
    rewrite app_nil_r in H. rewrite H. cbn [spi_frames]. apply app_nil_r.
  - clear. induction pre as [|c pre IH]; [reflexivity |].
    cbn [flat_map]. rewrite count_events_app, IH.
    rewrite filter_cons. unfold entry_events.
    rewrite !count_events_app.
    destruct (0 <? payload_len c);
      destruct (wants_delay c) eqn:Hd;
      destruct (decide (wants_delay c = true)) as [? | Hn];
      try congruence; reflexivity.
Qed.

Lemma send_init_cmds_replays_witness :
  spi_frames true
    (emitted (send_init_cmds
                [InitCmd 0x3A (bytes16 [0x05]) 1;
                 InitCmd 0x11 (bytes16 [0]) 0x80;
                 InitCmd 0 (bytes16 [0]) 0xFF;
                 InitCmd 0x29 (bytes16 [0]) 0x80]) boot)
  = [Command [0x3A]; Data [0x05]; Command [0x11]].
Proof.
  exact (proj1 (proj2
    (send_init_cmds_replays
       [InitCmd 0x3A (bytes16 [0x05]) 1; InitCmd 0x11 (bytes16 [0]) 0x80]
       (InitCmd 0 (bytes16 [0]) 0xFF) [InitCmd 0x29 (bytes16 [0]) 0x80]
       boot ltac:(simpl; lia) eq_refl eq_refl eq_refl)) true).
Defined.

(** ** Power-up of the LCD *)

Lemma wire_run {A} (m : M A) (a : A) (evs : list event) (s0 : machine)
      (b : power_up) :
  m (lcd b) = (a, advance 0 evs s0) ->
  trace s0 = trace (lcd b) ->
  wire m b = (a, PowerUp (advance 0 evs s0) (log b ++ map Wire evs)).
Proof.
  intros E Ht. unfold wire, emitted. rewrite E. norm.
  now rewrite Ht, drop_app_length.
Qed.

Lemma wire_emit (e : event) (b : power_up) :
  wire (emit e) b
  = (tt, PowerUp (advance 0 [e] (lcd b)) (log b ++ [Wire e])).
Proof.
  apply (wire_run (emit e) tt [e] (lcd b) b); reflexivity.
Qed.

Lemma st7796_spi_init_run (b : power_up) :
  st7796_spi_init b
  = (tt, PowerUp
           (advance 0 [GpioSetFunction ST7796_PIN_MOSI GPIO_FUNC_SPI;
                       GpioSetFunction ST7796_PIN_CLK GPIO_FUNC_SPI] (lcd b))
           (log b ++ firstn 4 bring_up_setup)).
Proof.
  unfold st7796_spi_init, then_, setup, gpio_set_function.
  rewrite !wire_emit. cbn [snd lcd log firstn bring_up_setup].
  rewrite <- !app_assoc. f_equal. f_equal. same_machine.
Qed.

Lemma st7796_gpio_init_run (b : power_up) :
  st7796_gpio_init b
  = (tt, PowerUp
           (advance 0 [GpioPut ST7796_PIN_CS true; GpioPut ST7796_PIN_DC true;
                       GpioPut ST7796_PIN_RST true] (lcd b))
           (log b ++ skipn 4 bring_up_setup)).
Proof.
  unfold st7796_gpio_init, then_, setup, gpio_put.
  rewrite !wire_emit. cbn [snd lcd log skipn bring_up_setup].
  rewrite <- !app_assoc. f_equal. f_equal. same_machine.
Qed.

Lemma st7796_hw_reset_run (s : machine) :
  st7796_hw_reset s = (tt, advance 0 reset_events s).
Proof.
  unfold st7796_hw_reset, LCD_RST_HIGH, LCD_RST_LOW, gpio_put, sleep_ms.
  unfold_monad. f_equal. same_machine.
Qed.

Lemma init_cmds_split :
  init_cmds = init_script ++ InitCmd 0 (bytes16 [0]) 0xFF :: [].
Proof. reflexivity. Qed.

Lemma init_script_ok : forallb entry_ok init_script = true.
Proof. vm_compute. reflexivity. Qed.

Lemma wire_events_app (l1 l2 : list boot_event) :
  wire_events (l1 ++ l2) = wire_events l1 ++ wire_events l2.
Proof.
  induction l1 as [|[c | e] l1 IH]; cbn [app wire_events];
    now rewrite ?IH.
Qed.

Lemma wire_events_map (t : list event) : wire_events (map Wire t) = t.
Proof. induction t as [|e t IH]; cbn [map wire_events]; now rewrite ?IH. Qed.

Lemma wire_events_bring_up :
  wire_events bring_up_log
  = [GpioSetFunction ST7796_PIN_MOSI GPIO_FUNC_SPI;
     GpioSetFunction ST7796_PIN_CLK GPIO_FUNC_SPI;
     GpioPut ST7796_PIN_CS true; GpioPut ST7796_PIN_DC true;
     GpioPut ST7796_PIN_RST true]
    ++ reset_events ++ bring_up_traffic.
Proof.
  unfold bring_up_log. now rewrite !wire_events_app, !wire_events_map.
Qed.

Lemma wire_reset_run (b : power_up) :
  wire st7796_hw_reset b
  = (tt, PowerUp (advance 0 reset_events (lcd b))
                 (log b ++ map Wire reset_events)).
Proof.
  exact (wire_run st7796_hw_reset tt reset_events _ _
           (st7796_hw_reset_run _) eq_refl).
Qed.

Lemma wire_script_run (b : power_up) :
  wire (send_init_cmds init_cmds) b
  = (tt, PowerUp (advance 0 (flat_map entry_events init_script) (lcd b))
                 (log b ++ map Wire (flat_map entry_events init_script))).
Proof.
  rewrite init_cmds_split.
  apply wire_run; [| reflexivity].
  apply send_init_cmds_run; [exact init_script_ok | reflexivity].
Qed.

Lemma wire_orientation_run (o : st7796_orientation_t) (b : power_up) :
  wire (st7796_set_orientation o) b
  = (tt, PowerUp
           (advance 0 (cmd_events ST7796_CMD_MADCTL
                       ++ burst_events [madctl_of o])
                    (with_orientation o (lcd b)))
           (log b ++ map Wire (cmd_events ST7796_CMD_MADCTL
                               ++ burst_events [madctl_of o]))).
Proof.
  destruct (set_orientation_run o (lcd b)) as (v & E & ->).
  apply wire_run; [| reflexivity].
  rewrite E. now destruct o.
Qed.

Lemma wire_cmd_run (c : Z) (b : power_up) :
  wire (st7796_write_cmd c) b
  = (tt, PowerUp (advance 0 (cmd_events c) (lcd b))
                 (log b ++ map Wire (cmd_events c))).
Proof.
  apply wire_run; [| reflexivity]. apply st7796_write_cmd_run.
Qed.

Lemma st7796_init_run (b : power_up) :
  st7796_init b
  = (tt, PowerUp
           (advance 0 (wire_events bring_up_log)
                    (with_orientation ST7796_PORTRAIT (lcd b)))
           (log b ++ bring_up_log)).
Proof.
  unfold st7796_init, then_.
  rewrite st7796_spi_init_run. cbn [snd].
  rewrite st7796_gpio_init_run. cbn [snd].
  rewrite wire_reset_run. cbn [snd].
  rewrite wire_script_run. cbn [snd].
  rewrite wire_orientation_run. cbn [snd].
  rewrite wire_cmd_run.
  cbn [lcd log]. f_equal. f_equal.
  - apply machine_ext; norm; try reflexivity.
    rewrite wire_events_bring_up.
    unfold bring_up_traffic.
    rewrite <- !app_assoc. cbn [app]. reflexivity.
  - unfold bring_up_log, bring_up_traffic.
    rewrite <- !app_assoc, !map_app, <- !app_assoc.
    f_equal.
Qed.

Lemma logged_run (b : power_up) : logged b = bring_up_log.
Proof.
  unfold logged. rewrite st7796_init_run. cbn [snd log].
  apply drop_app_length.
Qed.

Lemma spi_frames_app (dc : bool) (t1 t2 : list event) :
  spi_frames dc (t1 ++ t2)
  = spi_frames dc t1 ++ spi_frames (dc_after dc t1) t2.
Proof.
  revert dc. induction t1 as [|e t1 IH]; intros dc; [reflexivity |].
  unfold dc_after. cbn [app spi_frames fold_left].
  destruct e; try apply IH.
  - destruct (pin =? ST7796_PIN_DC); apply IH.
  - cbn [app]. f_equal. apply IH.
Qed.

Lemma bring_up_prefix_frames (dc : bool) (t : list event) :
  spi_frames dc
    ([GpioSetFunction ST7796_PIN_MOSI GPIO_FUNC_SPI;
      GpioSetFunction ST7796_PIN_CLK GPIO_FUNC_SPI;
      GpioPut ST7796_PIN_CS true; GpioPut ST7796_PIN_DC true;
      GpioPut ST7796_PIN_RST true] ++ reset_events ++ t)
  = spi_frames true t.
Proof. reflexivity. Qed.

Lemma bring_up_tail_frames (dc : bool) :
  spi_frames dc (cmd_events ST7796_CMD_MADCTL ++ burst_events [0x48]
                 ++ cmd_events 0x21)
  = [Command [ST7796_CMD_MADCTL]; Data [0x48]; Command [0x21]].
Proof. reflexivity. Qed.

Lemma bring_up_frames (dc : bool) :
  spi_frames dc (wire_events bring_up_log)
  = flat_map entry_frames init_script
    ++ [Command [ST7796_CMD_MADCTL]; Data [0x48]; Command [0x21]].
Proof.
  rewrite wire_events_bring_up, bring_up_prefix_frames.
  unfold bring_up_traffic.
  destruct (spi_frames_entries true init_script
              (cmd_events ST7796_CMD_MADCTL ++ burst_events [0x48]
               ++ cmd_events 0x21)) as [dc' E].
  rewrite E. f_equal.
Qed.

(** X10: whatever the state it is called in, [st7796_init] makes the
    controller see every entry of the script up to the end marker (all 24 of
    them, each with a payload that fits its array), then MADCTL with 0x48
    and, last, the inversion-on command.  Afterwards every register that the
    script programs holds the entry's payload cut to its length, except
    MADCTL: the script's 0x28 has been replaced by 0x48, the value for the
    orientation [current_orientation] then holds (portrait).  The two
    commands that need time (sleep out, display on) are each followed by a
    pause of 100 ms before the next burst.  No other static changes and no
    bus response is consumed. *)
Theorem st7796_init_programs (b : power_up) (dc : bool) :
  let s := lcd b in
  let s' := lcd (snd (st7796_init b)) in
  let fs := spi_frames dc (wire_events (logged b)) in
  fs = flat_map entry_frames init_script
       ++ [Command [ST7796_CMD_MADCTL]; Data [0x48]; Command [0x21]]
  /\ init_cmds = init_script ++ [InitCmd 0 (bytes16 [0]) 0xFF]
  /\ forallb entry_ok init_script = true
  /\ Forall (fun c => cmd c <> ST7796_CMD_MADCTL -> 0 < payload_len c ->
                      register (cmd c) fs
                      = Some (take (Z.to_nat (payload_len c)) (data c)))
            init_script
  /\ register ST7796_CMD_MADCTL fs
     = Some [madctl_of (current_orientation s')]
  /\ current_orientation s' = ST7796_PORTRAIT
  /\ last fs = Some (Command [0x21])
  /\ pauses_kept dc false (wire_events (logged b)) = true
  /\ trace s' = trace s ++ wire_events (logged b)
  /\ gt911_dev s' = gt911_dev s /\ last_x s' = last_x s
  /\ last_y s' = last_y s
  /\ disp_flush_enabled s' = disp_flush_enabled s
  /\ calls s' = calls s.
Proof.
  intros s s' fs. subst s s' fs.
  rewrite logged_run, bring_up_frames, st7796_init_run. cbn [snd lcd]. norm.
  split; [reflexivity |]. split; [reflexivity |].
  split; [exact init_script_ok |].
  split.
  { set (fs := flat_map entry_frames init_script ++ _).
    assert (H : forallb
                  (fun c => (cmd c =? ST7796_CMD_MADCTL)
                            || (payload_len c <=? 0)
                            || bool_decide
                                 (register (cmd c) fs
                                  = Some (take (Z.to_nat (payload_len c))
                                               (data c))))
                  init_script = true) by (vm_compute; reflexivity).
    apply List.Forall_forall. intros c Hin Hc Hp.
    pose proof (proj1 (forallb_forall _ _) H c Hin) as Hb.
    cbv beta in Hb.
    destruct (Z.eqb_spec (cmd c) ST7796_CMD_MADCTL) as [? | _];
      [contradiction |].
    destruct (Z.leb_spec (payload_len c) 0) as [? | _]; [lia |].
    cbn [orb] in Hb. now apply bool_decide_eq_true in Hb. }
  split; [vm_compute; reflexivity |].
  split; [reflexivity |].
  split; [vm_compute; reflexivity |].
  split; [destruct dc; vm_compute; reflexivity |].
  repeat split; reflexivity.
Qed.

(** ** Sessions of LCD calls *)

Lemma in_u16_spec (z : Z) : in_u16 z = true -> is_u16 z.
Proof. unfold in_u16, is_u16. intros H. apply andb_prop in H. lia. Qed.

Lemma lcd_call_run_eq (c : lcd_call) (s : machine) :
  lcd_call_ok c = true ->
  lcd_call_run c s
  = (tt, advance 0 (lcd_call_events c s) (lcd_call_statics c s)).
Proof.
  intros Hok. destruct c as [o | x1 y1 x2 y2 | color len | area color_p | |];
    cbn [lcd_call_run lcd_call_events lcd_call_statics].
  - destruct (set_orientation_run o s) as (v & E & ->).
    rewrite E. now destruct o.
  - cbn [lcd_call_ok] in Hok.
    do 3 (apply andb_prop in Hok as [Hok ?]).
    apply st7796_set_window_run; now apply in_u16_spec.
  - apply st7796_write_color_run.
  - rewrite disp_flush_run. now destruct (disp_flush_enabled s).
  - unfold disp_enable_update, modify. f_equal.
    apply machine_ext; norm; rewrite ?app_nil_r; reflexivity.
  - unfold disp_disable_update, modify. f_equal.
    apply machine_ext; norm; rewrite ?app_nil_r; reflexivity.
Qed.

Lemma lcd_call_statics_trace (c : lcd_call) (s : machine) :
  trace (lcd_call_statics c s) = trace s
  /\ calls (lcd_call_statics c s) = calls s
  /\ gt911_dev (lcd_call_statics c s) = gt911_dev s
  /\ last_x (lcd_call_statics c s) = last_x s
  /\ last_y (lcd_call_statics c s) = last_y s.
Proof. destruct c; repeat split; reflexivity. Qed.

Lemma lcd_calls_statics_frame (cs : list lcd_call) (s : machine) :
  trace (lcd_calls_statics cs s) = trace s
  /\ calls (lcd_calls_statics cs s) = calls s
  /\ gt911_dev (lcd_calls_statics cs s) = gt911_dev s
  /\ last_x (lcd_calls_statics cs s) = last_x s
  /\ last_y (lcd_calls_statics cs s) = last_y s.
Proof.
  revert s. induction cs as [|c cs IH]; intros s; [repeat split |].
  unfold lcd_calls_statics. cbn [fold_left].
  fold (lcd_calls_statics cs (lcd_call_statics c s)).
  destruct (IH (lcd_call_statics c s)) as (-> & -> & -> & -> & ->).
  apply lcd_call_statics_trace.
Qed.

Lemma lcd_call_statics_advance (c : lcd_call) (evs : list event)
      (s : machine) :
  lcd_call_statics c (advance 0 evs s)
  = advance 0 evs (lcd_call_statics c s).
Proof. destruct c; same_machine. Qed.

Lemma lcd_call_events_advance (c : lcd_call) (evs : list event)
      (s : machine) :
  lcd_call_events c (advance 0 evs s) = lcd_call_events c s.
Proof. destruct c; reflexivity. Qed.

Lemma lcd_calls_events_advance (cs : list lcd_call) (evs : list event)
      (s : machine) :
  lcd_calls_events cs (advance 0 evs s) = lcd_calls_events cs s.
Proof.
  revert s. induction cs as [|c cs IH]; intros s; [reflexivity |].
  cbn [lcd_calls_events].
  now rewrite lcd_call_events_advance, lcd_call_statics_advance, IH.
Qed.

Lemma lcd_calls_statics_advance (cs : list lcd_call) (evs : list event)
      (s : machine) :
  lcd_calls_statics cs (advance 0 evs s)
  = advance 0 evs (lcd_calls_statics cs s).
Proof.
  revert s. induction cs as [|c cs IH]; intros s; [reflexivity |].
  unfold lcd_calls_statics. cbn [fold_left].
  rewrite lcd_call_statics_advance. apply IH.
Qed.

Lemma lcd_calls_run_eq (cs : list lcd_call) (s : machine) :
  forallb lcd_call_ok cs = true ->
  lcd_calls_run cs s
  = (tt, advance 0 (lcd_calls_events cs s) (lcd_calls_statics cs s)).
Proof.
  revert s. induction cs as [|c cs IH]; intros s Hok.
  - cbn. unfold ret_. f_equal.
    apply machine_ext; norm; rewrite ?app_nil_r; reflexivity.
  - cbn [forallb] in Hok. apply andb_prop in Hok as [Hc Hcs].
    cbn [lcd_calls_run lcd_calls_events]. unfold bind.
    rewrite (lcd_call_run_eq c s Hc), (IH _ Hcs).
    rewrite lcd_calls_events_advance, lcd_calls_statics_advance.
    unfold lcd_calls_statics at 2. cbn [fold_left].
    fold (lcd_calls_statics cs (lcd_call_statics c s)).
    f_equal. same_machine.
Qed.

Lemma register_from_app (c : Z) (st : bool * option (list Z))
      (fs1 fs2 : list frame) :
  register_from c st (fs1 ++ fs2)
  = register_from c (register_from c st fs1) fs2.
Proof. apply fold_left_app. Qed.

Lemma color_events_frames (dc : bool) (color : option (list Z)) (len : Z) :
  spi_frames dc (color_events color len) = []
  \/ exists bytes, color_events color len = burst_events bytes.
Proof.
  unfold color_events. destruct color as [pixels |]; [| now left].
  destruct (len =? 0); [now left | right; eauto].
Qed.

Lemma lcd_call_register (c : lcd_call) (s : machine) (dc : bool)
      (r : option (list Z)) :
  register_from ST7796_CMD_MADCTL (false, r)
                (spi_frames dc (lcd_call_events c s))
  = (false, match c with
            | CallSetOrientation o => Some [madctl_of o]
            | _ => r
            end).
Proof.
  assert (Hcol : forall dc color len,
             register_from ST7796_CMD_MADCTL (false, r)
                           (spi_frames dc (color_events color len))
             = (false, r)).
  { intros dc0 color len.
    destruct (color_events_frames dc0 color len) as [-> | [bytes ->]];
      reflexivity. }
  destruct c as [o | x1 y1 x2 y2 | color len | area color_p | |];
    cbn [lcd_call_events]; try reflexivity.
  - apply Hcol.
  - destruct (disp_flush_enabled s); [| reflexivity].
    rewrite spi_frames_app, register_from_app.
    change (register_from ST7796_CMD_MADCTL (false, r)
              (spi_frames dc (window_events ?a ?b ?c ?d)))
      with (false, r).
    rewrite spi_frames_app, register_from_app, Hcol. reflexivity.
Qed.

Lemma lcd_call_orientation (c : lcd_call) (s : machine) :
  current_orientation (lcd_call_statics c s)
  = match c with
    | CallSetOrientation o => o
    | _ => current_orientation s
    end.
Proof. now destruct c. Qed.

Lemma lcd_calls_register (cs : list lcd_call) (s : machine) (dc : bool) :
  register_from ST7796_CMD_MADCTL
                (false, Some [madctl_of (current_orientation s)])
                (spi_frames dc (lcd_calls_events cs s))
  = (false,
     Some [madctl_of (current_orientation (lcd_calls_statics cs s))]).
Proof.
  revert s dc. induction cs as [|c cs IH]; intros s dc; [reflexivity |].
  cbn [lcd_calls_events]. unfold lcd_calls_statics. cbn [fold_left].
  fold (lcd_calls_statics cs (lcd_call_statics c s)).
  rewrite spi_frames_app, register_from_app, lcd_call_register.
  rewrite <- (IH (lcd_call_statics c s) (dc_after dc (lcd_call_events c s))).
  f_equal. f_equal.
  rewrite lcd_call_orientation. now destruct c.
Qed.

(** X11: the controller's orientation register follows
    [current_orientation].  After [st7796_init], whatever calls to
    [st7796_set_orientation], [st7796_set_window], [st7796_write_color],
    [disp_flush], [disp_enable_update] and [disp_disable_update] follow, in
    any number and order, the parameter of the last MADCTL command that the
    controller was sent since power-up is the value for the orientation that
    [current_orientation] holds at the end: window declarations and pixel
    bursts never write that register. *)
Theorem lcd_register_follows_orientation
        (b : power_up) (cs : list lcd_call) (dc : bool) :
  forallb lcd_call_ok cs = true ->
  let s1 := lcd (snd (st7796_init b)) in
  let s2 := snd (lcd_calls_run cs s1) in
  register ST7796_CMD_MADCTL
           (spi_frames dc (drop (length (trace (lcd b))) (trace s2)))
  = Some [madctl_of (current_orientation s2)].
Proof.
  intros Hok s1 s2. subst s1 s2.
  rewrite st7796_init_run. cbn [snd lcd].
  rewrite (lcd_calls_run_eq cs _ Hok).
  rewrite lcd_calls_events_advance, lcd_calls_statics_advance. norm.
  destruct (lcd_calls_statics_frame cs
              (with_orientation ST7796_PORTRAIT (lcd b))) as (-> & _).
  norm. rewrite <- app_assoc, drop_app_length.
  unfold register.
  rewrite spi_frames_app, register_from_app, bring_up_frames.
  change (register_from ST7796_CMD_MADCTL (false, None)
            (flat_map entry_frames init_script
             ++ [Command [ST7796_CMD_MADCTL]; Data [72]; Command [33]]))
    with (false, Some [madctl_of
                         (current_orientation
                            (with_orientation ST7796_PORTRAIT (lcd b)))]).
  now rewrite lcd_calls_register.
Qed.

Lemma lcd_register_follows_orientation_witness :
  register ST7796_CMD_MADCTL
    (spi_frames true
       (trace (snd (lcd_calls_run
                      [CallSetOrientation ST7796_LANDSCAPE;
                       CallFlush (LvArea 0 0 1 0) (Some [0x1234; 0x5678]);
                       CallSetWindow 0 0 479 319]
                      (lcd (snd (st7796_init (PowerUp boot []))))))))
  = Some [0x28].
Proof.
  exact (lcd_register_follows_orientation (PowerUp boot [])
           [CallSetOrientation ST7796_LANDSCAPE;
            CallFlush (LvArea 0 0 1 0) (Some [0x1234; 0x5678]);
            CallSetWindow 0 0 479 319] true eq_refl).
Defined.

Lemma cs_framed_app (c : bool) (t1 t2 : list event) :
  cs_framed c t1 = true ->
  cs_framed c (t1 ++ t2) = cs_framed true t2.
Proof.
  revert c. induction t1 as [|e t1 IH]; intros c H.
  - cbn in H. now subst c.
  - cbn [app cs_framed] in *. destruct e; try (now apply IH).
    + destruct (pin =? ST7796_PIN_CS); now apply IH.
    + apply andb_prop in H as [-> H]. cbn [andb]. now apply IH.
Qed.

Lemma color_events_cs (color : option (list Z)) (len : Z) :
  cs_framed true (color_events color len) = true.
Proof.
  unfold color_events. destruct color; [destruct (len =? 0) |]; reflexivity.
Qed.

Lemma lcd_call_cs (c : lcd_call) (s : machine) :
  cs_framed true (lcd_call_events c s) = true.
Proof.
  destruct c as [o | x1 y1 x2 y2 | color len | area color_p | |];
    cbn [lcd_call_events]; try reflexivity.
  - apply color_events_cs.
  - destruct (disp_flush_enabled s); [| reflexivity].
    rewrite cs_framed_app by reflexivity.
    rewrite cs_framed_app by apply color_events_cs. reflexivity.
Qed.

Lemma lcd_calls_cs (cs : list lcd_call) (s : machine) :
  cs_framed true (lcd_calls_events cs s) = true.
Proof.
  revert s. induction cs as [|c cs IH]; intros s; [reflexivity |].
  cbn [lcd_calls_events]. rewrite cs_framed_app by apply lcd_call_cs.
  apply IH.
Qed.

Lemma color_events_dc (dc dc' : bool) (color : option (list Z)) (len : Z) :
  spi_frames dc (color_events color len)
  = spi_frames dc' (color_events color len).
Proof.
  unfold color_events. destruct color; [destruct (len =? 0) |]; reflexivity.
Qed.

Lemma lcd_call_dc (c : lcd_call) (s : machine) (dc dc' : bool)
      (t : list event) :
  (forall d d', spi_frames d t = spi_frames d' t) ->
  spi_frames dc (lcd_call_events c s ++ t)
  = spi_frames dc' (lcd_call_events c s ++ t).
Proof.
  intros Ht.
  destruct c as [o | x1 y1 x2 y2 | color len | area color_p | |];
    cbn [lcd_call_events app]; try apply Ht.
  - unfold cmd_events. cbn [app spi_frames].
    change (ST7796_PIN_CS =? ST7796_PIN_DC) with false.
    change (ST7796_PIN_DC =? ST7796_PIN_DC) with true. reflexivity.
  - unfold window_events, cmd_events. cbn [app spi_frames].
    change (ST7796_PIN_CS =? ST7796_PIN_DC) with false.
    change (ST7796_PIN_DC =? ST7796_PIN_DC) with true. reflexivity.
  - unfold color_events.
    destruct color; [destruct (len =? 0) |]; try apply Ht. reflexivity.
  - destruct (disp_flush_enabled s).
    + unfold window_events, cmd_events. cbn [app spi_frames].
      change (ST7796_PIN_CS =? ST7796_PIN_DC) with false.
      change (ST7796_PIN_DC =? ST7796_PIN_DC) with true. reflexivity.
    + cbn [app spi_frames]. apply Ht.
Qed.

Lemma lcd_calls_dc (cs : list lcd_call) (s : machine) (dc dc' : bool) :
  spi_frames dc (lcd_calls_events cs s)
  = spi_frames dc' (lcd_calls_events cs s).
Proof.
  revert s dc dc'. induction cs as [|c cs IH]; intros s dc dc';
    [reflexivity |].
  cbn [lcd_calls_events]. apply lcd_call_dc. intros d d'. apply IH.
Qed.

Lemma lcd_calls_emitted (cs : list lcd_call) (s : machine) :
  forallb lcd_call_ok cs = true ->
  emitted (lcd_calls_run cs) s = lcd_calls_events cs s.
Proof.
  intros Hok. unfold emitted. rewrite (lcd_calls_run_eq cs s Hok). norm.
  destruct (lcd_calls_statics_frame cs s) as (-> & _).
  apply drop_app_length.
Qed.

(** X12: chip select frames every SPI burst.  In any session of calls to
    the LCD driver and the flush callback, started with chip select high,
    the chip-select line is low during every SPI burst and high again when
    the session ends; each burst sets the D/C line itself, so the frames the
    controller sees do not depend on the level D/C had before.  The same
    holds from power-up, whatever the level of the chip-select pin was
    before [st7796_init] configures it. *)
Theorem lcd_chip_select_framed (cs : list lcd_call) :
  forallb lcd_call_ok cs = true ->
  (forall s, cs_framed true (emitted (lcd_calls_run cs) s) = true)
  /\ (forall s dc dc',
         spi_frames dc (emitted (lcd_calls_run cs) s)
         = spi_frames dc' (emitted (lcd_calls_run cs) s))
  /\ (forall b level,
         let s1 := lcd (snd (st7796_init b)) in
         let s2 := snd (lcd_calls_run cs s1) in
         cs_framed level (drop (length (trace (lcd b))) (trace s2)) = true).
Proof.
  intros Hok. split; [| split].
  - intros s. rewrite (lcd_calls_emitted cs s Hok). apply lcd_calls_cs.
  - intros s dc dc'. rewrite (lcd_calls_emitted cs s Hok). apply lcd_calls_dc.
  - intros b level s1 s2. subst s1 s2.
    rewrite st7796_init_run. cbn [snd lcd].
    rewrite (lcd_calls_run_eq cs _ Hok).
    rewrite lcd_calls_events_advance, lcd_calls_statics_advance. norm.
    destruct (lcd_calls_statics_frame cs
                (with_orientation ST7796_PORTRAIT (lcd b))) as (-> & _).
    norm. rewrite <- app_assoc, drop_app_length.
    rewrite cs_framed_app; [apply lcd_calls_cs |].
    destruct level; vm_compute; reflexivity.
Qed.

Lemma lcd_chip_select_framed_witness :
  cs_framed true
    (emitted (lcd_calls_run
                [CallSetWindow 0 0 1 0;
                 CallWriteColor (Some [0x1234; 0x5678]) 2;
                 CallDisableUpdate;
                 CallFlush (LvArea 0 0 1 0) (Some [0x1234; 0x5678])]) boot)
  = true.
Proof.
  exact (proj1 (lcd_chip_select_framed
                  [CallSetWindow 0 0 1 0;
                   CallWriteColor (Some [0x1234; 0x5678]) 2;
                   CallDisableUpdate;
                   CallFlush (LvArea 0 0 1 0) (Some [0x1234; 0x5678])]
                  eq_refl) boot).
Defined.

(** X13: the order of the bring-up.  Whatever the state it is called in,
    [st7796_init] first sets up the SPI peripheral (baud rate 62.5 MHz,
    8 bits, mode 0, MSB first) and the three control pins, then pulses
    reset (high, low, high, 100 ms each), and only then writes to the SPI
    bus: nothing is sent before the reset pulse is over, and afterwards the
    reset pin is not touched and no set-up call is made.  Every pin is
    driven only after it was initialised and made an output.  There is no
    guard against a second call: it replays the same log. *)
Theorem st7796_init_order (b : power_up) :
  (exists pre post,
      logged b = pre ++ map Wire reset_events ++ post
      /\ forallb (fun e => negb (is_spi_write e)) pre = true
      /\ In (Setup (SpiInit ST7796_SPI_BAUDRATE)) pre
      /\ In (Setup (SpiSetFormat 8 0 0 true)) pre
      /\ forallb (fun e => negb (touches_reset e) && negb (is_setup e)) post
         = true
      /\ existsb is_spi_write post = true)
  /\ pins_configured [] [] (logged b) = true
  /\ log (snd (st7796_init b)) = log b ++ logged b
  /\ logged (snd (st7796_init b)) = logged b.
Proof.
  rewrite !logged_run. split; [| split; [| split]].
  - exists bring_up_setup, (map Wire bring_up_traffic).
    split; [reflexivity |].
    split; [reflexivity |].
    split; [cbn; auto |].
    split; [cbn; auto |].
    split; vm_compute; reflexivity.
  - vm_compute. reflexivity.
  - now rewrite st7796_init_run.
  - reflexivity.
Qed.

(** ** The flush callback, end to end *)

Lemma window_of_window_frames (x1 y1 x2 y2 : Z) :
  window_of_frames
    [Command [ST7796_CMD_CASET];
     Data [x1 / 256; x1 mod 256; x2 / 256; x2 mod 256];
     Command [ST7796_CMD_RASET];
     Data [y1 / 256; y1 mod 256; y2 / 256; y2 mod 256];
     Command [ST7796_CMD_RAMWR]]
  = Some (x1, y1, x2, y2).
Proof.
  cbn. f_equal.
  pose proof (Z.div_mod x1 256). pose proof (Z.div_mod x2 256).
  pose proof (Z.div_mod y1 256). pose proof (Z.div_mod y2 256).
  repeat f_equal; lia.
Qed.

(** X14: a flush is a faithful copy.  With updates enabled, an on-screen
    area and a buffer of exactly width times height 16-bit pixels, the
    controller sees six frames: the window declaration, which decodes to
    the corners of the area, and one data frame of two bytes per pixel,
    which decodes (low byte first) to the buffer; then LVGL is signalled. *)
Theorem disp_flush_round_trip
        (s : machine) (area : lv_area_t) (pixels : list Z) (dc : bool) :
  disp_flush_enabled s = true ->
  area_ok area = true ->
  Forall is_u16 pixels ->
  Z.of_nat (length pixels)
  = (x2 area - x1 area + 1) * (y2 area - y1 area + 1) ->
  let t := emitted (disp_flush area (Some pixels)) s in
  let fs := spi_frames dc t in
  window_of_frames (take 5 fs)
  = Some (x1 area, y1 area, x2 area, y2 area)
  /\ (exists bytes,
         drop 5 fs = [Data bytes]
         /\ u16_of_bytes bytes = pixels
         /\ Z.of_nat (length bytes) = 2 * Z.of_nat (length pixels))
  /\ last t = Some LvDispFlushReady.
Proof.
  intros He Hok Hpx Hlen t fs. subst t fs.
  pose proof (area_ok_bounds area Hok) as Hb.
  destruct (area_ok_spec area Hok) as (Ex1 & Ey1 & Ex2 & Ey2 & Esz).
  unfold emitted. rewrite disp_flush_run, He. norm.
  rewrite drop_app_length, Ex1, Ey1, Ex2, Ey2, Esz, <- Hlen.
  rewrite color_events_pixels by nia.
  rewrite Nat2Z.id, firstn_all.
  split; [| split].
  - apply window_of_window_frames.
  - exists (u16_bytes pixels). split; [reflexivity |].
    split; [now apply u16_of_bytes_u16_bytes |].
    rewrite u16_bytes_length. lia.
  - reflexivity.
Qed.

Lemma disp_flush_round_trip_witness :
  let fs := spi_frames true
              (emitted (disp_flush (LvArea 10 20 11 21)
                                   (Some [0x1234; 0x5678; 0x9ABC; 0xDEF0]))
                       boot) in
  window_of_frames (take 5 fs) = Some (10, 20, 11, 21)
  /\ exists bytes,
      drop 5 fs = [Data bytes]
      /\ u16_of_bytes bytes = [0x1234; 0x5678; 0x9ABC; 0xDEF0].
Proof.
  destruct (disp_flush_round_trip boot (LvArea 10 20 11 21)
              [0x1234; 0x5678; 0x9ABC; 0xDEF0] true eq_refl eq_refl
              ltac:(repeat constructor; unfold is_u16; lia) eq_refl)
    as (Hw & (bytes & Hd & Hb & _) & _).
  split; [exact Hw |]. exists bytes. now split.
Defined.

(** X15: a flush with nothing to copy.  With updates enabled, when the
    buffer pointer is NULL or the area holds no pixel (width times height is
    zero), [disp_flush] still declares the window, ending with the
    memory-write command, sends no pixel data after it, and still signals
    LVGL: the controller sees exactly the five frames of the window
    declaration. *)
Theorem disp_flush_nothing_to_copy
        (s : machine) (area : lv_area_t) (color_p : option (list Z))
        (dc : bool) :
  disp_flush_enabled s = true ->
  color_p = None
  \/ u32 (lv_area_get_width area * lv_area_get_height area) = 0 ->
  let t := emitted (disp_flush area color_p) s in
  t = emitted (st7796_set_window (u16 (x1 area)) (u16 (y1 area))
                                 (u16 (x2 area)) (u16 (y2 area))) s
      ++ [LvDispFlushReady]
  /\ spi_frames dc t
     = [Command [ST7796_CMD_CASET];
        Data (be16 (u16 (x1 area)) ++ be16 (u16 (x2 area)));
        Command [ST7796_CMD_RASET];
        Data (be16 (u16 (y1 area)) ++ be16 (u16 (y2 area)));
        Command [ST7796_CMD_RAMWR]]
  /\ last (spi_frames dc t) = Some (Command [ST7796_CMD_RAMWR]).
Proof.
  intros He Hn t. subst t.
  unfold emitted. rewrite disp_flush_run, He.
  rewrite st7796_set_window_run by apply u16_is_u16. norm.
  rewrite !drop_app_length.
  assert (Hc : color_events color_p
                 (u32 (lv_area_get_width area * lv_area_get_height area))
               = []).
  { destruct Hn as [-> | ->]; [reflexivity |].
    unfold color_events. now destruct color_p. }
  rewrite Hc. cbn [app]. repeat split.
Qed.

Lemma disp_flush_nothing_to_copy_witness :
  spi_frames true (emitted (disp_flush (LvArea 0 0 319 479) None) boot)
  = [Command [0x2A]; Data [0x00; 0x00; 0x01; 0x3F];
     Command [0x2B]; Data [0x00; 0x00; 0x01; 0xDF]; Command [0x2C]].
Proof.
  exact (proj1 (proj2 (disp_flush_nothing_to_copy boot (LvArea 0 0 319 479)
                         None true eq_refl (or_introl eq_refl)))).
Defined.

(** ** The update switch *)

Lemma lcd_calls_statics_switch (cs : list lcd_call) (s : machine) :
  disp_flush_enabled (lcd_calls_statics cs s)
  = fold_left update_switch cs (disp_flush_enabled s).
Proof.
  revert s. induction cs as [|c cs IH]; intros s; [reflexivity |].
  unfold lcd_calls_statics. cbn [fold_left].
  fold (lcd_calls_statics cs (lcd_call_statics c s)).
  rewrite IH. f_equal. now destruct c.
Qed.

Lemma lcd_call_signals (c : lcd_call) (s : machine) :
  count_events is_flush_ready (lcd_call_events c s)
  = if is_flush_call c then 1%nat else 0%nat.
Proof.
  destruct c as [o | x1 y1 x2 y2 | color len | area color_p | |];
    cbn [lcd_call_events is_flush_call]; try reflexivity.
  - apply color_events_no_signal.
  - destruct (disp_flush_enabled s); [| reflexivity].
    now rewrite !count_events_app, color_events_no_signal.
Qed.

Lemma lcd_calls_signals (cs : list lcd_call) (s : machine) :
  count_events is_flush_ready (lcd_calls_events cs s)
  = length (filter (fun c => is_flush_call c = true) cs).
Proof.
  revert s. induction cs as [|c cs IH]; intros s; [reflexivity |].
  cbn [lcd_calls_events]. rewrite count_events_app, lcd_call_signals, IH.
  rewrite filter_cons.
  destruct (is_flush_call c) eqn:Hc;
    destruct (decide (is_flush_call c = true)); try congruence; reflexivity.
Qed.

Lemma lcd_calls_disabled (cs : list lcd_call) (s : machine) :
  disp_flush_enabled s = false ->
  forallb is_flush_call cs = true ->
  lcd_calls_events cs s = replicate (length cs) LvDispFlushReady
  /\ disp_flush_enabled (lcd_calls_statics cs s) = false.
Proof.
  revert s. induction cs as [|c cs IH]; intros s Hd Hf; [now split |].
  cbn [forallb] in Hf. apply andb_prop in Hf as [Hc Hf].
  destruct c as [| | | area color_p | |]; try discriminate Hc.
  cbn [lcd_calls_events lcd_call_events lcd_call_statics].
  unfold lcd_calls_statics. cbn [fold_left lcd_call_statics].
  fold (lcd_calls_statics cs s).
  rewrite Hd. destruct (IH s Hd Hf) as [-> ->]. now split.
Qed.

(** X16: the update switch.  After any session of LCD calls the flag
    [disp_flush_enabled] is what the last call of [disp_enable_update] or
    [disp_disable_update] in it set (or its old value if there was none);
    LVGL is signalled once per call of [disp_flush], whatever the flag was;
    and from [disp_disable_update] on, flushes put nothing at all on the
    wire besides that signal, until updates are enabled again. *)
Theorem disp_update_switch (cs : list lcd_call) (s : machine) :
  forallb lcd_call_ok cs = true ->
  let s' := snd (lcd_calls_run cs s) in
  disp_flush_enabled s' = fold_left update_switch cs (disp_flush_enabled s)
  /\ count_events is_flush_ready (emitted (lcd_calls_run cs) s)
     = length (filter (fun c => is_flush_call c = true) cs)
  /\ (forall flushes,
         forallb is_flush_call flushes = true ->
         emitted (lcd_calls_run (cs ++ CallDisableUpdate :: flushes)) s
         = emitted (lcd_calls_run cs) s
           ++ replicate (length flushes) LvDispFlushReady).
Proof.
  intros Hok s'. subst s'.
  rewrite (lcd_calls_emitted cs s Hok), (lcd_calls_run_eq cs s Hok). norm.
  split; [apply lcd_calls_statics_switch |].
  split; [apply lcd_calls_signals |].
  intros flushes Hf.
  assert (Hok' : forallb lcd_call_ok (cs ++ CallDisableUpdate :: flushes)
                 = true).
  { rewrite forallb_app, Hok. cbn [forallb lcd_call_ok andb].
    clear -Hf. induction flushes as [|c l IH]; [reflexivity |].
    cbn [forallb] in *. apply andb_prop in Hf as [Hc Hl].
    rewrite (IH Hl). now destruct c. }
  rewrite (lcd_calls_emitted _ s Hok'). f_equal.
  clear Hok Hok'. revert s.
  induction cs as [|c cs IH]; intros s.
  - cbn [app lcd_calls_events lcd_call_events lcd_call_statics].
    now destruct (lcd_calls_disabled flushes (with_flush_enabled false s)
                    eq_refl Hf) as [-> _].
  - cbn [app lcd_calls_events]. rewrite IH. now rewrite app_assoc.
Qed.

Lemma disp_update_switch_witness :
  emitted (lcd_calls_run
             ([CallFlush (LvArea 0 0 0 0) (Some [0x1234])]
              ++ CallDisableUpdate
                 :: [CallFlush (LvArea 0 0 1 0) (Some [1; 2]);
                     CallFlush (LvArea 5 5 5 5) None])) boot
  = emitted (lcd_calls_run [CallFlush (LvArea 0 0 0 0) (Some [0x1234])]) boot
    ++ [LvDispFlushReady; LvDispFlushReady].
Proof.
  exact (proj2 (proj2 (disp_update_switch
                         [CallFlush (LvArea 0 0 0 0) (Some [0x1234])]
                         boot eq_refl))
           [CallFlush (LvArea 0 0 1 0) (Some [1; 2]);
            CallFlush (LvArea 5 5 5 5) None] eq_refl).
Defined.

(** ** The touch bridge *)

Ltac poll_step bus :=
  rewrite !read_u8_run; cbn zeta; norm;
  match goal with
  | |- context [if ret (bus ?n) <? 0 then _ else _] =>
    destruct (ret (bus n) <? 0); [reflexivity |]
  end;
  match goal with
  | |- context [negb (ret (bus ?n) <? 0)] =>
    destruct (ret (bus n) <? 0); cbn [negb]; [reflexivity |]
  end;
  cbn beta iota; norm.

(** The output parameters are written on success only, and what goes in
    through them is never looked at. *)
Lemma gt911_read_touch_out
      (bus : nat -> response) (out : touch_out) (s : machine) :
  gt911_read_touch bus out s
  = let r0 := gt911_read_touch bus (0, 0, false) s in
    ((fst (fst r0), if fst (fst r0) then snd (fst r0) else out), snd r0).
Proof.
  unfold gt911_read_touch. unfold_monad.
  destruct (initialized (gt911_dev s)); cbn [negb]; [| reflexivity].
  poll_step bus.
  set (st := delivered (bus (S (calls s))) 0).
  destruct (negb (Z.land st GT911_STATUS_BUF_READY =? 0)
            || (Z.land st GT911_STATUS_PT_MASK <? 6));
    [rewrite !gt911_clear_status_run; norm | cbn beta iota];
    (destruct (Z.land st GT911_STATUS_PT_MASK =? 1); [| reflexivity]);
    do 4 poll_step bus; reflexivity.
Qed.

Ltac close_shape_in E :=
  finish_in E; intros Hr;
  first [ discriminate Hr
        | eexists; split; [reflexivity |];
          split; intros Hp;
          first [ discriminate Hp
                | split; reflexivity
                | split; apply u16_is_u16 ] ].

(** On success the outputs are the retained coordinate of the driver. *)
Lemma gt911_read_touch_success
      (bus : nat -> response) (out : touch_out) (s : machine)
      (r : bool * touch_out) (s' : machine) :
  gt911_read_touch bus out s = (r, s') ->
  fst r = true ->
  exists pressed,
    snd r = (last_x s', last_y s', pressed)
    /\ (pressed = false -> last_x s' = last_x s /\ last_y s' = last_y s)
    /\ (pressed = true -> is_u16 (last_x s') /\ is_u16 (last_y s')).
Proof.
  intros E.
  unfold gt911_read_touch in E. unfold_monad_in E.
  destruct (initialized (gt911_dev s)); cbn [negb] in E;
    [| close_shape_in E].
  run_in E.
  branch_in E; [close_shape_in E |].
  branch_in E; [close_shape_in E |].
  set (st := delivered (bus (S (calls s))) 0) in E.
  destruct (negb (Z.land st GT911_STATUS_BUF_READY =? 0)
            || (Z.land st GT911_STATUS_PT_MASK <? 6));
    cbn beta iota in E; [run_in E |];
    (destruct (Z.land st GT911_STATUS_PT_MASK =? 1);
     cbn beta iota in E; norm_in E; [| close_shape_in E]);
    do 4 (run_in E;
          branch_in E; [close_shape_in E |];
          branch_in E; [close_shape_in E |]);
    close_shape_in E.
Qed.

Lemma gt911_read_touch_uninitialised
      (bus : nat -> response) (out : touch_out) (s : machine) :
  initialized (gt911_dev s) = false ->
  gt911_read_touch bus out s = ((false, out), s).
Proof.
  intros Hi. unfold gt911_read_touch. unfold_monad. now rewrite Hi.
Qed.

(** X17: what the read callback reports.  Whatever the bus answers,
    [touchpad_read] clears [continue_reading], polls the touch driver once,
    and reports "pressed" exactly when that poll succeeded with a contact;
    the point is then the driver's retained coordinate converted to
    [lv_coord_t], and it becomes the bridge's retained point.  In every
    other case (no contact, several contacts, a failed poll, a driver that
    is not initialised) it reports "released" at the bridge's retained
    point, which stays as it was.  The members [key], [enc_diff] and
    [btn_id] of the data structure are left as they were; the three members
    the callback writes and the bridge's state do not depend on what the
    data structure held, and nothing depends on what the uninitialised
    locals hold. *)
Theorem touchpad_read_report
        (bus : nat -> response) (locals : touch_out)
        (data : lv_indev_data_t) (p : indev) :
  let r := gt911_read_touch bus locals (hw p) in
  let d := fst (touchpad_read bus locals data p) in
  let p' := snd (touchpad_read bus locals data p) in
  continue_reading d = false
  /\ hw p' = snd r
  /\ point d = retained p'
  /\ (state d = LV_INDEV_STATE_PR
      <-> fst (fst r) = true /\ snd (snd (fst r)) = true)
  /\ (state d = LV_INDEV_STATE_PR ->
      point d = LvPoint (s16 (last_x (hw p'))) (s16 (last_y (hw p'))))
  /\ (state d = LV_INDEV_STATE_REL -> retained p' = retained p)
  /\ d = report (point d) (state d) data
  /\ (forall locals',
         touchpad_read bus locals' data p = touchpad_read bus locals data p)
  /\ (forall data',
         fst (touchpad_read bus locals data' p)
         = report (point d) (state d) data'
         /\ snd (touchpad_read bus locals data' p) = p').
Proof.
  intros r d p'. subst r d p'.
  split; [| split; [| split; [| split; [| split; [| split; [| split;
    [| split]]]]]]].
  8: { intros locals'. unfold touchpad_read.
       rewrite (gt911_read_touch_out bus locals),
               (gt911_read_touch_out bus locals').
       cbn zeta.
       destruct (gt911_read_touch bus (0, 0, false) (hw p))
         as [[ok [[x y] pressed]] m].
       cbn [fst snd]. destruct ok; [reflexivity |].
       now destruct locals as [[? ?] ?], locals' as [[? ?] ?]. }
  8: { intros data'. unfold touchpad_read.
       destruct (gt911_read_touch bus locals (hw p))
         as [[ok [[x y] pressed]] m].
       destruct ok; [destruct pressed |]; split; reflexivity. }
  all: unfold touchpad_read;
    destruct (gt911_read_touch bus locals (hw p))
      as [[ok [[x y] pressed]] m] eqn:E;
    destruct ok; [destruct pressed |]; cbn [fst snd point state
      continue_reading hw retained indev_last_x indev_last_y
      with_state with_point with_continue_reading];
    try reflexivity; try (intros; discriminate);
    try (split; [intros; discriminate | intros [? ?]; discriminate]);
    try (split; [now split | reflexivity]).
  intros _.
  destruct (gt911_read_touch_success bus locals (hw p) _ _ E eq_refl)
    as (pr & Hs & _).
  cbn [snd] in Hs. now injection Hs as -> -> _.
Qed.

Lemma touchpad_read_cases
      (bus : nat -> response) (locals : touch_out)
      (data : lv_indev_data_t) (p : indev) :
  let d := fst (touchpad_read bus locals data p) in
  let p' := snd (touchpad_read bus locals data p) in
  (state d = LV_INDEV_STATE_PR /\ point d = retained p')
  \/ (state d = LV_INDEV_STATE_REL /\ point d = retained p
      /\ retained p' = retained p).
Proof.
  cbn zeta. unfold touchpad_read.
  destruct (gt911_read_touch bus locals (hw p))
    as [[ok [[x y] pressed]] m].
  destruct ok; [destruct pressed |]; cbn [fst snd point state];
    [left | right | right]; repeat split.
Qed.

(** X18: a release is reported where the last press was.  When LVGL calls
    the read callback any number of times in a row, whatever the bus
    answers, every report of "released" carries the point of the latest
    earlier report of "pressed" (or the point retained before the first
    call, if there was none), and the bridge ends up retaining the point of
    the last "pressed" report. *)
Theorem touchpad_polls_released
        (bus : nat -> response) (n : nat) (locals : touch_out)
        (data : lv_indev_data_t) (p : indev) :
  let ds := fst (touchpad_polls bus n locals data p) in
  let p' := snd (touchpad_polls bus n locals data p) in
  length ds = n
  /\ retained p' = last_pressed (retained p) ds
  /\ (forall i d,
         ds !! i = Some d ->
         state d = LV_INDEV_STATE_REL ->
         point d = last_pressed (retained p) (take i ds)).
Proof.
  cbn zeta. revert data p.
  induction n as [|n IH]; intros data p.
  - cbn. repeat split. intros i d H. now rewrite lookup_nil in H.
  - cbn [touchpad_polls].
    pose proof (touchpad_read_cases bus locals data p) as Hc.
    cbn zeta in Hc.
    destruct (touchpad_read bus locals data p) as [d p1].
    cbn [fst snd] in Hc.
    specialize (IH d p1).
    destruct (touchpad_polls bus n locals d p1) as [ds p2].
    cbn [fst snd] in *. destruct IH as (Hl & Hr & Hi).
    assert (Hd : last_pressed (retained p) [d] = retained p1).
    { unfold last_pressed. cbn [fold_left].
      destruct Hc as [(-> & ->) | (-> & _ & ->)]; reflexivity. }
    split; [cbn [length]; now rewrite Hl |]. split.
    + rewrite Hr. unfold last_pressed in *. cbn [fold_left] in *.
      now rewrite Hd.
    + intros [|i] d' Hlk Hst.
      * cbn in Hlk. injection Hlk as <-.
        destruct Hc as [(Hpr & _) | (_ & -> & _)]; [congruence |].
        reflexivity.
      * cbn in Hlk. rewrite (Hi i d' Hlk Hst).
        cbn [take]. unfold last_pressed in *. cbn [fold_left] in *.
        now rewrite Hd.
Qed.

Lemma touchpad_polls_uninitialised
      (bus : nat -> response) (n : nat) (locals : touch_out)
      (data : lv_indev_data_t) (p : indev) :
  initialized (gt911_dev (hw p)) = false ->
  touchpad_polls bus n locals data p
  = (replicate n (report (retained p) LV_INDEV_STATE_REL data), p).
Proof.
  intros Hi. revert data. induction n as [|n IH]; intros data;
    [reflexivity |].
  cbn [touchpad_polls]. unfold touchpad_read at 1.
  rewrite (gt911_read_touch_uninitialised bus locals (hw p) Hi).
  destruct locals as [[x y] pressed].
  replace (Indev (hw p) (indev_last_x p) (indev_last_y p)) with p
    by now destruct p.
  rewrite IH. reflexivity.
Qed.

(** X19: a failed bring-up is swallowed.  [touchpad_init] drops the result
    of [gt911_init].  If the bring-up fails (the baud rate comes back as 0,
    or one of the ten register reads fails), the bridge carries on with an
    uninitialised driver: every later call of the read callback, whatever
    the bus would answer, reports "released" at the retained point with
    [continue_reading] cleared and the other members of the data structure
    as they were, and puts nothing on the bus.  If the bring-up succeeds the
    driver is initialised and the bridge's retained point is untouched. *)
Theorem touchpad_init_failure_is_silent
        (bus bus' : nat -> response) (p : indev) :
  initialized (gt911_dev (hw p)) = false ->
  let p1 := snd (touchpad_init bus p) in
  retained p1 = retained p
  /\ initialized (gt911_dev (hw p1)) = bring_up_ok bus (calls (hw p))
  /\ (bring_up_ok bus (calls (hw p)) = false ->
      forall n locals data,
        touchpad_polls bus' n locals data p1
        = (replicate n (report (retained p) LV_INDEV_STATE_REL data), p1)).
Proof.
  intros Hi p1. subst p1. unfold touchpad_init.
  destruct (gt911_init bus (hw p)) as [r s'] eqn:E. cbn [snd hw].
  split; [reflexivity |].
  destruct (gt911_init_cases bus (hw p) r s' Hi E)
    as [(-> & Hf & ->) | (-> & Ht & -> & _)].
  - split; [exact Hf |]. intros _ n locals data.
    now rewrite touchpad_polls_uninitialised.
  - split; [exact Ht | discriminate].
Qed.

Lemma touchpad_init_failure_is_silent_witness :
  touchpad_polls (script one_finger) 3 (0, 0, false)
                 (LvIndevData (LvPoint 7 7) LV_INDEV_STATE_PR true 13 (-1) 2)
                 (snd (touchpad_init (script flaky_panel) indev_boot))
  = (replicate 3 (LvIndevData (LvPoint 0 0) LV_INDEV_STATE_REL false
                              13 (-1) 2),
     snd (touchpad_init (script flaky_panel) indev_boot)).
Proof.
  exact (proj2 (proj2 (touchpad_init_failure_is_silent
                         (script flaky_panel) (script one_finger)
                         indev_boot eq_refl))
           eq_refl 3%nat (0, 0, false)
           (LvIndevData (LvPoint 7 7) LV_INDEV_STATE_PR true 13 (-1) 2)).
Defined.

(** ** Transport details *)

(** X20: the two ways of acknowledging.  The source sends the
    acknowledgment as a hand-built three-byte write and keeps, commented
    out, the call [gt911_i2c_write_reg(GT911_REG_STATUS, &clear_data, 1)];
    the two put the same bytes on the bus and leave the same machine, and
    differ only in that the call would return whether the write moved any
    byte. *)
Theorem gt911_clear_status_is_write_reg
        (bus : nat -> response) (s : machine) :
  snd (gt911_i2c_write_reg bus GT911_REG_STATUS (Some [0x00]) 1 s)
  = snd (gt911_clear_status bus s)
  /\ emitted (gt911_clear_status bus) s = [ack s]
  /\ fst (gt911_i2c_write_reg bus GT911_REG_STATUS (Some [0x00]) 1 s)
     = (0 <? ret (bus (calls s)))
  /\ calls (snd (gt911_clear_status bus s)) = S (calls s).
Proof.
  rewrite gt911_clear_status_run.
  split; [reflexivity |]. split; [| split].
  - unfold emitted. rewrite gt911_clear_status_run. norm.
    apply drop_app_length.
  - unfold gt911_i2c_write_reg, i2c_write_blocking. unfold_monad.
    cbn [fst]. apply Z.gtb_ltb.
  - reflexivity.
Qed.

(** X21: command and data frames of the LCD transport.
    [st7796_write_cmd] sends its byte ([uint8_t]) as one burst with D/C
    low; [st7796_write_data], given a buffer of at least [len] bytes for a
    length [1 <= len <= 65535] ([uint16_t]), sends
    the first [len] of them as one burst with D/C high; each burst is
    bracketed by chip select and by 1 us pauses.  With a NULL pointer or
    [len = 0], [st7796_write_data] does nothing at all. *)
Theorem st7796_transport_frames
        (s : machine) (c : Z) (buf : list Z) (len : Z) (dc : bool) :
  0 <= c < 256 ->
  0 < len < 65536 ->
  len <= Z.of_nat (length buf) ->
  spi_frames dc (emitted (st7796_write_cmd c) s) = [Command [c]]
  /\ (exists bytes,
         spi_frames dc (emitted (st7796_write_data (Some buf) len) s)
         = [Data bytes]
         /\ Z.of_nat (length bytes) = len
         /\ bytes `prefix_of` buf)
  /\ cs_framed true (emitted (st7796_write_cmd c) s) = true
  /\ cs_framed true (emitted (st7796_write_data (Some buf) len) s) = true
  /\ (forall n, st7796_write_data None n s = (tt, s))
  /\ st7796_write_data (Some buf) 0 s = (tt, s).
Proof.
  intros _ Hl Hb.
  rewrite (emitted_advance_0 _ _ _ _ (st7796_write_cmd_run c s)).
  rewrite (emitted_advance_0 _ _ _ _
             (st7796_write_data_run buf len s ltac:(lia))).
  split; [reflexivity |]. split; [| repeat split].
  exists (take (Z.to_nat len) buf). split; [reflexivity |].
  split; [rewrite length_take; lia | apply prefix_take].
Qed.

Lemma st7796_transport_frames_witness :
  spi_frames true (emitted (st7796_write_cmd 0x2A) boot) = [Command [0x2A]].
Proof.
  exact (proj1 (st7796_transport_frames boot 0x2A [1; 2; 3] 2 true
                  ltac:(lia) ltac:(lia) ltac:(simpl; lia))).
Defined.

(** ** The two drivers do not interfere *)

Ltac close_repaint :=
  cbn [fst snd]; f_equal; apply machine_ext; norm;
  rewrite <- ?app_assoc, ?drop_app_length, ?drop_all, ?app_nil_r;
  reflexivity.

Ltac repaint_step bus :=
  rewrite !read_u8_run; cbn zeta; norm;
  match goal with
  | |- context [if ret (bus ?n) <? 0 then _ else _] =>
    destruct (ret (bus n) <? 0); [close_repaint |]
  end;
  match goal with
  | |- context [negb (ret (bus ?n) <? 0)] =>
    destruct (ret (bus n) <? 0); cbn [negb]; [close_repaint |]
  end;
  cbn beta iota; norm.

(** A poll neither reads nor writes the display statics, and reads the
    trace not at all. *)
Lemma gt911_read_touch_repaint
      (bus : nat -> response) (out : touch_out) (s : machine)
      (t : list event) (o : st7796_orientation_t) (f : bool) :
  gt911_read_touch bus out (repaint t o f s)
  = (fst (gt911_read_touch bus out s),
     repaint (t ++ emitted (gt911_read_touch bus out) s) o f
             (snd (gt911_read_touch bus out s))).
Proof.
  unfold emitted, repaint, gt911_read_touch. unfold_monad. norm.
  destruct (initialized (gt911_dev s)); cbn [negb]; [| close_repaint].
  repaint_step bus.
  set (st := delivered (bus (S (calls s))) 0).
  destruct (negb (Z.land st GT911_STATUS_BUF_READY =? 0)
            || (Z.land st GT911_STATUS_PT_MASK <? 6));
    [rewrite !gt911_clear_status_run; norm | cbn beta iota];
    (destruct (Z.land st GT911_STATUS_PT_MASK =? 1); [| close_repaint]);
    do 4 repaint_step bus; close_repaint.
Qed.

Lemma lcd_calls_events_flag (cs : list lcd_call) (s s' : machine) :
  disp_flush_enabled s = disp_flush_enabled s' ->
  lcd_calls_events cs s = lcd_calls_events cs s'.
Proof.
  revert s s'. induction cs as [|c cs IH]; intros s s' H; [reflexivity |].
  cbn [lcd_calls_events]. f_equal.
  - destruct c; cbn [lcd_call_events]; try reflexivity. now rewrite H.
  - apply IH. destruct c; cbn [lcd_call_statics]; norm; auto.
Qed.

Lemma lcd_calls_run_repaint (cs : list lcd_call) (s : machine) :
  forallb lcd_call_ok cs = true ->
  snd (lcd_calls_run cs s)
  = repaint (trace s ++ lcd_calls_events cs s)
            (current_orientation (lcd_calls_statics cs s))
            (disp_flush_enabled (lcd_calls_statics cs s)) s.
Proof.
  intros Hok. rewrite (lcd_calls_run_eq cs s Hok). cbn [snd].
  destruct (lcd_calls_statics_frame cs s) as (Ht & Hc & Hd & Hx & Hy).
  unfold repaint. apply machine_ext; norm; congruence.
Qed.

(** X22: the touch driver and the display side do not interfere.  A poll
    made after any session of LCD calls returns the same result and
    outputs, makes the same bus traffic and retains the same coordinate as
    the same poll made before it; and the session puts the same events on
    the wire whether or not a poll came first.  The LCD calls consume no
    bus response and leave the touch driver's statics alone. *)
Theorem drivers_do_not_interfere
        (bus : nat -> response) (cs : list lcd_call) (out : touch_out)
        (s : machine) :
  forallb lcd_call_ok cs = true ->
  let s2 := snd (lcd_calls_run cs s) in
  let r := gt911_read_touch bus out s in
  let r2 := gt911_read_touch bus out s2 in
  fst r2 = fst r
  /\ emitted (gt911_read_touch bus out) s2
     = emitted (gt911_read_touch bus out) s
  /\ last_x (snd r2) = last_x (snd r) /\ last_y (snd r2) = last_y (snd r)
  /\ emitted (lcd_calls_run cs) (snd r) = emitted (lcd_calls_run cs) s
  /\ gt911_dev s2 = gt911_dev s /\ last_x s2 = last_x s
  /\ last_y s2 = last_y s /\ calls s2 = calls s.
Proof.
  intros Hok s2 r r2. subst s2 r r2.
  rewrite (lcd_calls_run_repaint cs s Hok).
  unfold emitted at 1. rewrite gt911_read_touch_repaint.
  unfold repaint at 1 2 3 4 5 6. norm.
  rewrite drop_app_length.
  split; [reflexivity |]. split; [reflexivity |].
  split; [reflexivity |]. split; [reflexivity |].
  split; [| unfold repaint; norm; repeat split].
  rewrite !(lcd_calls_emitted cs _ Hok).
  apply lcd_calls_events_flag.
  destruct (gt911_read_touch bus out s) as [r s'] eqn:E. cbn [snd].
  now destruct (gt911_read_touch_effect bus out s r s' E)
    as (evs & _ & _ & _ & _ & _ & _ & _ & ->).
Qed.

Lemma drivers_do_not_interfere_witness :
  fst (gt911_read_touch (script one_finger) (0, 0, false)
         (snd (lcd_calls_run
                 [CallSetOrientation ST7796_LANDSCAPE;
                  CallFlush (LvArea 0 0 1 0) (Some [0x1234; 0x5678])]
                 (ready 320 480 0 0))))
  = fst (gt911_read_touch (script one_finger) (0, 0, false)
                          (ready 320 480 0 0)).
Proof.
  exact (proj1 (drivers_do_not_interfere (script one_finger)
                  [CallSetOrientation ST7796_LANDSCAPE;
                   CallFlush (LvArea 0 0 1 0) (Some [0x1234; 0x5678])]
                  (0, 0, false) (ready 320 480 0 0) eq_refl)).
Defined.
